(** * CLEANSACMC: Soft Actor-Critic with morphological curiosity

A shallow embedding of [src/custom_algorithms/cleansacmc/cleansacmc.py]
and the properties of its specification.

Conventions of the embedding.
- Tensor elements are values of [num]: a real number, or one of the three
  IEEE special values (+inf, -inf, NaN).  Arithmetic on finite values is
  exact (rounding, overflow and signed zeros of float32 are not
  modelled); arithmetic on special values follows IEEE 754.  Where the
  rounding decides a property, the operations are given again in
  binary32 ([action_rescaling32], [rescale32]).
- A Python exception is a value of [exn]; code that can raise runs in the
  [result] monad.
- Objects of collaborating libraries whose code is not part of the
  repository (the replay buffer, the environment, Adam, the
  [MorphologicalNetworks] module, the random generators) are the
  variables of the section [Engine]. *)

From Stdlib Require Import Ascii Reals Lra Lia ZArith.
From Stdlib Require Floats.SpecFloat.
From stdpp Require Import base option list strings gmap fin_maps pretty.

Set Default Proof Using "Type".

(** ** Exceptions and the [result] monad *)

Inductive exn : Type :=
| KeyError (key : string)
| AttributeError (attr : string)
| AssertionError (msg : string)
| ValueError (msg : string)
| TypeError (msg : string)
| IndexError (msg : string)
| FileNotFoundError (path : string)
| RuntimeError (msg : string).

Inductive result (A : Type) : Type :=
| Ok (a : A)
| Raise (e : exn).
Arguments Ok {A} a.
Arguments Raise {A} e.

Global Instance result_ret : MRet result := fun A a => Ok a.
Global Instance result_bind : MBind result := fun A B f m =>
  match m with
  | Ok a => f a
  | Raise e => Raise e
  end.
Global Instance result_fmap : FMap result := fun A B f m =>
  match m with
  | Ok a => Ok (f a)
  | Raise e => Raise e
  end.

Definition is_Ok {A} (m : result A) : Prop := exists a, m = Ok a.

Definition raises {A} (m : result A) : Prop := exists e, m = Raise e.

(** [d[k]] on a Python dict. *)
Definition getitem {V} (d : gmap string V) (k : string) : result V :=
  match d !! k with
  | Some v => Ok v
  | None => Raise (KeyError k)
  end.

(** [for x in l: acc = f(acc, x)] where the body can raise. *)
Fixpoint foldM {A B} (f : A -> B -> result A) (l : list B) (a : A) : result A :=
  match l with
  | [] => Ok a
  | x :: l' => a' ← f a x; foldM f l' a'
  end.

Fixpoint mapM_result {A B} (f : A -> result B) (l : list A) : result (list B) :=
  match l with
  | [] => Ok []
  | x :: l' => y ← f x; ys ← mapM_result f l'; Ok (y :: ys)
  end.

(** ** Tensor elements *)

Inductive num : Type :=
| Fin (r : R)
| PInf
| NInf
| NaN.

Definition is_finite (x : num) : bool :=
  match x with Fin _ => true | _ => false end.

Definition is_nan (x : num) : bool :=
  match x with NaN => true | _ => false end.

Definition Rltb (a b : R) : bool := if Rlt_dec a b then true else false.
Definition Rleb (a b : R) : bool := if Rle_dec a b then true else false.

Module Num.

Definition zero : num := Fin 0.
Definition one : num := Fin 1.
Definition of_Z (z : Z) : num := Fin (IZR z).

Definition neg (x : num) : num :=
  match x with
  | Fin a => Fin (- a)
  | PInf => NInf
  | NInf => PInf
  | NaN => NaN
  end.

Definition add (x y : num) : num :=
  match x, y with
  | NaN, _ | _, NaN => NaN
  | Fin a, Fin b => Fin (a + b)
  | PInf, NInf | NInf, PInf => NaN
  | PInf, _ | _, PInf => PInf
  | NInf, _ | _, NInf => NInf
  end.

Definition sub (x y : num) : num := add x (neg y).

(** The infinity whose sign is the sign of [a]; NaN for [a = 0]
    (the IEEE product [0 * inf]). *)
Definition signed_inf (a : R) : num :=
  if Rltb 0 a then PInf else if Rltb a 0 then NInf else NaN.

Definition mul (x y : num) : num :=
  match x, y with
  | NaN, _ | _, NaN => NaN
  | Fin a, Fin b => Fin (a * b)
  | Fin a, PInf | PInf, Fin a => signed_inf a
  | Fin a, NInf | NInf, Fin a => signed_inf (- a)
  | PInf, PInf | NInf, NInf => PInf
  | PInf, NInf | NInf, PInf => NInf
  end.

(** Division; a zero divisor is the positive zero. *)
Definition div (x y : num) : num :=
  match x, y with
  | NaN, _ | _, NaN => NaN
  | Fin a, Fin b =>
      if Rltb 0 b then Fin (a / b)
      else if Rltb b 0 then Fin (a / b)
      else signed_inf a
  | Fin _, PInf | Fin _, NInf => Fin 0
  | PInf, Fin b => if Rltb b 0 then NInf else PInf
  | NInf, Fin b => if Rltb b 0 then PInf else NInf
  | _, _ => NaN
  end.

Definition exp (x : num) : num :=
  match x with
  | Fin a => Fin (Rtrigo_def.exp a)
  | PInf => PInf
  | NInf => Fin 0
  | NaN => NaN
  end.

Definition log (x : num) : num :=
  match x with
  | Fin a => if Rltb 0 a then Fin (ln a) else if Rltb a 0 then NaN else NInf
  | PInf => PInf
  | NInf => NaN
  | NaN => NaN
  end.

Definition tanh (x : num) : num :=
  match x with
  | Fin a => Fin (Rtrigo_def.tanh a)
  | PInf => Fin 1
  | NInf => Fin (-1)
  | NaN => NaN
  end.

(** [x < y], false as soon as one side is NaN. *)
Definition ltb (x y : num) : bool :=
  match x, y with
  | NaN, _ | _, NaN => false
  | Fin a, Fin b => Rltb a b
  | NInf, NInf => false
  | NInf, _ => true
  | _, PInf => match x with PInf => false | _ => true end
  | _, _ => false
  end.

Definition leb (x y : num) : bool :=
  match x, y with
  | NaN, _ | _, NaN => false
  | Fin a, Fin b => Rleb a b
  | NInf, _ => true
  | _, PInf => true
  | _, _ => false
  end.

(** [torch.min] / [torch.max] of two elements: NaN propagates. *)
Definition min (x y : num) : num :=
  match x, y with
  | NaN, _ | _, NaN => NaN
  | _, _ => if leb x y then x else y
  end.

Definition max (x y : num) : num :=
  match x, y with
  | NaN, _ | _, NaN => NaN
  | _, _ => if leb x y then y else x
  end.

(** [F.relu] and [torch.clamp] on one element. *)
Definition relu (x : num) : num := max x zero.

Definition clamp (lo hi x : num) : num := min (max x lo) hi.

Definition pow2 (x : num) : num := mul x x.

Definition of_nat (n : nat) : num := Fin (INR n).

End Num.

Declare Scope num_scope.
Delimit Scope num_scope with num.
Bind Scope num_scope with num.
Infix "+" := Num.add : num_scope.
Infix "-" := Num.sub : num_scope.
Infix "*" := Num.mul : num_scope.
Infix "/" := Num.div : num_scope.
Notation "- x" := (Num.neg x) : num_scope.

(** ** Tensors

An activation is a vector ([vec], one sample) or a list of rows
([batch], shape [B, D]); a parameter or buffer of a module is a
[tensor]: its shape and its elements in row-major order. *)

Abbreviation vec := (list num).
Abbreviation batch := (list (list num)).

Record tensor : Type := { shape : list nat; data : list num }.

Definition shape_error {A} : result A :=
  Raise (RuntimeError "The size of tensor a must match the size of tensor b").

(** Element-wise binary operation on two 1-D tensors, with torch's
    broadcasting of a dimension of size 1. *)
Definition bc1 (f : num -> num -> num) (x y : vec) : result vec :=
  if decide (length x = length y) then Ok (zip_with f x y)
  else match x, y with
       | [a], _ => Ok (map (f a) y)
       | _, [b] => Ok (map (fun a => f a b) x)
       | _, _ => shape_error
       end.

(** The same on two 2-D tensors. *)
Definition bc2 (f : num -> num -> num) (a b : batch) : result batch :=
  if decide (length a = length b)
  then mapM_result (fun p => bc1 f p.1 p.2) (zip a b)
  else match a, b with
       | [ra], _ => mapM_result (fun rb => bc1 f ra rb) b
       | _, [rb] => mapM_result (fun ra => bc1 f ra rb) a
       | _, _ => shape_error
       end.

Definition vsum (x : vec) : num := foldl Num.add Num.zero x.

(** [x.mean()] of a 1-D tensor; NaN (0/0) on an empty one. *)
Definition vmean (x : vec) : num := (vsum x / Num.of_nat (length x))%num.

Definition flatten (a : batch) : vec := concat a.

(** [a.mean()], over all elements. *)
Definition mean_all (a : batch) : num := vmean (flatten a).

(** [a.mean(-1)]. *)
Definition mean_last (a : batch) : vec := map vmean a.

(** [v.unsqueeze(1)] and [v.view(-1, 1)] of a 1-D tensor. *)
Definition unsqueeze1 (v : vec) : batch := map (fun x => [x]) v.

(** [a.sum(1, keepdim=True)]. *)
Definition sum1_keepdim (a : batch) : batch := map (fun row => [vsum row]) a.

Definition map2d (f : num -> num) (a : batch) : batch := map (map f) a.

(** [torch.cat([x, a], 1)]. *)
Definition cat1 (x a : batch) : result batch :=
  if decide (length x = length a) then Ok (zip_with app x a)
  else Raise (RuntimeError "Sizes of tensors must match except in dimension 1").

(** [torch.stack(ts)] followed by [torch.min(_, dim=0).values]: the
    element-wise minimum over the ensemble axis. *)
Definition stack (ts : list batch) : result (list batch) :=
  match ts with
  | [] => Raise (RuntimeError "stack expects a non-empty TensorList")
  | _ => Ok ts
  end.

Definition min_dim0 (ts : list batch) : result batch :=
  match ts with
  | [] => Raise (RuntimeError "min(): Expected reduction dim 0 to have non-zero size")
  | t :: ts' => foldM (fun acc t' => bc2 Num.min acc t') ts' t
  end.

(** ** [nn.Linear] *)

Record Linear : Type := { weight : tensor; bias : tensor }.

Definition dot (w x : vec) : num := vsum (zip_with Num.mul x w).

(** The rows of a row-major [out] x [inn] matrix. *)
Definition rows (inn out : nat) (d : list num) : list vec :=
  map (fun j => take inn (drop (j * inn) d)) (seq 0 out).

(** [F.linear(x, weight, bias)] on one sample. *)
Definition Linear_forward (l : Linear) (x : vec) : result vec :=
  match shape (weight l) with
  | [out; inn] =>
      if decide (length x = inn)
      then bc1 Num.add (map (fun w => dot w x) (rows inn out (data (weight l))))
                       (data (bias l))
      else Raise (RuntimeError "mat1 and mat2 shapes cannot be multiplied")
  | _ => Raise (RuntimeError "mat1 and mat2 shapes cannot be multiplied")
  end.

Definition Linear_batch (l : Linear) (x : batch) : result batch :=
  mapM_result (Linear_forward l) x.

(** Named parameters in registration order, as [named_parameters(prefix)]. *)
Definition Linear_named (prefix : string) (l : Linear) : list (string * tensor) :=
  [(prefix +:+ "weight", weight l); (prefix +:+ "bias", bias l)].

(** ** [state_dict] and [load_state_dict] *)

Definition load_error {A} : result A :=
  Raise (RuntimeError "Error(s) in loading state_dict").

(** One entry of [Module._load_from_state_dict]: the key must be present
    and its tensor must have the shape of the module's own; the values are
    then copied into the module ([param.copy_(input_param)]). *)
Definition load_tensor (sd : gmap string tensor) (key : string) (own : tensor)
  : result tensor :=
  match sd !! key with
  | None => load_error
  | Some t => if decide (shape t = shape own) then Ok t else load_error
  end.

Definition Linear_load (sd : gmap string tensor) (prefix : string) (l : Linear)
  : result Linear :=
  w ← load_tensor sd (prefix +:+ "weight") (weight l);
  b ← load_tensor sd (prefix +:+ "bias") (bias l);
  Ok {| weight := w; bias := b |}.

(** Strict loading: a key of [sd] that the module does not have is an
    error as well. *)
Definition check_unexpected (own sd : gmap string tensor) : result unit :=
  if decide (dom sd ⊆ dom own) then Ok tt else load_error.

(** ** The critic and the critic ensemble *)

Record Critic : Type :=
  { c_fc1 : Linear; c_fc2 : Linear; c_fc3 : Linear; c_fc4 : Linear }.

Definition Critic_forward (c : Critic) (x a : batch) : result batch :=
  x ← cat1 x a;
  x ← map2d Num.relu <$> Linear_batch (c_fc1 c) x;
  x ← map2d Num.relu <$> Linear_batch (c_fc2 c) x;
  x ← map2d Num.relu <$> Linear_batch (c_fc3 c) x;
  Linear_batch (c_fc4 c) x.

Definition Critic_named (prefix : string) (c : Critic) : list (string * tensor) :=
  Linear_named (prefix +:+ "fc1.") (c_fc1 c) ++
  Linear_named (prefix +:+ "fc2.") (c_fc2 c) ++
  Linear_named (prefix +:+ "fc3.") (c_fc3 c) ++
  Linear_named (prefix +:+ "fc4.") (c_fc4 c).

Definition Critic_load (sd : gmap string tensor) (prefix : string) (c : Critic)
  : result Critic :=
  l1 ← Linear_load sd (prefix +:+ "fc1.") (c_fc1 c);
  l2 ← Linear_load sd (prefix +:+ "fc2.") (c_fc2 c);
  l3 ← Linear_load sd (prefix +:+ "fc3.") (c_fc3 c);
  l4 ← Linear_load sd (prefix +:+ "fc4.") (c_fc4 c);
  Ok {| c_fc1 := l1; c_fc2 := l2; c_fc3 := l3; c_fc4 := l4 |}.

(** [CriticEnsemble] has the single attribute [_critics], a [ModuleList]. *)
Record CriticEnsemble : Type := { _critics : list Critic }.

Definition CriticEnsemble_forward (e : CriticEnsemble) (x a : batch)
  : result (list batch) :=
  qs ← mapM_result (fun critic => Critic_forward critic x a) (_critics e);
  stack qs.

Definition critic_prefix (i : nat) : string := "_critics." +:+ pretty i +:+ ".".

Definition CriticEnsemble_named (e : CriticEnsemble) : list (string * tensor) :=
  concat (imap (fun i c => Critic_named (critic_prefix i) c) (_critics e)).

(** [module.parameters()]: the tensors, in registration order. *)
Definition CriticEnsemble_parameters (e : CriticEnsemble) : list tensor :=
  (CriticEnsemble_named e).*2.

Definition CriticEnsemble_state_dict (e : CriticEnsemble) : gmap string tensor :=
  list_to_map (CriticEnsemble_named e).

Definition CriticEnsemble_load_state_dict (e : CriticEnsemble)
  (sd : gmap string tensor) : result CriticEnsemble :=
  cs ← mapM_result (fun ic => Critic_load sd (critic_prefix ic.1) ic.2)
        (imap (fun i c => (i, c)) (_critics e));
  _ ← check_unexpected (CriticEnsemble_state_dict e) sd;
  Ok {| _critics := cs |}.

(** ** Spaces and the environment handle *)

(** [gymnasium.spaces.Box]: per-dimension bounds and the shape. *)
Record Box : Type := { low : vec; high : vec; box_shape : list nat }.

(** An observation space is a [Box] or a [spaces.Dict] of boxes. *)
Inductive Space : Type :=
| BoxSpace (b : Box)
| DictSpace (spaces : list (string * Box)).

(** The vectorised environment the engine holds: its two spaces, the number
    of sub-environments and the state of the simulator. *)
Record Env (Sim : Type) : Type :=
  { observation_space : Space;
    action_space : Box;
    num_envs : nat;
    env_state : Sim }.
Arguments observation_space {Sim} _.
Arguments action_space {Sim} _.
Arguments num_envs {Sim} _.
Arguments env_state {Sim} _.

Definition np_sum (l : list nat) : nat := foldr Nat.add 0 l.
Definition np_prod (l : list nat) : nat := foldr Nat.mul 1 l.

(** [obs_shape] of [Actor.__init__] and [Critic.__init__]. *)
Definition obs_shape (sp : Space) : nat :=
  match sp with
  | DictSpace spaces => np_sum (concat (map (fun kv => box_shape kv.2) spaces))
  | BoxSpace b => np_sum (box_shape b)
  end.

(** The observation of one sub-environment, as the step info reports it
    under ["terminal_observation"]. *)
Inductive TermObs : Type :=
| TermArray (v : vec)
| TermDict (d : gmap string vec).

(** A batched observation: an array of rows, or a dict of arrays.  The dict
    can also hold entries under integer keys, which is what
    [real_next_obs[idx] = ...] creates on a dict. *)
Inductive Obs : Type :=
| ObsArray (a : batch)
| ObsDict (d : gmap string batch) (by_index : gmap nat TermObs).

(** [ReplayBufferSamples] *)
Record ReplayBufferSamples : Type :=
  { observations : Obs;
    actions : batch;
    next_observations : Obs;
    dones : batch;
    rewards : batch }.

Definition flatten_obs (obs : Obs) : result batch :=
  match obs with
  | ObsArray a => Ok a
  | ObsDict d _ =>
      observation ← getitem d "observation";
      ag ← getitem d "achieved_goal";
      dg ← getitem d "desired_goal";
      oa ← cat1 observation ag;
      cat1 oa dg
  end.

(** The three buffer classes of stable-baselines3 the constructor chooses
    from. *)
Inductive BufferClass : Type := HerReplayBuffer | DictReplayBuffer | PlainReplayBuffer.

(** ** Collaborators

    The operations of the libraries the engine calls.  A generator is
    torch's default random generator: [init_sample fan_in g k] is the
    [k]-th value [nn.Linear(fan_in, _)] draws from [g] when it initialises
    its parameters, [randn_sample g k] the [k]-th standard normal value
    drawn from [g], and [advance k g] the generator after [k] draws.
    [Adam_step opt loss ps] is [zero_grad(); loss.backward(); step()] for the
    optimizer [opt] over the parameters [ps], [loss] being the loss as a
    function of these parameters: it returns the new optimizer state and the
    new value of element [k] of parameter [i]. *)
Class Collaborators : Type :=
  { Generator : Type;
    init_sample : nat -> Generator -> nat -> R;
    randn_sample : Generator -> nat -> R;
    advance : nat -> Generator -> Generator;
    Adam : Type;
    Adam_new : list tensor -> num -> Adam;
    Adam_step : Adam -> (list tensor -> num) -> list tensor ->
                Adam * (nat -> nat -> num);
    (** the simulator behind the [VecEnv]; [space_sample] is
        [env.action_space.sample()] *)
    EnvState : Type;
    Info : Type;
    terminal_observation : Info -> result TermObs;
    env_step : Env EnvState -> batch ->
               (Obs * vec * list bool * list Info) * Env EnvState;
    space_sample : Env EnvState -> vec * Env EnvState;
    (** stable-baselines3 replay buffers *)
    ReplayBuffer : Type;
    ReplayBuffer_new : BufferClass -> Z -> Env EnvState -> ReplayBuffer;
    rb_add : ReplayBuffer -> option Obs -> Obs -> batch -> vec -> list bool ->
             list Info -> ReplayBuffer;
    rb_sample : ReplayBuffer -> Z -> ReplayBufferSamples * ReplayBuffer;
    (** the module [mc.py] of the repository and the distributions it
        returns *)
    MorphologicalNetworks : Type;
    Distribution : Type;
    MorphologicalNetworks_new :
      Env EnvState -> gmap string num -> Generator ->
      result (MorphologicalNetworks * Generator);
    mc_forward : MorphologicalNetworks -> batch -> batch ->
                 result (Distribution * Distribution);
    mc_parameters : MorphologicalNetworks -> list tensor;
    mc_set_parameters : list tensor -> MorphologicalNetworks -> MorphologicalNetworks;
    mc_state_dict : MorphologicalNetworks -> gmap string tensor;
    mc_load_state_dict : MorphologicalNetworks -> gmap string tensor ->
                         result MorphologicalNetworks;
    log_prob : Distribution -> batch -> result batch;
    kl_divergence : Distribution -> Distribution -> result batch }.

Definition LOG_STD_MAX : num := Num.of_Z 2.
Definition LOG_STD_MIN : num := Num.of_Z (-20).

(** The literal [1e-6] of [Actor.get_action]. *)
Definition eps_bound : num := Fin (/ 1000000).

(** [math.log(math.sqrt(2 * math.pi))] *)
Definition log_sqrt_2pi : num := Fin (ln (sqrt (2 * PI))).

(** ** [torch.distributions.Normal]

    The constructor validates its arguments, as torch does by default:
    [loc] must be real (not NaN) and [scale] positive. *)
Record Normal : Type := { loc : batch; scale : batch }.

Definition all2d (p : num -> bool) (a : batch) : bool := forallb (forallb p) a.

Definition Normal_new (mean std : batch) : result Normal :=
  if all2d (fun x => negb (is_nan x)) mean && all2d (Num.ltb Num.zero) std
  then Ok {| loc := mean; scale := std |}
  else Raise (ValueError "Expected parameter to satisfy the constraint").

(** [normal.log_prob(value)]:
    [-((value - loc) ** 2) / (2 * var) - log_scale - log(sqrt(2 * pi))],
    each tensor operation with its broadcasting. *)
Definition Normal_log_prob (n : Normal) (value : batch) : result batch :=
  if all2d (fun x => negb (is_nan x)) value
  then
    let var := map2d Num.pow2 (scale n) in
    let log_scale := map2d Num.log (scale n) in
    d ← bc2 Num.sub value (loc n);
    q ← bc2 Num.div (map2d (fun x => - Num.pow2 x)%num d)
                    (map2d (Num.mul (Num.of_Z 2)) var);
    r ← bc2 Num.sub q log_scale;
    Ok (map2d (fun x => x - log_sqrt_2pi)%num r)
  else Raise (ValueError "Expected value argument to be within the support").

(** ** The policy network *)

Record Actor : Type :=
  { fc1 : Linear; fc2 : Linear; fc3 : Linear;
    fc_mean : Linear; fc_logstd : Linear;
    action_scale : tensor; action_bias : tensor }.

Definition Actor_forward (a : Actor) (x : batch) : result (batch * batch) :=
  x ← map2d Num.relu <$> Linear_batch (fc1 a) x;
  x ← map2d Num.relu <$> Linear_batch (fc2 a) x;
  x ← map2d Num.relu <$> Linear_batch (fc3 a) x;
  mean ← Linear_batch (fc_mean a) x;
  log_std ← Linear_batch (fc_logstd a) x;
  let log_std := map2d (Num.clamp LOG_STD_MIN LOG_STD_MAX) log_std in
  Ok (mean, log_std).

Definition Actor_named (a : Actor) : list (string * tensor) :=
  Linear_named "fc1." (fc1 a) ++ Linear_named "fc2." (fc2 a) ++
  Linear_named "fc3." (fc3 a) ++ Linear_named "fc_mean." (fc_mean a) ++
  Linear_named "fc_logstd." (fc_logstd a).

Definition Actor_parameters (a : Actor) : list tensor := (Actor_named a).*2.

(** The registered buffers are part of the state dict, not of the
    parameters. *)
Definition Actor_state_dict (a : Actor) : gmap string tensor :=
  list_to_map (Actor_named a ++
    [("action_scale", action_scale a); ("action_bias", action_bias a)]).

Definition Actor_load_state_dict (a : Actor) (sd : gmap string tensor)
  : result Actor :=
  l1 ← Linear_load sd "fc1." (fc1 a);
  l2 ← Linear_load sd "fc2." (fc2 a);
  l3 ← Linear_load sd "fc3." (fc3 a);
  lm ← Linear_load sd "fc_mean." (fc_mean a);
  ls ← Linear_load sd "fc_logstd." (fc_logstd a);
  sc ← load_tensor sd "action_scale" (action_scale a);
  bi ← load_tensor sd "action_bias" (action_bias a);
  _ ← check_unexpected (Actor_state_dict a) sd;
  Ok {| fc1 := l1; fc2 := l2; fc3 := l3; fc_mean := lm; fc_logstd := ls;
        action_scale := sc; action_bias := bi |}.

(** The two buffers [Actor.__init__] registers for the action rescaling:
    [(high - low) / 2.0] and [(high + low) / 2.0]. *)
Definition action_rescaling (b : Box) : tensor * tensor :=
  ({| shape := box_shape b;
      data := zip_with (fun h l => (h - l) / Num.of_Z 2)%num (high b) (low b) |},
   {| shape := box_shape b;
      data := zip_with (fun h l => (h + l) / Num.of_Z 2)%num (high b) (low b) |}).

Section Engine.
  Context {col : Collaborators}.

(** [nn.Linear(in_features, out_features)] *)
Definition Linear_new (inn out : nat) (g : Generator) : Linear * Generator :=
  let w := map (fun k => Fin (init_sample inn g k)) (seq 0 (out * inn)) in
  let g := advance (out * inn) g in
  let b := map (fun k => Fin (init_sample inn g k)) (seq 0 out) in
  ({| weight := {| shape := [out; inn]; data := w |};
      bias := {| shape := [out]; data := b |} |},
   advance out g).

Definition Actor_new (env : Env EnvState) (hidden_size : nat) (g : Generator)
  : Actor * Generator :=
  let '(scale, bias) := action_rescaling (action_space env) in
  let obs_shape := obs_shape (observation_space env) in
  let '(l1, g) := Linear_new obs_shape hidden_size g in
  let '(l2, g) := Linear_new hidden_size hidden_size g in
  let '(l3, g) := Linear_new hidden_size hidden_size g in
  let '(lm, g) := Linear_new hidden_size (np_prod (box_shape (action_space env))) g in
  let '(ls, g) := Linear_new hidden_size (np_prod (box_shape (action_space env))) g in
  ({| fc1 := l1; fc2 := l2; fc3 := l3; fc_mean := lm; fc_logstd := ls;
      action_scale := scale; action_bias := bias |}, g).

(** Standard normal noise of the shape of [x], drawn from [g]. *)
Definition randn_like (g : Generator) (x : batch) : batch :=
  let cols := length (hd [] x) in
  imap (fun b row => map (fun a => Fin (randn_sample g (b * cols + a)))
                         (seq 0 (length row))) x.

(** [normal.rsample()]: [loc + eps * scale]. *)
Definition Normal_rsample (n : Normal) (g : Generator) : result (batch * Generator) :=
  let eps := randn_like g (loc n) in
  es ← bc2 Num.mul eps (scale n);
  x ← bc2 Num.add (loc n) es;
  Ok (x, advance (length (flatten (loc n))) g).

Definition get_action (a : Actor) (x : batch) (g : Generator)
  : result (batch * batch * Generator) :=
  '(mean, log_std) ← Actor_forward a x;
  let std := map2d Num.exp log_std in
  normal ← Normal_new mean std;
  '(x_t, g) ← Normal_rsample normal g;
  let y_t := map2d Num.tanh x_t in
  ys ← bc2 Num.mul y_t [data (action_scale a)];
  action ← bc2 Num.add ys [data (action_bias a)];
  log_prob ← Normal_log_prob normal x_t;
  sj ← bc2 Num.mul [data (action_scale a)]
          (map2d (fun y => Num.one - Num.pow2 y)%num y_t);
  let corr := map2d (fun z => Num.log (z + eps_bound)%num) sj in
  log_prob ← bc2 Num.sub log_prob corr;
  let log_prob := sum1_keepdim log_prob in
  Ok (action, log_prob, g).


(** ** The engine

    [ent_coef] is the string ["auto"] or a float. *)
Inductive EntCoef : Type := Auto | Fixed (x : num).

(** The logger is the trace of the calls it received. *)
Inductive LogEntry : Type :=
| LogRecord (key : string) (value : num)
| LogRecordMean (key : string) (value : num).

Record Logger : Type := { entries : list LogEntry }.

(** The attributes of a [CLEANSACMC] object.  The four attributes of the
    entropy coefficient exist or not depending on [ent_coef]. *)
Record CLEANSACMC : Type :=
  { device : string;
    learning_rate : num;
    buffer_size : Z;
    batch_size : Z;
    learning_starts : Z;
    tau : num;
    gamma : num;
    n_critics : nat;
    hidden_size : nat;
    mc : gmap string num;
    env : Env EnvState;
    replay_buffer : ReplayBuffer;
    actor : Actor;
    actor_optimizer : Adam;
    critic : CriticEnsemble;
    critic_target : CriticEnsemble;
    critic_optimizer : Adam;
    mc_network : MorphologicalNetworks;
    mc_optimizer : Adam;
    ent_coef : EntCoef;
    target_entropy : option num;
    log_ent_coef : option tensor;
    ent_coef_optimizer : option Adam;
    ent_coef_tensor : option num;
    logger : option Logger;
    _last_obs : option Obs;
    num_timesteps : Z;
    _n_updates : Z }.

(** [self.<attribute> = v] *)
Definition set_device (v : string) (self : CLEANSACMC) : CLEANSACMC :=
  {| device := v; learning_rate := learning_rate self; buffer_size :=
     buffer_size self; batch_size := batch_size self; learning_starts :=
     learning_starts self; tau := tau self; gamma := gamma self;
     n_critics := n_critics self; hidden_size := hidden_size self; mc :=
     mc self; env := env self; replay_buffer := replay_buffer self;
     actor := actor self; actor_optimizer := actor_optimizer self;
     critic := critic self; critic_target := critic_target self;
     critic_optimizer := critic_optimizer self; mc_network := mc_network
     self; mc_optimizer := mc_optimizer self; ent_coef := ent_coef self;
     target_entropy := target_entropy self; log_ent_coef := log_ent_coef
     self; ent_coef_optimizer := ent_coef_optimizer self;
     ent_coef_tensor := ent_coef_tensor self; logger := logger self;
     _last_obs := _last_obs self; num_timesteps := num_timesteps self;
     _n_updates := _n_updates self |}.
Definition set_learning_rate (v : num) (self : CLEANSACMC) : CLEANSACMC :=
  {| device := device self; learning_rate := v; buffer_size :=
     buffer_size self; batch_size := batch_size self; learning_starts :=
     learning_starts self; tau := tau self; gamma := gamma self;
     n_critics := n_critics self; hidden_size := hidden_size self; mc :=
     mc self; env := env self; replay_buffer := replay_buffer self;
     actor := actor self; actor_optimizer := actor_optimizer self;
     critic := critic self; critic_target := critic_target self;
     critic_optimizer := critic_optimizer self; mc_network := mc_network
     self; mc_optimizer := mc_optimizer self; ent_coef := ent_coef self;
     target_entropy := target_entropy self; log_ent_coef := log_ent_coef
     self; ent_coef_optimizer := ent_coef_optimizer self;
     ent_coef_tensor := ent_coef_tensor self; logger := logger self;
     _last_obs := _last_obs self; num_timesteps := num_timesteps self;
     _n_updates := _n_updates self |}.
Definition set_buffer_size (v : Z) (self : CLEANSACMC) : CLEANSACMC :=
  {| device := device self; learning_rate := learning_rate self;
     buffer_size := v; batch_size := batch_size self; learning_starts :=
     learning_starts self; tau := tau self; gamma := gamma self;
     n_critics := n_critics self; hidden_size := hidden_size self; mc :=
     mc self; env := env self; replay_buffer := replay_buffer self;
     actor := actor self; actor_optimizer := actor_optimizer self;
     critic := critic self; critic_target := critic_target self;
     critic_optimizer := critic_optimizer self; mc_network := mc_network
     self; mc_optimizer := mc_optimizer self; ent_coef := ent_coef self;
     target_entropy := target_entropy self; log_ent_coef := log_ent_coef
     self; ent_coef_optimizer := ent_coef_optimizer self;
     ent_coef_tensor := ent_coef_tensor self; logger := logger self;
     _last_obs := _last_obs self; num_timesteps := num_timesteps self;
     _n_updates := _n_updates self |}.
Definition set_batch_size (v : Z) (self : CLEANSACMC) : CLEANSACMC :=
  {| device := device self; learning_rate := learning_rate self;
     buffer_size := buffer_size self; batch_size := v; learning_starts
     := learning_starts self; tau := tau self; gamma := gamma self;
     n_critics := n_critics self; hidden_size := hidden_size self; mc :=
     mc self; env := env self; replay_buffer := replay_buffer self;
     actor := actor self; actor_optimizer := actor_optimizer self;
     critic := critic self; critic_target := critic_target self;
     critic_optimizer := critic_optimizer self; mc_network := mc_network
     self; mc_optimizer := mc_optimizer self; ent_coef := ent_coef self;
     target_entropy := target_entropy self; log_ent_coef := log_ent_coef
     self; ent_coef_optimizer := ent_coef_optimizer self;
     ent_coef_tensor := ent_coef_tensor self; logger := logger self;
     _last_obs := _last_obs self; num_timesteps := num_timesteps self;
     _n_updates := _n_updates self |}.
Definition set_learning_starts (v : Z) (self : CLEANSACMC) : CLEANSACMC :=
  {| device := device self; learning_rate := learning_rate self;
     buffer_size := buffer_size self; batch_size := batch_size self;
     learning_starts := v; tau := tau self; gamma := gamma self;
     n_critics := n_critics self; hidden_size := hidden_size self; mc :=
     mc self; env := env self; replay_buffer := replay_buffer self;
     actor := actor self; actor_optimizer := actor_optimizer self;
     critic := critic self; critic_target := critic_target self;
     critic_optimizer := critic_optimizer self; mc_network := mc_network
     self; mc_optimizer := mc_optimizer self; ent_coef := ent_coef self;
     target_entropy := target_entropy self; log_ent_coef := log_ent_coef
     self; ent_coef_optimizer := ent_coef_optimizer self;
     ent_coef_tensor := ent_coef_tensor self; logger := logger self;
     _last_obs := _last_obs self; num_timesteps := num_timesteps self;
     _n_updates := _n_updates self |}.
Definition set_tau (v : num) (self : CLEANSACMC) : CLEANSACMC :=
  {| device := device self; learning_rate := learning_rate self;
     buffer_size := buffer_size self; batch_size := batch_size self;
     learning_starts := learning_starts self; tau := v; gamma := gamma
     self; n_critics := n_critics self; hidden_size := hidden_size self;
     mc := mc self; env := env self; replay_buffer := replay_buffer
     self; actor := actor self; actor_optimizer := actor_optimizer self;
     critic := critic self; critic_target := critic_target self;
     critic_optimizer := critic_optimizer self; mc_network := mc_network
     self; mc_optimizer := mc_optimizer self; ent_coef := ent_coef self;
     target_entropy := target_entropy self; log_ent_coef := log_ent_coef
     self; ent_coef_optimizer := ent_coef_optimizer self;
     ent_coef_tensor := ent_coef_tensor self; logger := logger self;
     _last_obs := _last_obs self; num_timesteps := num_timesteps self;
     _n_updates := _n_updates self |}.
Definition set_gamma (v : num) (self : CLEANSACMC) : CLEANSACMC :=
  {| device := device self; learning_rate := learning_rate self;
     buffer_size := buffer_size self; batch_size := batch_size self;
     learning_starts := learning_starts self; tau := tau self; gamma :=
     v; n_critics := n_critics self; hidden_size := hidden_size self; mc
     := mc self; env := env self; replay_buffer := replay_buffer self;
     actor := actor self; actor_optimizer := actor_optimizer self;
     critic := critic self; critic_target := critic_target self;
     critic_optimizer := critic_optimizer self; mc_network := mc_network
     self; mc_optimizer := mc_optimizer self; ent_coef := ent_coef self;
     target_entropy := target_entropy self; log_ent_coef := log_ent_coef
     self; ent_coef_optimizer := ent_coef_optimizer self;
     ent_coef_tensor := ent_coef_tensor self; logger := logger self;
     _last_obs := _last_obs self; num_timesteps := num_timesteps self;
     _n_updates := _n_updates self |}.
Definition set_n_critics (v : nat) (self : CLEANSACMC) : CLEANSACMC :=
  {| device := device self; learning_rate := learning_rate self;
     buffer_size := buffer_size self; batch_size := batch_size self;
     learning_starts := learning_starts self; tau := tau self; gamma :=
     gamma self; n_critics := v; hidden_size := hidden_size self; mc :=
     mc self; env := env self; replay_buffer := replay_buffer self;
     actor := actor self; actor_optimizer := actor_optimizer self;
     critic := critic self; critic_target := critic_target self;
     critic_optimizer := critic_optimizer self; mc_network := mc_network
     self; mc_optimizer := mc_optimizer self; ent_coef := ent_coef self;
     target_entropy := target_entropy self; log_ent_coef := log_ent_coef
     self; ent_coef_optimizer := ent_coef_optimizer self;
     ent_coef_tensor := ent_coef_tensor self; logger := logger self;
     _last_obs := _last_obs self; num_timesteps := num_timesteps self;
     _n_updates := _n_updates self |}.
Definition set_hidden_size (v : nat) (self : CLEANSACMC) : CLEANSACMC :=
  {| device := device self; learning_rate := learning_rate self;
     buffer_size := buffer_size self; batch_size := batch_size self;
     learning_starts := learning_starts self; tau := tau self; gamma :=
     gamma self; n_critics := n_critics self; hidden_size := v; mc := mc
     self; env := env self; replay_buffer := replay_buffer self; actor
     := actor self; actor_optimizer := actor_optimizer self; critic :=
     critic self; critic_target := critic_target self; critic_optimizer
     := critic_optimizer self; mc_network := mc_network self;
     mc_optimizer := mc_optimizer self; ent_coef := ent_coef self;
     target_entropy := target_entropy self; log_ent_coef := log_ent_coef
     self; ent_coef_optimizer := ent_coef_optimizer self;
     ent_coef_tensor := ent_coef_tensor self; logger := logger self;
     _last_obs := _last_obs self; num_timesteps := num_timesteps self;
     _n_updates := _n_updates self |}.
Definition set_mc (v : gmap string num) (self : CLEANSACMC) : CLEANSACMC :=
  {| device := device self; learning_rate := learning_rate self;
     buffer_size := buffer_size self; batch_size := batch_size self;
     learning_starts := learning_starts self; tau := tau self; gamma :=
     gamma self; n_critics := n_critics self; hidden_size := hidden_size
     self; mc := v; env := env self; replay_buffer := replay_buffer
     self; actor := actor self; actor_optimizer := actor_optimizer self;
     critic := critic self; critic_target := critic_target self;
     critic_optimizer := critic_optimizer self; mc_network := mc_network
     self; mc_optimizer := mc_optimizer self; ent_coef := ent_coef self;
     target_entropy := target_entropy self; log_ent_coef := log_ent_coef
     self; ent_coef_optimizer := ent_coef_optimizer self;
     ent_coef_tensor := ent_coef_tensor self; logger := logger self;
     _last_obs := _last_obs self; num_timesteps := num_timesteps self;
     _n_updates := _n_updates self |}.
Definition set_env (v : Env EnvState) (self : CLEANSACMC) : CLEANSACMC :=
  {| device := device self; learning_rate := learning_rate self;
     buffer_size := buffer_size self; batch_size := batch_size self;
     learning_starts := learning_starts self; tau := tau self; gamma :=
     gamma self; n_critics := n_critics self; hidden_size := hidden_size
     self; mc := mc self; env := v; replay_buffer := replay_buffer self;
     actor := actor self; actor_optimizer := actor_optimizer self;
     critic := critic self; critic_target := critic_target self;
     critic_optimizer := critic_optimizer self; mc_network := mc_network
     self; mc_optimizer := mc_optimizer self; ent_coef := ent_coef self;
     target_entropy := target_entropy self; log_ent_coef := log_ent_coef
     self; ent_coef_optimizer := ent_coef_optimizer self;
     ent_coef_tensor := ent_coef_tensor self; logger := logger self;
     _last_obs := _last_obs self; num_timesteps := num_timesteps self;
     _n_updates := _n_updates self |}.
Definition set_replay_buffer (v : ReplayBuffer) (self : CLEANSACMC) : CLEANSACMC :=
  {| device := device self; learning_rate := learning_rate self;
     buffer_size := buffer_size self; batch_size := batch_size self;
     learning_starts := learning_starts self; tau := tau self; gamma :=
     gamma self; n_critics := n_critics self; hidden_size := hidden_size
     self; mc := mc self; env := env self; replay_buffer := v; actor :=
     actor self; actor_optimizer := actor_optimizer self; critic :=
     critic self; critic_target := critic_target self; critic_optimizer
     := critic_optimizer self; mc_network := mc_network self;
     mc_optimizer := mc_optimizer self; ent_coef := ent_coef self;
     target_entropy := target_entropy self; log_ent_coef := log_ent_coef
     self; ent_coef_optimizer := ent_coef_optimizer self;
     ent_coef_tensor := ent_coef_tensor self; logger := logger self;
     _last_obs := _last_obs self; num_timesteps := num_timesteps self;
     _n_updates := _n_updates self |}.
Definition set_actor (v : Actor) (self : CLEANSACMC) : CLEANSACMC :=
  {| device := device self; learning_rate := learning_rate self;
     buffer_size := buffer_size self; batch_size := batch_size self;
     learning_starts := learning_starts self; tau := tau self; gamma :=
     gamma self; n_critics := n_critics self; hidden_size := hidden_size
     self; mc := mc self; env := env self; replay_buffer :=
     replay_buffer self; actor := v; actor_optimizer := actor_optimizer
     self; critic := critic self; critic_target := critic_target self;
     critic_optimizer := critic_optimizer self; mc_network := mc_network
     self; mc_optimizer := mc_optimizer self; ent_coef := ent_coef self;
     target_entropy := target_entropy self; log_ent_coef := log_ent_coef
     self; ent_coef_optimizer := ent_coef_optimizer self;
     ent_coef_tensor := ent_coef_tensor self; logger := logger self;
     _last_obs := _last_obs self; num_timesteps := num_timesteps self;
     _n_updates := _n_updates self |}.
Definition set_actor_optimizer (v : Adam) (self : CLEANSACMC) : CLEANSACMC :=
  {| device := device self; learning_rate := learning_rate self;
     buffer_size := buffer_size self; batch_size := batch_size self;
     learning_starts := learning_starts self; tau := tau self; gamma :=
     gamma self; n_critics := n_critics self; hidden_size := hidden_size
     self; mc := mc self; env := env self; replay_buffer :=
     replay_buffer self; actor := actor self; actor_optimizer := v;
     critic := critic self; critic_target := critic_target self;
     critic_optimizer := critic_optimizer self; mc_network := mc_network
     self; mc_optimizer := mc_optimizer self; ent_coef := ent_coef self;
     target_entropy := target_entropy self; log_ent_coef := log_ent_coef
     self; ent_coef_optimizer := ent_coef_optimizer self;
     ent_coef_tensor := ent_coef_tensor self; logger := logger self;
     _last_obs := _last_obs self; num_timesteps := num_timesteps self;
     _n_updates := _n_updates self |}.
Definition set_critic (v : CriticEnsemble) (self : CLEANSACMC) : CLEANSACMC :=
  {| device := device self; learning_rate := learning_rate self;
     buffer_size := buffer_size self; batch_size := batch_size self;
     learning_starts := learning_starts self; tau := tau self; gamma :=
     gamma self; n_critics := n_critics self; hidden_size := hidden_size
     self; mc := mc self; env := env self; replay_buffer :=
     replay_buffer self; actor := actor self; actor_optimizer :=
     actor_optimizer self; critic := v; critic_target := critic_target
     self; critic_optimizer := critic_optimizer self; mc_network :=
     mc_network self; mc_optimizer := mc_optimizer self; ent_coef :=
     ent_coef self; target_entropy := target_entropy self; log_ent_coef
     := log_ent_coef self; ent_coef_optimizer := ent_coef_optimizer
     self; ent_coef_tensor := ent_coef_tensor self; logger := logger
     self; _last_obs := _last_obs self; num_timesteps := num_timesteps
     self; _n_updates := _n_updates self |}.
Definition set_critic_target (v : CriticEnsemble) (self : CLEANSACMC) : CLEANSACMC :=
  {| device := device self; learning_rate := learning_rate self;
     buffer_size := buffer_size self; batch_size := batch_size self;
     learning_starts := learning_starts self; tau := tau self; gamma :=
     gamma self; n_critics := n_critics self; hidden_size := hidden_size
     self; mc := mc self; env := env self; replay_buffer :=
     replay_buffer self; actor := actor self; actor_optimizer :=
     actor_optimizer self; critic := critic self; critic_target := v;
     critic_optimizer := critic_optimizer self; mc_network := mc_network
     self; mc_optimizer := mc_optimizer self; ent_coef := ent_coef self;
     target_entropy := target_entropy self; log_ent_coef := log_ent_coef
     self; ent_coef_optimizer := ent_coef_optimizer self;
     ent_coef_tensor := ent_coef_tensor self; logger := logger self;
     _last_obs := _last_obs self; num_timesteps := num_timesteps self;
     _n_updates := _n_updates self |}.
Definition set_critic_optimizer (v : Adam) (self : CLEANSACMC) : CLEANSACMC :=
  {| device := device self; learning_rate := learning_rate self;
     buffer_size := buffer_size self; batch_size := batch_size self;
     learning_starts := learning_starts self; tau := tau self; gamma :=
     gamma self; n_critics := n_critics self; hidden_size := hidden_size
     self; mc := mc self; env := env self; replay_buffer :=
     replay_buffer self; actor := actor self; actor_optimizer :=
     actor_optimizer self; critic := critic self; critic_target :=
     critic_target self; critic_optimizer := v; mc_network := mc_network
     self; mc_optimizer := mc_optimizer self; ent_coef := ent_coef self;
     target_entropy := target_entropy self; log_ent_coef := log_ent_coef
     self; ent_coef_optimizer := ent_coef_optimizer self;
     ent_coef_tensor := ent_coef_tensor self; logger := logger self;
     _last_obs := _last_obs self; num_timesteps := num_timesteps self;
     _n_updates := _n_updates self |}.
Definition set_mc_network (v : MorphologicalNetworks) (self : CLEANSACMC) : CLEANSACMC :=
  {| device := device self; learning_rate := learning_rate self;
     buffer_size := buffer_size self; batch_size := batch_size self;
     learning_starts := learning_starts self; tau := tau self; gamma :=
     gamma self; n_critics := n_critics self; hidden_size := hidden_size
     self; mc := mc self; env := env self; replay_buffer :=
     replay_buffer self; actor := actor self; actor_optimizer :=
     actor_optimizer self; critic := critic self; critic_target :=
     critic_target self; critic_optimizer := critic_optimizer self;
     mc_network := v; mc_optimizer := mc_optimizer self; ent_coef :=
     ent_coef self; target_entropy := target_entropy self; log_ent_coef
     := log_ent_coef self; ent_coef_optimizer := ent_coef_optimizer
     self; ent_coef_tensor := ent_coef_tensor self; logger := logger
     self; _last_obs := _last_obs self; num_timesteps := num_timesteps
     self; _n_updates := _n_updates self |}.
Definition set_mc_optimizer (v : Adam) (self : CLEANSACMC) : CLEANSACMC :=
  {| device := device self; learning_rate := learning_rate self;
     buffer_size := buffer_size self; batch_size := batch_size self;
     learning_starts := learning_starts self; tau := tau self; gamma :=
     gamma self; n_critics := n_critics self; hidden_size := hidden_size
     self; mc := mc self; env := env self; replay_buffer :=
     replay_buffer self; actor := actor self; actor_optimizer :=
     actor_optimizer self; critic := critic self; critic_target :=
     critic_target self; critic_optimizer := critic_optimizer self;
     mc_network := mc_network self; mc_optimizer := v; ent_coef :=
     ent_coef self; target_entropy := target_entropy self; log_ent_coef
     := log_ent_coef self; ent_coef_optimizer := ent_coef_optimizer
     self; ent_coef_tensor := ent_coef_tensor self; logger := logger
     self; _last_obs := _last_obs self; num_timesteps := num_timesteps
     self; _n_updates := _n_updates self |}.
Definition set_ent_coef (v : EntCoef) (self : CLEANSACMC) : CLEANSACMC :=
  {| device := device self; learning_rate := learning_rate self;
     buffer_size := buffer_size self; batch_size := batch_size self;
     learning_starts := learning_starts self; tau := tau self; gamma :=
     gamma self; n_critics := n_critics self; hidden_size := hidden_size
     self; mc := mc self; env := env self; replay_buffer :=
     replay_buffer self; actor := actor self; actor_optimizer :=
     actor_optimizer self; critic := critic self; critic_target :=
     critic_target self; critic_optimizer := critic_optimizer self;
     mc_network := mc_network self; mc_optimizer := mc_optimizer self;
     ent_coef := v; target_entropy := target_entropy self; log_ent_coef
     := log_ent_coef self; ent_coef_optimizer := ent_coef_optimizer
     self; ent_coef_tensor := ent_coef_tensor self; logger := logger
     self; _last_obs := _last_obs self; num_timesteps := num_timesteps
     self; _n_updates := _n_updates self |}.
Definition set_target_entropy (v : option num) (self : CLEANSACMC) : CLEANSACMC :=
  {| device := device self; learning_rate := learning_rate self;
     buffer_size := buffer_size self; batch_size := batch_size self;
     learning_starts := learning_starts self; tau := tau self; gamma :=
     gamma self; n_critics := n_critics self; hidden_size := hidden_size
     self; mc := mc self; env := env self; replay_buffer :=
     replay_buffer self; actor := actor self; actor_optimizer :=
     actor_optimizer self; critic := critic self; critic_target :=
     critic_target self; critic_optimizer := critic_optimizer self;
     mc_network := mc_network self; mc_optimizer := mc_optimizer self;
     ent_coef := ent_coef self; target_entropy := v; log_ent_coef :=
     log_ent_coef self; ent_coef_optimizer := ent_coef_optimizer self;
     ent_coef_tensor := ent_coef_tensor self; logger := logger self;
     _last_obs := _last_obs self; num_timesteps := num_timesteps self;
     _n_updates := _n_updates self |}.
Definition set_log_ent_coef (v : option tensor) (self : CLEANSACMC) : CLEANSACMC :=
  {| device := device self; learning_rate := learning_rate self;
     buffer_size := buffer_size self; batch_size := batch_size self;
     learning_starts := learning_starts self; tau := tau self; gamma :=
     gamma self; n_critics := n_critics self; hidden_size := hidden_size
     self; mc := mc self; env := env self; replay_buffer :=
     replay_buffer self; actor := actor self; actor_optimizer :=
     actor_optimizer self; critic := critic self; critic_target :=
     critic_target self; critic_optimizer := critic_optimizer self;
     mc_network := mc_network self; mc_optimizer := mc_optimizer self;
     ent_coef := ent_coef self; target_entropy := target_entropy self;
     log_ent_coef := v; ent_coef_optimizer := ent_coef_optimizer self;
     ent_coef_tensor := ent_coef_tensor self; logger := logger self;
     _last_obs := _last_obs self; num_timesteps := num_timesteps self;
     _n_updates := _n_updates self |}.
Definition set_ent_coef_optimizer (v : option Adam) (self : CLEANSACMC) : CLEANSACMC :=
  {| device := device self; learning_rate := learning_rate self;
     buffer_size := buffer_size self; batch_size := batch_size self;
     learning_starts := learning_starts self; tau := tau self; gamma :=
     gamma self; n_critics := n_critics self; hidden_size := hidden_size
     self; mc := mc self; env := env self; replay_buffer :=
     replay_buffer self; actor := actor self; actor_optimizer :=
     actor_optimizer self; critic := critic self; critic_target :=
     critic_target self; critic_optimizer := critic_optimizer self;
     mc_network := mc_network self; mc_optimizer := mc_optimizer self;
     ent_coef := ent_coef self; target_entropy := target_entropy self;
     log_ent_coef := log_ent_coef self; ent_coef_optimizer := v;
     ent_coef_tensor := ent_coef_tensor self; logger := logger self;
     _last_obs := _last_obs self; num_timesteps := num_timesteps self;
     _n_updates := _n_updates self |}.
Definition set_ent_coef_tensor (v : option num) (self : CLEANSACMC) : CLEANSACMC :=
  {| device := device self; learning_rate := learning_rate self;
     buffer_size := buffer_size self; batch_size := batch_size self;
     learning_starts := learning_starts self; tau := tau self; gamma :=
     gamma self; n_critics := n_critics self; hidden_size := hidden_size
     self; mc := mc self; env := env self; replay_buffer :=
     replay_buffer self; actor := actor self; actor_optimizer :=
     actor_optimizer self; critic := critic self; critic_target :=
     critic_target self; critic_optimizer := critic_optimizer self;
     mc_network := mc_network self; mc_optimizer := mc_optimizer self;
     ent_coef := ent_coef self; target_entropy := target_entropy self;
     log_ent_coef := log_ent_coef self; ent_coef_optimizer :=
     ent_coef_optimizer self; ent_coef_tensor := v; logger := logger
     self; _last_obs := _last_obs self; num_timesteps := num_timesteps
     self; _n_updates := _n_updates self |}.
Definition set_logger (v : option Logger) (self : CLEANSACMC) : CLEANSACMC :=
  {| device := device self; learning_rate := learning_rate self;
     buffer_size := buffer_size self; batch_size := batch_size self;
     learning_starts := learning_starts self; tau := tau self; gamma :=
     gamma self; n_critics := n_critics self; hidden_size := hidden_size
     self; mc := mc self; env := env self; replay_buffer :=
     replay_buffer self; actor := actor self; actor_optimizer :=
     actor_optimizer self; critic := critic self; critic_target :=
     critic_target self; critic_optimizer := critic_optimizer self;
     mc_network := mc_network self; mc_optimizer := mc_optimizer self;
     ent_coef := ent_coef self; target_entropy := target_entropy self;
     log_ent_coef := log_ent_coef self; ent_coef_optimizer :=
     ent_coef_optimizer self; ent_coef_tensor := ent_coef_tensor self;
     logger := v; _last_obs := _last_obs self; num_timesteps :=
     num_timesteps self; _n_updates := _n_updates self |}.
Definition set__last_obs (v : option Obs) (self : CLEANSACMC) : CLEANSACMC :=
  {| device := device self; learning_rate := learning_rate self;
     buffer_size := buffer_size self; batch_size := batch_size self;
     learning_starts := learning_starts self; tau := tau self; gamma :=
     gamma self; n_critics := n_critics self; hidden_size := hidden_size
     self; mc := mc self; env := env self; replay_buffer :=
     replay_buffer self; actor := actor self; actor_optimizer :=
     actor_optimizer self; critic := critic self; critic_target :=
     critic_target self; critic_optimizer := critic_optimizer self;
     mc_network := mc_network self; mc_optimizer := mc_optimizer self;
     ent_coef := ent_coef self; target_entropy := target_entropy self;
     log_ent_coef := log_ent_coef self; ent_coef_optimizer :=
     ent_coef_optimizer self; ent_coef_tensor := ent_coef_tensor self;
     logger := logger self; _last_obs := v; num_timesteps :=
     num_timesteps self; _n_updates := _n_updates self |}.
Definition set_num_timesteps (v : Z) (self : CLEANSACMC) : CLEANSACMC :=
  {| device := device self; learning_rate := learning_rate self;
     buffer_size := buffer_size self; batch_size := batch_size self;
     learning_starts := learning_starts self; tau := tau self; gamma :=
     gamma self; n_critics := n_critics self; hidden_size := hidden_size
     self; mc := mc self; env := env self; replay_buffer :=
     replay_buffer self; actor := actor self; actor_optimizer :=
     actor_optimizer self; critic := critic self; critic_target :=
     critic_target self; critic_optimizer := critic_optimizer self;
     mc_network := mc_network self; mc_optimizer := mc_optimizer self;
     ent_coef := ent_coef self; target_entropy := target_entropy self;
     log_ent_coef := log_ent_coef self; ent_coef_optimizer :=
     ent_coef_optimizer self; ent_coef_tensor := ent_coef_tensor self;
     logger := logger self; _last_obs := _last_obs self; num_timesteps
     := v; _n_updates := _n_updates self |}.
Definition set__n_updates (v : Z) (self : CLEANSACMC) : CLEANSACMC :=
  {| device := device self; learning_rate := learning_rate self;
     buffer_size := buffer_size self; batch_size := batch_size self;
     learning_starts := learning_starts self; tau := tau self; gamma :=
     gamma self; n_critics := n_critics self; hidden_size := hidden_size
     self; mc := mc self; env := env self; replay_buffer :=
     replay_buffer self; actor := actor self; actor_optimizer :=
     actor_optimizer self; critic := critic self; critic_target :=
     critic_target self; critic_optimizer := critic_optimizer self;
     mc_network := mc_network self; mc_optimizer := mc_optimizer self;
     ent_coef := ent_coef self; target_entropy := target_entropy self;
     log_ent_coef := log_ent_coef self; ent_coef_optimizer :=
     ent_coef_optimizer self; ent_coef_tensor := ent_coef_tensor self;
     logger := logger self; _last_obs := _last_obs self; num_timesteps
     := num_timesteps self; _n_updates := v |}.


(** [self.logger.record(key, value)] and [record_mean]; the logger is
    [None] until [set_logger] is called. *)
Definition record (key : string) (value : num) (self : CLEANSACMC)
  : result CLEANSACMC :=
  match logger self with
  | None => Raise (AttributeError "record")
  | Some l =>
      Ok (set_logger (Some {| entries := entries l ++ [LogRecord key value] |}) self)
  end.

Definition record_mean (key : string) (value : num) (self : CLEANSACMC)
  : result CLEANSACMC :=
  match logger self with
  | None => Raise (AttributeError "record_mean")
  | Some l =>
      Ok (set_logger (Some {| entries := entries l ++ [LogRecordMean key value] |}) self)
  end.

(** [self.<name>] for an attribute that may not exist. *)
Definition getattr {A} (name : string) (v : option A) : result A :=
  match v with
  | Some a => Ok a
  | None => Raise (AttributeError name)
  end.

(** *** Parameters of a module, by position *)

Definition Linear_set (ps : list tensor) (off : nat) (l : Linear) : Linear :=
  {| weight := default (weight l) (ps !! off);
     bias := default (bias l) (ps !! S off) |}.

Definition Critic_set (ps : list tensor) (off : nat) (c : Critic) : Critic :=
  {| c_fc1 := Linear_set ps off (c_fc1 c);
     c_fc2 := Linear_set ps (off + 2) (c_fc2 c);
     c_fc3 := Linear_set ps (off + 4) (c_fc3 c);
     c_fc4 := Linear_set ps (off + 6) (c_fc4 c) |}.

(** The module whose [i]-th parameter is [ps !! i]; a parameter beyond the
    end of [ps] keeps its value. *)
Definition CriticEnsemble_set (ps : list tensor) (e : CriticEnsemble)
  : CriticEnsemble :=
  {| _critics := imap (fun i c => Critic_set ps (8 * i) c) (_critics e) |}.

Definition Actor_set (ps : list tensor) (a : Actor) : Actor :=
  {| fc1 := Linear_set ps 0 (fc1 a);
     fc2 := Linear_set ps 2 (fc2 a);
     fc3 := Linear_set ps 4 (fc3 a);
     fc_mean := Linear_set ps 6 (fc_mean a);
     fc_logstd := Linear_set ps 8 (fc_logstd a);
     action_scale := action_scale a;
     action_bias := action_bias a |}.

(** The parameters after an optimizer step that gives element [k] of
    parameter [i] the value [new i k]. *)
Definition stepped (new : nat -> nat -> num) (ps : list tensor) : list tensor :=
  imap (fun i t => {| shape := shape t;
                      data := imap (fun k _ => new i k) (data t) |}) ps.

(** The value of a loss at other parameters; NaN where it is undefined. *)
Definition loss_value (l : result num) : num :=
  match l with Ok x => x | Raise _ => NaN end.

(** [t.item()] *)
Definition item (t : tensor) : result num :=
  match data t with
  | [x] => Ok x
  | _ => Raise (RuntimeError "a Tensor with several elements cannot be converted to Scalar")
  end.

(** *** Construction *)

Definition Critic_new (env : Env EnvState) (hidden_size : nat) (g : Generator)
  : Critic * Generator :=
  let obs_shape := obs_shape (observation_space env) in
  let '(l1, g) :=
    Linear_new (obs_shape + np_prod (box_shape (action_space env))) hidden_size g in
  let '(l2, g) := Linear_new hidden_size hidden_size g in
  let '(l3, g) := Linear_new hidden_size hidden_size g in
  let '(l4, g) := Linear_new hidden_size 1 g in
  ({| c_fc1 := l1; c_fc2 := l2; c_fc3 := l3; c_fc4 := l4 |}, g).

Fixpoint Critics_new (env : Env EnvState) (n hidden_size : nat) (g : Generator)
  : list Critic * Generator :=
  match n with
  | O => ([], g)
  | S n' =>
      let '(c, g) := Critic_new env hidden_size g in
      let '(cs, g) := Critics_new env n' hidden_size g in
      (c :: cs, g)
  end.

Definition CriticEnsemble_new (env : Env EnvState) (n_critics hidden_size : nat)
  (g : Generator) : CriticEnsemble * Generator :=
  let '(cs, g) := Critics_new env n_critics hidden_size g in
  ({| _critics := cs |}, g).

(** What [_create_actor_critic] assigns. *)
Record ActorCritic : Type :=
  { ac_actor : Actor; ac_actor_optimizer : Adam;
    ac_critic : CriticEnsemble; ac_critic_target : CriticEnsemble;
    ac_critic_optimizer : Adam;
    ac_mc_network : MorphologicalNetworks; ac_mc_optimizer : Adam }.

Definition _create_actor_critic (env : Env EnvState) (hidden_size n_critics : nat)
  (learning_rate : num) (mc : gmap string num) (g : Generator)
  : result (ActorCritic * Generator) :=
  let '(actor, g) := Actor_new env hidden_size g in
  let actor_optimizer := Adam_new (Actor_parameters actor) learning_rate in
  let '(critic, g) := CriticEnsemble_new env n_critics hidden_size g in
  let '(critic_target, g) := CriticEnsemble_new env n_critics hidden_size g in
  critic_target ←
    CriticEnsemble_load_state_dict critic_target (CriticEnsemble_state_dict critic);
  let critic_optimizer := Adam_new (CriticEnsemble_parameters critic) learning_rate in
  '(mc_network, g) ← MorphologicalNetworks_new env mc g;
  lr ← getitem mc "learning_rate";
  let mc_optimizer := Adam_new (mc_parameters mc_network) lr in
  Ok ({| ac_actor := actor; ac_actor_optimizer := actor_optimizer;
         ac_critic := critic; ac_critic_target := critic_target;
         ac_critic_optimizer := critic_optimizer;
         ac_mc_network := mc_network; ac_mc_optimizer := mc_optimizer |}, g).

(** The keyword arguments of the constructor. *)
Record Kwargs : Type :=
  { kw_learning_rate : num; kw_buffer_size : Z; kw_learning_starts : Z;
    kw_batch_size : Z; kw_tau : num; kw_gamma : num; kw_ent_coef : EntCoef;
    kw_use_her : bool; kw_n_critics : nat; kw_hidden_size : nat;
    kw_mc : gmap string num }.

Definition default_kwargs : Kwargs :=
  {| kw_learning_rate := Fin (3 / 10000); kw_buffer_size := 1000000;
     kw_learning_starts := 100; kw_batch_size := 256;
     kw_tau := Fin (5 / 1000); kw_gamma := Fin (99 / 100);
     kw_ent_coef := Auto; kw_use_her := true; kw_n_critics := 2;
     kw_hidden_size := 256; kw_mc := ∅ |}.

(** [np.all(np.isfinite(np.array([low, high])))] *)
Definition bounds_finite (b : Box) : bool :=
  forallb is_finite (low b) && forallb is_finite (high b).

(** [CLEANSACMC.__init__]; [cuda] is [torch.cuda.is_available()]. *)
Definition __init__ (env : Env EnvState) (kw : Kwargs) (cuda : bool)
  (g : Generator) : result (CLEANSACMC * Generator) :=
  let device : string := if cuda then "cuda" else "cpu" in
  _ ← (if bounds_finite (action_space env) then Ok tt
       else Raise (AssertionError
              "Continuous action space must have a finite lower and upper bound"));
  let replay_buffer :=
    if kw_use_her kw then ReplayBuffer_new HerReplayBuffer (kw_buffer_size kw) env
    else match observation_space env with
         | DictSpace _ => ReplayBuffer_new DictReplayBuffer (kw_buffer_size kw) env
         | BoxSpace _ => ReplayBuffer_new PlainReplayBuffer (kw_buffer_size kw) env
         end in
  '(ac, g) ← _create_actor_critic env (kw_hidden_size kw) (kw_n_critics kw)
               (kw_learning_rate kw) (kw_mc kw) g;
  let log_ent_coef := {| shape := [1]; data := [Num.zero] |} in
  Ok ({| device := device;
         learning_rate := kw_learning_rate kw;
         buffer_size := kw_buffer_size kw;
         batch_size := kw_batch_size kw;
         learning_starts := kw_learning_starts kw;
         tau := kw_tau kw;
         gamma := kw_gamma kw;
         n_critics := kw_n_critics kw;
         hidden_size := kw_hidden_size kw;
         mc := kw_mc kw;
         env := env;
         replay_buffer := replay_buffer;
         actor := ac_actor ac;
         actor_optimizer := ac_actor_optimizer ac;
         critic := ac_critic ac;
         critic_target := ac_critic_target ac;
         critic_optimizer := ac_critic_optimizer ac;
         mc_network := ac_mc_network ac;
         mc_optimizer := ac_mc_optimizer ac;
         ent_coef := kw_ent_coef kw;
         target_entropy :=
           match kw_ent_coef kw with
           | Auto => Some (- Num.of_nat (np_prod (box_shape (action_space env))))%num
           | Fixed _ => None
           end;
         log_ent_coef :=
           match kw_ent_coef kw with Auto => Some log_ent_coef | Fixed _ => None end;
         ent_coef_optimizer :=
           match kw_ent_coef kw with
           | Auto => Some (Adam_new [log_ent_coef] (kw_learning_rate kw))
           | Fixed _ => None
           end;
         ent_coef_tensor :=
           match kw_ent_coef kw with Auto => None | Fixed x => Some x end;
         logger := None;
         _last_obs := None;
         num_timesteps := 0;
         _n_updates := 0 |}, g).


(** *** The reward composer *)

(** [kl_divergence(forward_normal, world_normal).mean(-1).unsqueeze(1)] *)
Definition kl_error (net : MorphologicalNetworks) (observations actions : batch)
  : result batch :=
  '(forward_normal, world_normal) ← mc_forward net observations actions;
  kl ← kl_divergence forward_normal world_normal;
  Ok (unsqueeze1 (mean_last kl)).

Definition calc_reward (self : CLEANSACMC) (observations actions e_rewards : batch)
  (is_executing : bool) : result (batch * CLEANSACMC) :=
  _err ← kl_error (mc_network self) observations actions;
  eta ← getitem (mc self) "reward_eta";
  let i_rewards := map2d (fun x => x * eta)%num _err in
  rewards ← bc2 Num.add e_rewards i_rewards;
  let log := if is_executing then record else record_mean in
  self ← log "mc/i_reward" (mean_all i_rewards) self;
  self ← log "mc/e_reward" (mean_all e_rewards) self;
  self ← log "mc/kld" (mean_all _err) self;
  self ← log "mc/reward" (mean_all rewards) self;
  Ok (rewards, self).

(** *** The training step *)

(** The summed negative log-likelihood of [train_mc]. *)
Definition mc_losses (net : MorphologicalNetworks)
  (observations next_observations actions : batch)
  : result (batch * batch * num) :=
  '(forward_normal, world_normal) ← mc_forward net observations actions;
  fw_loss ← map2d Num.neg <$> log_prob forward_normal next_observations;
  w_prime_a_loss ← map2d Num.neg <$> log_prob world_normal next_observations;
  total ← bc2 Num.add fw_loss w_prime_a_loss;
  Ok (fw_loss, w_prime_a_loss, mean_all total).

Definition train_mc (self : CLEANSACMC)
  (observations next_observations actions : batch) : result CLEANSACMC :=
  '(fw_loss, w_prime_a_loss, loss) ←
    mc_losses (mc_network self) observations next_observations actions;
  self ← record "mc/fw_loss" (mean_all fw_loss) self;
  self ← record "mc/w_prime_a_loss" (mean_all w_prime_a_loss) self;
  self ← record "mc/loss" loss self;
  let loss_at ps :=
    loss_value ((fun r => r.2) <$>
      mc_losses (mc_set_parameters ps (mc_network self))
        observations next_observations actions) in
  let '(opt, new) :=
    Adam_step (mc_optimizer self) loss_at (mc_parameters (mc_network self)) in
  let self := set_mc_optimizer opt self in
  Ok (set_mc_network
        (mc_set_parameters (stepped new (mc_parameters (mc_network self)))
           (mc_network self)) self).

(** [(-log_ent_coef * (log_pi + target_entropy)).mean()] *)
Definition ent_coef_loss_of (log_ent_coef : tensor) (log_pi : batch)
  (target_entropy : num) : result num :=
  mean_all <$> bc2 Num.mul [map Num.neg (data log_ent_coef)]
                 (map2d (fun x => x + target_entropy)%num log_pi).

(** The entropy-coefficient stage: the coefficient the later stages use. *)
Definition train_ent_coef (self : CLEANSACMC) (observations : batch)
  (g : Generator) : result (num * CLEANSACMC * Generator) :=
  match ent_coef self with
  | Auto =>
      '(_, log_pi, g) ← get_action (actor self) observations g;
      log_ent_coef ← getattr "log_ent_coef" (log_ent_coef self);
      target_entropy ← getattr "target_entropy" (target_entropy self);
      ent_coef_loss ← ent_coef_loss_of log_ent_coef log_pi target_entropy;
      self ← record "train/ent_coef_loss" ent_coef_loss self;
      ent_coef_optimizer ← getattr "ent_coef_optimizer" (ent_coef_optimizer self);
      let loss_at ps :=
        loss_value (ent_coef_loss_of (default log_ent_coef (ps !! 0%nat))
                      log_pi target_entropy) in
      let '(opt, new) := Adam_step ent_coef_optimizer loss_at [log_ent_coef] in
      let log_ent_coef := default log_ent_coef (stepped new [log_ent_coef] !! 0%nat) in
      let self := set_ent_coef_optimizer (Some opt) self in
      let self := set_log_ent_coef (Some log_ent_coef) self in
      ent_coef ← item {| shape := shape log_ent_coef;
                         data := map Num.exp (data log_ent_coef) |};
      Ok (ent_coef, self, g)
  | Fixed _ =>
      ent_coef ← getattr "ent_coef_tensor" (ent_coef_tensor self);
      Ok (ent_coef, self, g)
  end.

(** The bootstrapped target of the critic stage, computed with gradients
    disabled. *)
Definition next_q_value_of (self : CLEANSACMC) (ent_coef : num)
  (observations next_observations : batch) (replay_data : ReplayBufferSamples)
  (g : Generator) : result (vec * CLEANSACMC * Generator) :=
  '(next_state_actions, next_state_log_pi, g) ←
    get_action (actor self) next_observations g;
  crit_next_targets ←
    CriticEnsemble_forward (critic_target self) next_observations next_state_actions;
  min_crit_next_target ← min_dim0 crit_next_targets;
  min_crit_next_target ←
    bc2 Num.sub min_crit_next_target
      (map2d (Num.mul ent_coef) next_state_log_pi);
  '(rewards, self) ←
    calc_reward self observations next_state_actions (rewards replay_data) false;
  discounted ←
    bc1 Num.mul
      (map (fun d => (Num.one - d) * gamma self)%num (flatten (dones replay_data)))
      (flatten min_crit_next_target);
  next_q_value ← bc1 Num.add (flatten rewards) discounted;
  Ok (next_q_value, self, g).

(** [F.mse_loss(input, target)] *)
Definition mse_loss (input target : batch) : result num :=
  mean_all <$> (map2d Num.pow2 <$> bc2 Num.sub input target).

(** [torch.stack([mse_loss(a_v, target) for a_v in critic_a_values]).sum()] *)
Definition crit_loss_of (e : CriticEnsemble) (observations actions : batch)
  (next_q_value : vec) : result num :=
  critic_a_values ← CriticEnsemble_forward e observations actions;
  losses ← mapM_result (fun _a_v => mse_loss _a_v (unsqueeze1 next_q_value))
             critic_a_values;
  Ok (vsum losses).

(** [((ent_coef * log_pi) - min_crit_pi).mean()] for the actor [a]. *)
Definition actor_loss_of (a : Actor) (e : CriticEnsemble) (ent_coef : num)
  (observations : batch) (g : Generator) : result (num * Generator) :=
  '(pi, log_pi, g) ← get_action a observations g;
  qs ← CriticEnsemble_forward e observations pi;
  min_crit_pi ← min_dim0 qs;
  d ← bc2 Num.sub (map2d (Num.mul ent_coef) log_pi) min_crit_pi;
  Ok (mean_all d, g).

(** One pair of the Polyak loop:
    [target_param.data.mul_(1 - tau)] and then
    [torch.add(target_param.data, param.data, alpha=tau, out=target_param.data)]. *)
Definition polyak_pair (tau : num) (param target_param : tensor) : result tensor :=
  let scaled := map (fun t => t * (Num.one - tau))%num (data target_param) in
  d ← bc1 (fun t p => t + tau * p)%num scaled (data param);
  Ok {| shape := if decide (length d = length (data target_param))
                 then shape target_param else shape param;
        data := d |}.

Definition polyak_update (tau : num) (source target : CriticEnsemble)
  : result CriticEnsemble :=
  ps ← mapM_result (fun pt => polyak_pair tau pt.1 pt.2)
         (zip (CriticEnsemble_parameters source) (CriticEnsemble_parameters target));
  Ok (CriticEnsemble_set ps target).

Definition train (self : CLEANSACMC) (g : Generator)
  : result (CLEANSACMC * Generator) :=
  let self := set__n_updates (_n_updates self + 1)%Z self in
  self ← record "train/n_updates" (Num.of_Z (_n_updates self)) self;
  (* Sample replay buffer *)
  let '(replay_data, rb) := rb_sample (replay_buffer self) (batch_size self) in
  let self := set_replay_buffer rb self in
  observations ← flatten_obs (observations replay_data);
  next_observations ← flatten_obs (next_observations replay_data);
  self ← train_mc self observations next_observations (actions replay_data);
  (* optimize entropy coefficient *)
  '(ent_coef, self, g) ← train_ent_coef self observations g;
  self ← record "train/ent_coef" ent_coef self;
  (* train critic *)
  '(next_q_value, self, g) ←
    next_q_value_of self ent_coef observations next_observations replay_data g;
  crit_loss ←
    crit_loss_of (critic self) observations (actions replay_data) next_q_value;
  self ← record "train/critic_loss" crit_loss self;
  self ← record "train/train_rewards" (vmean (flatten (rewards replay_data))) self;
  let crit_loss_at ps :=
    loss_value (crit_loss_of (CriticEnsemble_set ps (critic self))
                  observations (actions replay_data) next_q_value) in
  let '(opt, new) :=
    Adam_step (critic_optimizer self) crit_loss_at
      (CriticEnsemble_parameters (critic self)) in
  let self := set_critic_optimizer opt self in
  let self :=
    set_critic (CriticEnsemble_set
                  (stepped new (CriticEnsemble_parameters (critic self)))
                  (critic self)) self in
  (* train actor *)
  '(actor_loss, g') ←
    actor_loss_of (actor self) (critic self) ent_coef observations g;
  self ← record "train/actor_loss" actor_loss self;
  let actor_loss_at ps :=
    loss_value ((fun r => r.1) <$>
      actor_loss_of (Actor_set ps (actor self)) (critic self) ent_coef
        observations g) in
  let '(opt, new) :=
    Adam_step (actor_optimizer self) actor_loss_at (Actor_parameters (actor self)) in
  let self := set_actor_optimizer opt self in
  let self :=
    set_actor (Actor_set (stepped new (Actor_parameters (actor self))) (actor self))
      self in
  (* Update target networks with polyak update *)
  critic_target ← polyak_update (tau self) (critic self) (critic_target self);
  Ok (set_critic_target critic_target self, g').


(** *** Acting *)

Definition predict (self : CLEANSACMC) (obs : Obs) (g : Generator)
  : result (batch * batch * Generator) :=
  observation ← flatten_obs obs;
  get_action (actor self) observation g.

(** The action of one rollout step and its log-probability: random during
    the warm-up, from the policy afterwards. *)
Definition select_action (self : CLEANSACMC) (g : Generator)
  : result (batch * vec * CLEANSACMC * Generator) :=
  if decide (num_timesteps self < learning_starts self)%Z
  then
    let '(a, env') := space_sample (env self) in
    Ok ([a], [Num.zero], set_env env' self, g)
  else
    last_obs ← getattr "_last_obs" (_last_obs self);
    '(actions, log_prob, g) ← predict self last_obs g;
    Ok (actions, flatten log_prob, self, g).

(** [real_next_obs[idx] = infos[idx]["terminal_observation"]] *)
Definition set_terminal (idx : nat) (infos : list Info) (real_next_obs : Obs)
  : result Obs :=
  info ← match infos !! idx with
          | Some i => Ok i
          | None => Raise (IndexError "list index out of range")
          end;
  t ← terminal_observation info;
  match real_next_obs, t with
  | ObsArray a, TermArray v =>
      match a !! idx with
      | None => Raise (IndexError "index is out of bounds")
      | Some row =>
          if decide (length v = length row) then Ok (ObsArray (<[idx := v]> a))
          else match v with
               | [x] => Ok (ObsArray (<[idx := replicate (length row) x]> a))
               | _ => Raise (ValueError "could not broadcast input array")
               end
      end
  | ObsArray _, TermDict _ => Raise (TypeError "float() argument must be a number")
  | ObsDict d by_index, _ => Ok (ObsDict d (<[idx := t]> by_index))
  end.

(** The stable-baselines3 callback; it can read the engine. *)
Class Callbacks : Type :=
  { BaseCallback : Type;
    on_step : BaseCallback -> CLEANSACMC -> option bool * BaseCallback }.

Context {cbs : Callbacks}.

Definition collect_rollout (self : CLEANSACMC) (callback : BaseCallback)
  (g : Generator) : result (bool * CLEANSACMC * BaseCallback * Generator) :=
  (* Select action randomly or according to policy *)
  '(actions, log_prob, self, g) ← select_action self g;
  (* perform action *)
  let '(new_obs, rewards, dones, infos, env') := env_step (env self) actions in
  let self := set_env env' self in
  obs ← flatten_obs new_obs;
  '(_, self) ← calc_reward self obs actions [rewards] true;
  self ← record "actor_entropy" (- vmean log_prob)%num self;
  self ← record "train/rollout_rewards_step" (vmean rewards) self;
  self ← record_mean "train/rollout_rewards_mean" (vmean rewards) self;
  let self :=
    set_num_timesteps (num_timesteps self + Z.of_nat (num_envs (env self)))%Z self in
  (* save data to replay buffer; handle `terminal_observation` *)
  real_next_obs ←
    foldM (fun (real_next_obs : Obs) (id : nat * bool) =>
             if id.2 then set_terminal id.1 infos real_next_obs
             else Ok real_next_obs)
      (imap (fun idx done => (idx, done)) dones) new_obs;
  let self :=
    set_replay_buffer
      (rb_add (replay_buffer self) (_last_obs self) real_next_obs actions rewards
         dones infos) self in
  let self := set__last_obs (Some new_obs) self in
  (* Only stop training if return value is False, not when it is None. *)
  let '(r, callback) := on_step callback self in
  match r with
  | Some false => Ok (false, self, callback, g)
  | _ => Ok (true, self, callback, g)
  end.

(** The [while] loop of [learn]; [fuel] bounds the number of iterations. *)
Fixpoint learn_loop (fuel : nat) (total_timesteps : Z) (self : CLEANSACMC)
  (callback : BaseCallback) (g : Generator)
  : result (CLEANSACMC * BaseCallback * Generator) :=
  match fuel with
  | O => Ok (self, callback, g)
  | S fuel' =>
      if decide (num_timesteps self < total_timesteps)%Z
      then
        '(continue_training, self, callback, g) ← collect_rollout self callback g;
        if (continue_training : bool)
        then
          '(self, g) ←
            (if decide (num_timesteps self > 0)%Z
             then if decide (num_timesteps self > learning_starts self)%Z
                  then train self g else Ok (self, g)
             else Ok (self, g));
          learn_loop fuel' total_timesteps self callback g
        else Ok (self, callback, g)
      else Ok (self, callback, g)
  end.


(** *** Saving and loading

    [self.__dict__] maps the names of the attributes to their values; a
    checkpoint is such a dict, stored under a path. *)
Inductive value : Type :=
| VNone
| VInt (z : Z)
| VFloat (x : num)
| VStr (s : string)
| VDict (d : gmap string num)
| VTensor (t : tensor)
| VEnv (e : Env EnvState)
| VBuffer (b : ReplayBuffer)
| VActor (a : Actor)
| VCritic (c : CriticEnsemble)
| VMc (m : MorphologicalNetworks)
| VAdam (o : Adam)
| VLogger (l : Logger)
| VObs (o : Obs)
| VStateDict (sd : gmap string tensor).

Definition optional (key : string) (v : option value) : list (string * value) :=
  match v with
  | Some x => [(key, x)]
  | None => []
  end.

Definition attributes (self : CLEANSACMC) : list (string * value) :=
  [ ("device", VStr (device self));
    ("learning_rate", VFloat (learning_rate self));
    ("buffer_size", VInt (buffer_size self));
    ("batch_size", VInt (batch_size self));
    ("learning_starts", VInt (learning_starts self));
    ("tau", VFloat (tau self));
    ("gamma", VFloat (gamma self));
    ("n_critics", VInt (Z.of_nat (n_critics self)));
    ("hidden_size", VInt (Z.of_nat (hidden_size self)));
    ("mc", VDict (mc self));
    ("env", VEnv (env self));
    ("replay_buffer", VBuffer (replay_buffer self));
    ("actor", VActor (actor self));
    ("actor_optimizer", VAdam (actor_optimizer self));
    ("critic", VCritic (critic self));
    ("critic_target", VCritic (critic_target self));
    ("critic_optimizer", VAdam (critic_optimizer self));
    ("mc_network", VMc (mc_network self));
    ("mc_optimizer", VAdam (mc_optimizer self));
    ("ent_coef", match ent_coef self with Auto => VStr "auto" | Fixed x => VFloat x end);
    ("logger", match logger self with Some l => VLogger l | None => VNone end);
    ("_last_obs", match _last_obs self with Some o => VObs o | None => VNone end);
    ("num_timesteps", VInt (num_timesteps self));
    ("_n_updates", VInt (_n_updates self)) ]
  ++ optional "target_entropy" (VFloat <$> target_entropy self)
  ++ optional "log_ent_coef" (VTensor <$> log_ent_coef self)
  ++ optional "ent_coef_optimizer" (VAdam <$> ent_coef_optimizer self)
  ++ optional "ent_coef_tensor" (VFloat <$> ent_coef_tensor self).

Definition __dict__ (self : CLEANSACMC) : gmap string value :=
  list_to_map (attributes self).

Definition ill_typed {A} (key : string) : result A :=
  Raise (TypeError key).

(** [self.__dict__[key] = v], for the values an attribute can hold. *)
Definition setattr (key : string) (v : value) (self : CLEANSACMC)
  : result CLEANSACMC :=
  if decide (key = "device") then
    match v with VStr x => Ok (set_device x self) | _ => ill_typed key end
  else if decide (key = "learning_rate") then
    match v with VFloat x => Ok (set_learning_rate x self) | _ => ill_typed key end
  else if decide (key = "buffer_size") then
    match v with VInt x => Ok (set_buffer_size x self) | _ => ill_typed key end
  else if decide (key = "batch_size") then
    match v with VInt x => Ok (set_batch_size x self) | _ => ill_typed key end
  else if decide (key = "learning_starts") then
    match v with VInt x => Ok (set_learning_starts x self) | _ => ill_typed key end
  else if decide (key = "tau") then
    match v with VFloat x => Ok (set_tau x self) | _ => ill_typed key end
  else if decide (key = "gamma") then
    match v with VFloat x => Ok (set_gamma x self) | _ => ill_typed key end
  else if decide (key = "n_critics") then
    match v with
    | VInt x => if decide (0 <= x)%Z then Ok (set_n_critics (Z.to_nat x) self)
                else ill_typed key
    | _ => ill_typed key
    end
  else if decide (key = "hidden_size") then
    match v with
    | VInt x => if decide (0 <= x)%Z then Ok (set_hidden_size (Z.to_nat x) self)
                else ill_typed key
    | _ => ill_typed key
    end
  else if decide (key = "mc") then
    match v with VDict x => Ok (set_mc x self) | _ => ill_typed key end
  else if decide (key = "env") then
    match v with VEnv x => Ok (set_env x self) | _ => ill_typed key end
  else if decide (key = "replay_buffer") then
    match v with VBuffer x => Ok (set_replay_buffer x self) | _ => ill_typed key end
  else if decide (key = "actor") then
    match v with VActor x => Ok (set_actor x self) | _ => ill_typed key end
  else if decide (key = "actor_optimizer") then
    match v with VAdam x => Ok (set_actor_optimizer x self) | _ => ill_typed key end
  else if decide (key = "critic") then
    match v with VCritic x => Ok (set_critic x self) | _ => ill_typed key end
  else if decide (key = "critic_target") then
    match v with VCritic x => Ok (set_critic_target x self) | _ => ill_typed key end
  else if decide (key = "critic_optimizer") then
    match v with VAdam x => Ok (set_critic_optimizer x self) | _ => ill_typed key end
  else if decide (key = "mc_network") then
    match v with VMc x => Ok (set_mc_network x self) | _ => ill_typed key end
  else if decide (key = "mc_optimizer") then
    match v with VAdam x => Ok (set_mc_optimizer x self) | _ => ill_typed key end
  else if decide (key = "ent_coef") then
    match v with
    | VStr x => if decide (x = "auto") then Ok (set_ent_coef Auto self)
                else ill_typed key
    | VFloat x => Ok (set_ent_coef (Fixed x) self)
    | _ => ill_typed key
    end
  else if decide (key = "target_entropy") then
    match v with VFloat x => Ok (set_target_entropy (Some x) self) | _ => ill_typed key end
  else if decide (key = "log_ent_coef") then
    match v with VTensor x => Ok (set_log_ent_coef (Some x) self) | _ => ill_typed key end
  else if decide (key = "ent_coef_optimizer") then
    match v with VAdam x => Ok (set_ent_coef_optimizer (Some x) self) | _ => ill_typed key end
  else if decide (key = "ent_coef_tensor") then
    match v with VFloat x => Ok (set_ent_coef_tensor (Some x) self) | _ => ill_typed key end
  else if decide (key = "logger") then
    match v with
    | VNone => Ok (set_logger None self)
    | VLogger x => Ok (set_logger (Some x) self)
    | _ => ill_typed key
    end
  else if decide (key = "_last_obs") then
    match v with
    | VNone => Ok (set__last_obs None self)
    | VObs x => Ok (set__last_obs (Some x) self)
    | _ => ill_typed key
    end
  else if decide (key = "num_timesteps") then
    match v with VInt x => Ok (set_num_timesteps x self) | _ => ill_typed key end
  else if decide (key = "_n_updates") then
    match v with VInt x => Ok (set__n_updates x self) | _ => ill_typed key end
  else ill_typed key.

(** [del data[key]] *)
Definition delitem (key : string) (data : gmap string value)
  : result (gmap string value) :=
  match data !! key with
  | Some _ => Ok (delete key data)
  | None => Raise (KeyError key)
  end.

Definition excluded : list string :=
  [ "logger"; "env"; "num_timesteps"; "_n_updates"; "_last_obs";
    "replay_buffer"; "actor"; "critic"; "critic_target" ].

(** What [save] passes to [torch.save]. *)
Definition saved_data (self : CLEANSACMC) : result (gmap string value) :=
  (* Copy parameter list, so we don't mutate the original dict *)
  let data := __dict__ self in
  data ← foldM (fun data to_exclude => delitem to_exclude data) excluded data;
  (* save network parameters *)
  let data := <["_actor" := VStateDict (Actor_state_dict (actor self))]> data in
  let data := <["_critic" := VStateDict (CriticEnsemble_state_dict (critic self))]> data in
  let data := <["_mc" := VStateDict (mc_state_dict (mc_network self))]> data in
  Ok data.

Definition save (self : CLEANSACMC) (path : string)
  (files : gmap string (gmap string value))
  : result (gmap string (gmap string value)) :=
  data ← saved_data self;
  Ok (<[path := data]> files).

Definition torch_load (path : string) (files : gmap string (gmap string value))
  : result (gmap string value) :=
  match files !! path with
  | Some d => Ok d
  | None => Raise (FileNotFoundError path)
  end.

Definition as_state_dict (v : value) : result (gmap string tensor) :=
  match v with
  | VStateDict sd => Ok sd
  | _ => Raise (TypeError "state_dict")
  end.

Definition network_keys : list string := ["_actor"; "_critic"; "_mc"].

(** [CLEANSACMC.load(path, env, **kwargs)] *)
Definition load (path : string) (env : Env EnvState) (kwargs : Kwargs)
  (cuda : bool) (g : Generator) (files : gmap string (gmap string value))
  : result (CLEANSACMC * Generator) :=
  '(model, g) ← __init__ env kwargs cuda g;
  loaded_dict ← torch_load path files;
  model ←
    foldM (fun (model : CLEANSACMC) (kv : string * value) =>
             if bool_decide (kv.1 ∈ network_keys) then Ok model
             else setattr kv.1 kv.2 model)
      (map_to_list loaded_dict) model;
  (* load network states *)
  sd ← getitem loaded_dict "_actor" ≫= as_state_dict;
  a ← Actor_load_state_dict (actor model) sd;
  let model := set_actor a model in
  sd ← getitem loaded_dict "_critic" ≫= as_state_dict;
  c ← CriticEnsemble_load_state_dict (critic model) sd;
  let model := set_critic c model in
  sd ← getitem loaded_dict "_mc" ≫= as_state_dict;
  m ← mc_load_state_dict (mc_network model) sd;
  let model := set_mc_network m model in
  Ok (model, g).

Definition set_logger_method (self : CLEANSACMC) (l : Logger) : CLEANSACMC :=
  set_logger (Some l) self.

Definition get_env (self : CLEANSACMC) : Env EnvState := env self.

End Engine.


(** ** Predicates of the statements *)

Fixpoint no_dot (s : string) : bool :=
  match s with
  | EmptyString => true
  | String c s' => negb (Ascii.eqb c "."%char) && no_dot s'
  end.

Definition prefixed (p : string) (l : list (string * tensor)) : list (string * tensor) :=
  prod_map (String.app p) Datatypes.id <$> l.

Definition named_from (off : nat) (cs : list Critic) : list (string * tensor) :=
  concat (imap (fun i c => Critic_named (critic_prefix (off + i)) c) cs).

Definition Linear_same_shape (a b : Linear) : Prop :=
  shape (weight a) = shape (weight b) /\ shape (bias a) = shape (bias b).

Definition Critic_same_shape (a b : Critic) : Prop :=
  Linear_same_shape (c_fc1 a) (c_fc1 b) /\ Linear_same_shape (c_fc2 a) (c_fc2 b) /\
  Linear_same_shape (c_fc3 a) (c_fc3 b) /\ Linear_same_shape (c_fc4 a) (c_fc4 b).

(** The element a tensor contributes at index [i] when it is broadcast. *)
Definition bget {A} (x : list A) (i : nat) : option A :=
  match x with
  | [a] => Some a
  | _ => x !! i
  end.

Definition bget2 {A} (a : list (list A)) (r i : nat) : option A :=
  row ← bget a r; bget row i.

Definition finite_vec (x : vec) : Prop := Forall (fun v => is_finite v = true) x.

Definition Linear_wf (inn out : nat) (l : Linear) : Prop :=
  shape (weight l) = [out; inn] /\
  length (data (weight l)) = (out * inn)%nat /\
  length (data (bias l)) = out /\
  finite_vec (data (weight l)) /\ finite_vec (data (bias l)).

Definition Actor_wf (inn h A : nat) (a : Actor) : Prop :=
  Linear_wf inn h (fc1 a) /\ Linear_wf h h (fc2 a) /\ Linear_wf h h (fc3 a) /\
  Linear_wf h A (fc_mean a) /\ Linear_wf h A (fc_logstd a) /\
  length (data (action_scale a)) = A /\ length (data (action_bias a)) = A.

(** A batch of [B] rows of [D] finite elements. *)
Definition finite_batch (D : nat) (x : batch) : Prop :=
  Forall (fun row => length row = D /\ finite_vec row) x.

(** [B] rows of [A] elements. *)
Definition shaped (B A : nat) (x : batch) : Prop :=
  length x = B /\ Forall (fun r => length r = A) x.

(** The density of the normal distribution of mean [mu] and standard
    deviation [sigma], and its logarithm on tensor elements. *)
Definition gaussian_density (mu sigma x : R) : R :=
  (/ (sigma * sqrt (2 * PI)) * exp (- ((x - mu) * (x - mu) / (2 * (sigma * sigma)))))%R.

Definition gaussian_log_density (mu sigma x : num) : num :=
  match mu, sigma, x with
  | Fin m, Fin s, Fin v => Fin (ln (gaussian_density m s v))
  | _, _, _ => NaN
  end.

(** The change-of-variables correction of the tanh squashing for one action
    dimension: [log(scale * (1 - tanh(x)^2) + epsilon)]. *)
Definition tanh_correction (scale x : num) : num :=
  Num.log (scale * (Num.one - Num.pow2 (Num.tanh x)) + eps_bound)%num.

Definition Critic_params (c : Critic) : list tensor :=
  [ weight (c_fc1 c); bias (c_fc1 c); weight (c_fc2 c); bias (c_fc2 c);
    weight (c_fc3 c); bias (c_fc3 c); weight (c_fc4 c); bias (c_fc4 c) ].

Definition Linear_shaped (inn out : nat) (l : Linear) : Prop :=
  shape (weight l) = [out; inn] /\
  length (data (weight l)) = (out * inn)%nat /\
  length (data (bias l)) = out.

Definition Critic_shaped (inn h : nat) (c : Critic) : Prop :=
  Linear_shaped inn h (c_fc1 c) /\ Linear_shaped h h (c_fc2 c) /\
  Linear_shaped h h (c_fc3 c) /\ Linear_shaped h 1 (c_fc4 c).

(** An ensemble of at least one critic over inputs of size [inn]. *)
Definition Ensemble_shaped (inn h : nat) (e : CriticEnsemble) : Prop :=
  _critics e <> [] /\ Forall (Critic_shaped inn h) (_critics e).

(** An actor whose layers have the sizes [Actor.__init__] gives them, for
    observations of [inn] elements, [h] hidden units and a 1-D action space
    of [A] dimensions. *)
Definition Actor_shaped (inn h A : nat) (a : Actor) : Prop :=
  Linear_shaped inn h (fc1 a) /\ Linear_shaped h h (fc2 a) /\
  Linear_shaped h h (fc3 a) /\
  Linear_shaped h A (fc_mean a) /\ Linear_shaped h A (fc_logstd a) /\
  shape (action_scale a) = [A] /\ length (data (action_scale a)) = A /\
  shape (action_bias a) = [A] /\ length (data (action_bias a)) = A.












(** An element of a tensor that is NaN or lies in [lo, hi]. *)
Definition nan_or_within (lo hi v : num) : Prop :=
  v = NaN \/ (Num.leb lo v = true /\ Num.leb v hi = true).

(** An element that is not negative: NaN, [+inf] or a real [>= 0]. *)
Definition never_negative (v : num) : Prop :=
  v = NaN \/ v = PInf \/ exists a, v = Fin a /\ (0 <= a)%R.

Section Predicates.
Context {col : Collaborators}.

(** The entries of the logger; none while there is no logger. *)
Definition log_of (self : CLEANSACMC) : list LogEntry :=
  match logger self with
  | Some l => entries l
  | None => []
  end.

(** The attributes that the logging, the curiosity update and the reward
    composer leave unchanged. *)
Definition kept (s : CLEANSACMC) :=
  (tau s, gamma s, mc s, actor s, actor_optimizer s, critic s, critic_optimizer s,
   critic_target s, env s, num_timesteps s, learning_starts s, _last_obs s,
   ent_coef s, target_entropy s, ent_coef_tensor s).

Definition frame (s s' : CLEANSACMC) : Prop := kept s' = kept s.

(** The attributes of the learned entropy coefficient. *)
Definition frame_ent (s s' : CLEANSACMC) : Prop :=
  log_ent_coef s' = log_ent_coef s /\ ent_coef_optimizer s' = ent_coef_optimizer s.

(** The four entries [calc_reward] logs. *)
Definition reward_entries (executing : bool) (i_rewards e_rewards _err rewards : batch)
  : list LogEntry :=
  let entry := if executing then LogRecord else LogRecordMean in
  [ entry "mc/i_reward" (mean_all i_rewards); entry "mc/e_reward" (mean_all e_rewards);
    entry "mc/kld" (mean_all _err); entry "mc/reward" (mean_all rewards) ].

(** The entropy-coefficient stage logs its loss when the coefficient is
    learned and nothing otherwise. *)
Definition ent_coef_entries (s : CLEANSACMC) (observations : batch) (g : Generator)
  : list LogEntry :=
  match ent_coef s with
  | Auto =>
      match get_action (actor s) observations g, log_ent_coef s, target_entropy s with
      | Ok (_, log_pi, _), Some lec, Some te =>
          [LogRecord "train/ent_coef_loss"
             (loss_value (ent_coef_loss_of lec log_pi te))]
      | _, _, _ => []
      end
  | Fixed _ => []
  end.

(** The critic and its target have parameters of the same sizes. *)
Definition same_sizes (e e' : CriticEnsemble) : Prop :=
  Forall2 (fun p t => length (data p) = length (data t))
    (CriticEnsemble_parameters e) (CriticEnsemble_parameters e').

(** The attributes the entropy-coefficient stage reads exist. *)
Definition ent_coef_ready (s : CLEANSACMC) : Prop :=
  match ent_coef s with
  | Auto =>
      (exists lec, log_ent_coef s = Some lec /\ length (data lec) = 1) /\
      is_Some (target_entropy s) /\ is_Some (ent_coef_optimizer s)
  | Fixed _ => is_Some (ent_coef_tensor s)
  end.

Definition stepped_tensor (new : nat -> nat -> num) (i : nat) (t : tensor) : tensor :=
  {| shape := shape t; data := imap (fun k _ => new i k) (data t) |}.

(** What a training step needs to run through: a logger, the curiosity
    configuration, networks of one architecture, and a sampled batch of
    [B] transitions of the sizes of that architecture.  Nothing is asked
    of the rewards, of the losses or of the KL error. *)
Record train_ready (B D h A : nat) (self : CLEANSACMC) (obs nobs : batch) : Prop :=
  { ready_logger : is_Some (logger self);
    ready_eta : is_Some (mc self !! "reward_eta");
    ready_ent_coef : ent_coef_ready self;
    ready_actor : Actor_wf D h A (actor self);
    ready_critic : Ensemble_shaped (D + A) h (critic self);
    ready_target : Ensemble_shaped (D + A) h (critic_target self);
    ready_n_critics :
      length (_critics (critic self)) = length (_critics (critic_target self));
    ready_obs :
      flatten_obs
        (observations (rb_sample (replay_buffer self) (batch_size self)).1) = Ok obs;
    ready_next_obs :
      flatten_obs
        (next_observations (rb_sample (replay_buffer self) (batch_size self)).1)
      = Ok nobs;
    ready_obs_finite : finite_batch D obs;
    ready_next_obs_finite : finite_batch D nobs;
    ready_obs_length : length obs = B;
    ready_next_obs_length : length nobs = B;
    ready_actions :
      shaped B A (actions (rb_sample (replay_buffer self) (batch_size self)).1);
    ready_rewards :
      shaped B 1 (rewards (rb_sample (replay_buffer self) (batch_size self)).1);
    ready_dones :
      shaped B 1 (dones (rb_sample (replay_buffer self) (batch_size self)).1);
    ready_mc_losses :
      is_Ok (mc_losses (mc_network self) obs nobs
               (actions (rb_sample (replay_buffer self) (batch_size self)).1));
    ready_kl :
      forall net a, shaped B A a ->
        exists _err, kl_error net obs a = Ok _err /\ length _err = B }.

(** The attributes a checkpoint does not restore. *)
Definition unsaved (s : CLEANSACMC) :=
  (num_timesteps s, _n_updates s, critic_target s, critic s, actor s).

(** The batch a training step samples. *)
Definition sampled (self : CLEANSACMC) : ReplayBufferSamples :=
  (rb_sample (replay_buffer self) (batch_size self)).1.

(** The entries one training step appends to the log, in the order of
    the stages. *)
Definition train_entries (n_updates : Z) (fw_loss w_loss : batch) (mc_loss : num)
  (ent_entries : list LogEntry) (ent_coef : num) (i_rewards e_rewards _err composed : batch)
  (crit_loss actor_loss : num) : list LogEntry :=
  [ LogRecord "train/n_updates" (Num.of_Z n_updates);
    LogRecord "mc/fw_loss" (mean_all fw_loss);
    LogRecord "mc/w_prime_a_loss" (mean_all w_loss);
    LogRecord "mc/loss" mc_loss ]
  ++ ent_entries
  ++ [ LogRecord "train/ent_coef" ent_coef ]
  ++ reward_entries false i_rewards e_rewards _err composed
  ++ [ LogRecord "train/critic_loss" crit_loss;
       LogRecord "train/train_rewards" (vmean (flatten e_rewards));
       LogRecord "train/actor_loss" actor_loss ].

(** The attributes no stage of a training step assigns, and the update
    counter. *)
Definition settings (s : CLEANSACMC) :=
  (device s, learning_rate s, buffer_size s, batch_size s, learning_starts s,
   tau s, gamma s, n_critics s, hidden_size s, mc s, env s, _last_obs s,
   num_timesteps s, ent_coef s, _n_updates s).

(** The networks and what the training steps count. *)
Definition learned (s : CLEANSACMC) :=
  (actor s, critic s, critic_target s, _n_updates s, learning_starts s).

End Predicates.

Module Example.

(** The buffer before the first transition. *)
Definition empty_samples : ReplayBufferSamples :=
  {| observations := ObsArray []; actions := []; next_observations := ObsArray [];
     dones := []; rewards := [] |}.

Definition bool_num (b : bool) : num := if b then Num.one else Num.zero.

(** Collaborators for the examples: a generator that counts its draws (the
    initial parameters depend on the state of the generator, the normal
    noise is 0), an optimizer whose step leaves the parameters as they
    are, a simulator whose state is the reward it returns, a replay buffer
    that holds the last transition, and two unit-variance predictors with
    means [2 * observation] and [observation]. *)
Definition collaborators : Collaborators :=
  {| Generator := nat;
     init_sample := fun _ g k => INR (g + k);
     randn_sample := fun _ _ => 0%R;
     advance := fun k g => (g + k)%nat;
     Adam := unit;
     Adam_new := fun _ _ => tt;
     Adam_step := fun _ _ ps =>
       (tt, fun i k => default NaN (t ← ps !! i; data t !! k));
     EnvState := num;
     Info := unit;
     terminal_observation := fun _ => Raise (KeyError "terminal_observation");
     env_step := fun env _ =>
       (ObsArray [[Fin 1]], [env_state env], [false], [tt], env);
     space_sample := fun env => (low (action_space env), env);
     ReplayBuffer := ReplayBufferSamples;
     ReplayBuffer_new := fun _ _ _ => empty_samples;
     rb_add := fun _ last_obs next_obs actions rewards dones _ =>
       {| observations := default (ObsArray []) last_obs; actions := actions;
          next_observations := next_obs;
          dones := unsqueeze1 (map bool_num dones);
          rewards := unsqueeze1 rewards |};
     rb_sample := fun rb _ => (rb, rb);
     MorphologicalNetworks := unit;
     Distribution := batch;
     MorphologicalNetworks_new := fun _ _ g => Ok (tt, g);
     mc_forward := fun _ observations _ =>
       Ok (map2d (Num.mul (Num.of_Z 2)) observations, observations);
     mc_parameters := fun _ => [];
     mc_set_parameters := fun _ m => m;
     mc_state_dict := fun _ => ∅;
     mc_load_state_dict := fun m _ => Ok m;
     log_prob := fun d x =>
       bc2 (fun v m => - (Fin (1 / 2) * Num.pow2 (v - m)) - log_sqrt_2pi)%num x d;
     kl_divergence := fun p q =>
       bc2 (fun a b => Fin (1 / 2) * Num.pow2 (a - b))%num p q |}.

Definition box : Box :=
  {| low := [Fin (-1)]; high := [Fin 1]; box_shape := [1%nat] |}.

(** One sub-environment with a scalar observation and a scalar action in
    [-1, 1]; every step returns [reward]. *)
Definition environment (reward : num) : @Env (@EnvState collaborators) :=
  {| observation_space :=
       BoxSpace {| low := [NInf]; high := [PInf]; box_shape := [1%nat] |};
     action_space := box;
     num_envs := 1;
     env_state := reward |}.

Definition kwargs (eta : num) : Kwargs :=
  {| kw_learning_rate := Fin (3 / 10000); kw_buffer_size := 1000;
     kw_learning_starts := 100; kw_batch_size := 1;
     kw_tau := Fin (5 / 1000); kw_gamma := Fin (99 / 100);
     kw_ent_coef := Auto; kw_use_her := false; kw_n_critics := 2;
     kw_hidden_size := 1;
     kw_mc := {[ "learning_rate" := Fin (1 / 1000); "reward_eta" := eta ]} |}.

(** The transition from observation 1 to observation 2 by action 0. *)
Definition transition (reward : num) : ReplayBufferSamples :=
  {| observations := ObsArray [[Fin 1]]; actions := [[Fin 0]];
     next_observations := ObsArray [[Fin 2]]; dones := [[Fin 0]];
     rewards := [[reward]] |}.

(** The engine the constructor builds in [environment reward] from a
    generator in state [seed]. *)
Definition constructed (reward eta : num) (seed : nat) : @CLEANSACMC collaborators :=
  let env := environment reward in
  let a := @Actor_new collaborators env 1 seed in
  let c := @CriticEnsemble_new collaborators env 2 1 a.2 in
  let log_ent_coef := {| shape := [1%nat]; data := [Num.zero] |} in
  {| device := "cpu";
     learning_rate := Fin (3 / 10000);
     buffer_size := 1000;
     batch_size := 1;
     learning_starts := 100;
     tau := Fin (5 / 1000);
     gamma := Fin (99 / 100);
     n_critics := 2;
     hidden_size := 1;
     mc := kw_mc (kwargs eta);
     env := env;
     replay_buffer := empty_samples;
     actor := a.1;
     actor_optimizer := tt;
     critic := c.1;
     critic_target := c.1;
     critic_optimizer := tt;
     mc_network := tt;
     mc_optimizer := tt;
     ent_coef := Auto;
     target_entropy := Some (- Num.of_nat 1)%num;
     log_ent_coef := Some log_ent_coef;
     ent_coef_optimizer := Some tt;
     ent_coef_tensor := None;
     logger := None;
     _last_obs := None;
     num_timesteps := 0;
     _n_updates := 0 |}.

(** The same engine with a logger and with [transition reward] in its
    replay buffer. *)
Definition engine (reward eta : num) (seed : nat) : @CLEANSACMC collaborators :=
  @set_replay_buffer collaborators (transition reward)
    (@set_logger_method collaborators (constructed reward eta seed) {| entries := [] |}).

(** A callback that counts its calls and never asks to stop. *)
Definition callbacks : @Callbacks collaborators :=
  {| BaseCallback := nat;
     on_step := fun n _ => (None, S n) |}.

(** A goal-conditioned observation of one sub-environment. *)
Definition goal_observation : gmap string batch :=
  {[ "observation" := [[Fin 1]]; "achieved_goal" := [[Fin 2]];
     "desired_goal" := [[Fin 3]] ]}.

End Example.

(** Case analysis on the first operation of a monadic computation that
    returned. *)
Ltac bind_ok_as H x E :=
  match type of H with
  | (match ?m with Ok _ => _ | Raise _ => _ end) = Ok _ =>
      destruct m as [x|] eqn:E; [|discriminate H]
  | (mbind _ ?m) = Ok _ =>
      destruct m as [x|] eqn:E; [|discriminate H]; cbn [mbind result_bind] in H
  end.

Tactic Notation "bind_ok" hyp(H) "as" simple_intropattern(x) ident(E) :=
  bind_ok_as H x E.

Tactic Notation "bind_ok" hyp(H) :=
  let x := fresh "x" in let E := fresh "E" in bind_ok_as H x E.

(** * Theorems *)


Global Arguments _create_actor_critic : simpl never.
Global Arguments Actor_new : simpl never.
Global Arguments CriticEnsemble_new : simpl never.
Global Arguments Critic_new : simpl never.
Global Arguments Linear_new : simpl never.
Global Arguments CriticEnsemble_load_state_dict : simpl never.
Global Arguments CriticEnsemble_state_dict : simpl never.
Global Arguments Actor_load_state_dict : simpl never.
Global Arguments Actor_state_dict : simpl never.
Global Arguments get_action : simpl never.
Global Arguments calc_reward : simpl never.
Global Arguments train_mc : simpl never.
Global Arguments train_ent_coef : simpl never.
Global Arguments next_q_value_of : simpl never.
Global Arguments crit_loss_of : simpl never.
Global Arguments actor_loss_of : simpl never.
Global Arguments polyak_update : simpl never.
Global Arguments __init__ : simpl never.
Global Arguments setattr : simpl never.
Global Arguments saved_data : simpl never.
Global Arguments __dict__ : simpl never.

Lemma string_app_assoc (a b c : string) : (a +:+ b) +:+ c = a +:+ (b +:+ c).
Proof.
  induction a as [|x a IH]; [done|].
  change (String x ((a +:+ b) +:+ c) = String x (a +:+ (b +:+ c))).
  by rewrite IH.
Qed.

Lemma string_app_cons x (a b : string) : String x a +:+ b = String x (a +:+ b).
Proof. reflexivity. Qed.

Lemma string_app_nil_l (b : string) : EmptyString +:+ b = b.
Proof. reflexivity. Qed.

Lemma no_dot_split a b r r' :
  no_dot a = true -> no_dot b = true ->
  a +:+ String "."%char r = b +:+ String "."%char r' -> a = b /\ r = r'.
Proof.
  revert b. induction a as [|x a IH]; intros [|y b] Ha Hb H;
    rewrite ?string_app_cons, ?string_app_nil_l in H; cbn in Ha, Hb.
  - by simplify_eq.
  - injection H as <- _. by rewrite Ascii.eqb_refl in Hb.
  - injection H as -> _. by rewrite Ascii.eqb_refl in Ha.
  - injection H as -> H. apply andb_prop in Ha as [_ Ha]. apply andb_prop in Hb as [_ Hb].
    destruct (IH b Ha Hb) as [-> ->]; [done|done].
Qed.

Lemma pretty_N_char_no_dot x : Ascii.eqb (pretty_N_char x) "."%char = false.
Proof. unfold pretty_N_char. by repeat case_match. Qed.

Lemma pretty_N_go_no_dot x s : no_dot s = true -> no_dot (pretty_N_go x s) = true.
Proof.
  revert s. induction (N.lt_wf_0 x) as [x _ IH]; intros s Hs.
  assert (x = 0 ∨ 0 < x)%N as [->|?] by lia.
  - by rewrite pretty_N_go_0.
  - rewrite pretty_N_go_step by done. apply IH.
    + by apply N.div_lt.
    + cbn [no_dot]. by rewrite pretty_N_char_no_dot.
Qed.

Lemma pretty_nat_no_dot (n : nat) : no_dot (pretty n) = true.
Proof.
  unfold pretty, pretty_nat, pretty, pretty_N. case_decide; [done|].
  by apply pretty_N_go_no_dot.
Qed.

Lemma critic_prefix_inj i j s s' :
  critic_prefix i +:+ s = critic_prefix j +:+ s' -> i = j /\ s = s'.
Proof.
  unfold critic_prefix. rewrite !string_app_assoc. intros H.
  apply (inj (String.app "_critics.")) in H.
  change ("." +:+ ?x) with (String "."%char x) in H.
  apply no_dot_split in H as [H1 H2]; auto using pretty_nat_no_dot.
  split; [by apply (inj pretty)|done].
Qed.

(** ** State dicts *)

Lemma Linear_named_prefixed p q l :
  Linear_named (p +:+ q) l = prefixed p (Linear_named q l).
Proof. unfold Linear_named, prefixed; cbn. by rewrite !string_app_assoc. Qed.

Lemma Critic_named_prefixed p c : Critic_named p c = prefixed p (Critic_named "" c).
Proof.
  unfold Critic_named, Linear_named, prefixed. cbn.
  by rewrite !string_app_assoc, !string_app_nil_l.
Qed.

Lemma lookup_prefixed p l s :
  (list_to_map (prefixed p l) : gmap string tensor) !! (p +:+ s)
  = (list_to_map l : gmap string tensor) !! s.
Proof.
  unfold prefixed. rewrite <- (kmap_list_to_map (String.app p)).
  apply (lookup_kmap (String.app p)).
Qed.

Lemma lookup_prefixed_other p l k :
  (forall s, k <> p +:+ s) ->
  (list_to_map (prefixed p l) : gmap string tensor) !! k = None.
Proof.
  intros Hk. unfold prefixed. rewrite <- (kmap_list_to_map (String.app p)).
  apply (lookup_kmap_None (String.app p)). intros s ->. by destruct (Hk s).
Qed.

Lemma named_from_cons off c cs :
  named_from off (c :: cs) = Critic_named (critic_prefix off) c ++ named_from (S off) cs.
Proof.
  unfold named_from. rewrite imap_cons. cbn [concat]. rewrite Nat.add_0_r.
  do 2 f_equal. apply imap_ext. intros i x _.
  unfold compose. by replace (off + S i) with (S off + i) by lia.
Qed.

Lemma named_from_lookup_None off cs k :
  (forall i s, i < length cs -> k <> critic_prefix (off + i) +:+ s) ->
  (list_to_map (named_from off cs) : gmap string tensor) !! k = None.
Proof.
  revert off. induction cs as [|c cs IH]; intros off Hk; [done|].
  rewrite named_from_cons, list_to_map_app, lookup_union.
  rewrite Critic_named_prefixed, lookup_prefixed_other.
  - rewrite IH; [done|]. intros i s Hi.
    replace (S off + i) with (off + S i) by lia. apply Hk. cbn. lia.
  - intros s. specialize (Hk 0 s). rewrite Nat.add_0_r in Hk. apply Hk. cbn. lia.
Qed.

Lemma named_from_lookup off cs i c s :
  cs !! i = Some c ->
  (list_to_map (named_from off cs) : gmap string tensor) !! (critic_prefix (off + i) +:+ s)
  = (list_to_map (Critic_named "" c) : gmap string tensor) !! s.
Proof.
  revert off i. induction cs as [|c0 cs IH]; intros off i Hi; [done|].
  rewrite named_from_cons, list_to_map_app, lookup_union.
  destruct i as [|i]; [injection Hi as ->|cbn in Hi].
  - rewrite Nat.add_0_r, Critic_named_prefixed, lookup_prefixed.
    rewrite named_from_lookup_None.
    + by destruct (_ !! s).
    + intros j s' _ H. apply critic_prefix_inj in H as [H _]. lia.
  - rewrite Critic_named_prefixed, lookup_prefixed_other.
    + replace (off + S i) with (S off + i) by lia.
      rewrite IH by done. by destruct (_ !! s).
    + intros s' H. apply critic_prefix_inj in H as [H _]. lia.
Qed.

Lemma CriticEnsemble_state_dict_lookup e i c s :
  _critics e !! i = Some c ->
  CriticEnsemble_state_dict e !! (critic_prefix i +:+ s)
  = (list_to_map (Critic_named "" c) : gmap string tensor) !! s.
Proof. intros H. by apply (named_from_lookup 0). Qed.

Lemma Critic_named_entries c :
  let m : gmap string tensor := list_to_map (Critic_named "" c) in
  m !! ("fc1." +:+ "weight") = Some (weight (c_fc1 c)) /\
  m !! ("fc1." +:+ "bias") = Some (bias (c_fc1 c)) /\
  m !! ("fc2." +:+ "weight") = Some (weight (c_fc2 c)) /\
  m !! ("fc2." +:+ "bias") = Some (bias (c_fc2 c)) /\
  m !! ("fc3." +:+ "weight") = Some (weight (c_fc3 c)) /\
  m !! ("fc3." +:+ "bias") = Some (bias (c_fc3 c)) /\
  m !! ("fc4." +:+ "weight") = Some (weight (c_fc4 c)) /\
  m !! ("fc4." +:+ "bias") = Some (bias (c_fc4 c)).
Proof. repeat split; reflexivity. Qed.

Lemma Critic_load_own sd p tgt src :
  (forall s, sd !! (p +:+ s) = (list_to_map (Critic_named "" src) : gmap string tensor) !! s) ->
  Critic_same_shape src tgt ->
  Critic_load sd p tgt = Ok src.
Proof.
  intros Hsd (H1 & H2 & H3 & H4).
  destruct H1 as [? ?], H2 as [? ?], H3 as [? ?], H4 as [? ?].
  unfold Critic_load, Linear_load, load_tensor.
  rewrite !string_app_assoc, !Hsd.
  destruct (Critic_named_entries src) as (-> & -> & -> & -> & -> & -> & -> & ->).
  rewrite !decide_True by done. by destruct src as [[] [] [] []].
Qed.

Lemma Critics_load_own sd off tgts srcs :
  (forall i c s, srcs !! i = Some c ->
     sd !! (critic_prefix (off + i) +:+ s)
     = (list_to_map (Critic_named "" c) : gmap string tensor) !! s) ->
  Forall2 Critic_same_shape srcs tgts ->
  mapM_result (fun ic : nat * Critic => Critic_load sd (critic_prefix ic.1) ic.2)
    (imap (fun i c => (off + i, c)) tgts) = Ok srcs.
Proof.
  intros Hsd Hsh. revert off Hsd.
  induction Hsh as [|src tgt srcs tgts Hc _ IH]; intros off Hsd; [done|].
  rewrite imap_cons. cbn [mapM_result fst snd].
  rewrite (Critic_load_own sd _ tgt src); [|intros s; by apply (Hsd 0 src s)|done].
  cbn. rewrite (imap_ext _ (fun i c => (S off + i, c))).
  2:{ intros i x _. unfold compose. f_equal. lia. }
  rewrite IH; [done|].
  intros i c s Hi. replace (S off + i) with (off + S i) by lia. by apply Hsd.
Qed.

Lemma Critic_named_keys p c c' : (Critic_named p c).*1 = (Critic_named p c').*1.
Proof. reflexivity. Qed.

Lemma named_from_keys off cs cs' :
  length cs = length cs' -> (named_from off cs).*1 = (named_from off cs').*1.
Proof.
  revert off cs'. induction cs as [|c cs IH]; intros off [|c' cs'] Hlen;
    try discriminate; [done|]. injection Hlen as Hlen.
  rewrite !named_from_cons, !fmap_app, (Critic_named_keys _ c c').
  f_equal. by apply IH.
Qed.

Lemma CriticEnsemble_state_dict_dom e e' :
  length (_critics e) = length (_critics e') ->
  dom (CriticEnsemble_state_dict e) = dom (CriticEnsemble_state_dict e').
Proof.
  intros Hlen. unfold CriticEnsemble_state_dict. rewrite !dom_list_to_map_L.
  f_equal. by apply (named_from_keys 0).
Qed.

(** Loading the state dict of an ensemble into an ensemble of the same
    architecture makes it a copy. *)
Lemma CriticEnsemble_load_own tgt src :
  Forall2 Critic_same_shape (_critics src) (_critics tgt) ->
  CriticEnsemble_load_state_dict tgt (CriticEnsemble_state_dict src) = Ok src.
Proof.
  intros Hsh. unfold CriticEnsemble_load_state_dict.
  rewrite (Critics_load_own _ 0 _ (_critics src)); [|..|done].
  - cbn. unfold check_unexpected.
    rewrite (CriticEnsemble_state_dict_dom tgt src)
      by (symmetry; by eapply Forall2_length).
    rewrite decide_True by done. by destruct src.
  - intros i c s Hi. by apply CriticEnsemble_state_dict_lookup.
Qed.

Section Construction.
  Context {col : Collaborators}.

Lemma Critic_new_shape env h g g' :
  Critic_same_shape (Critic_new env h g).1 (Critic_new env h g').1.
Proof. unfold Critic_new, Linear_new. repeat split. Qed.

Lemma Critics_new_shape env n h g g' :
  Forall2 Critic_same_shape (Critics_new env n h g).1 (Critics_new env n h g').1.
Proof.
  revert g g'. induction n as [|n IH]; intros g g'; [constructor|].
  cbn [Critics_new].
  destruct (Critic_new env h g) as [c g1] eqn:E1.
  destruct (Critic_new env h g') as [c' g1'] eqn:E1'.
  specialize (IH g1 g1').
  destruct (Critics_new env n h g1) as [cs g2].
  destruct (Critics_new env n h g1') as [cs' g2']. cbn in *.
  constructor; [|done].
  change c with (c, g1).1. rewrite <- E1.
  change c' with (c', g1').1. rewrite <- E1'. apply Critic_new_shape.
Qed.

Lemma create_actor_critic_target env h n lr mc g ac g' :
  _create_actor_critic env h n lr mc g = Ok (ac, g') ->
  ac_critic_target ac = ac_critic ac.
Proof.
  unfold _create_actor_critic.
  destruct (Actor_new env h g) as [a g1].
  unfold CriticEnsemble_new.
  destruct (Critics_new env n h g1) as [cs g2] eqn:E2.
  destruct (Critics_new env n h g2) as [ct g3] eqn:E3.
  rewrite CriticEnsemble_load_own.
  2:{ cbn. change cs with (cs, g2).1. change ct with (ct, g3).1.
      rewrite <- E2, <- E3. apply Critics_new_shape. }
  cbn. destruct (MorphologicalNetworks_new env mc g3) as [[m g4]|]; cbn; [|done].
  destruct (getitem mc "learning_rate"); cbn; [|done].
  by intros [= <- _].
Qed.

Lemma init_target_copy env kw cuda g self g' :
  __init__ env kw cuda g = Ok (self, g') ->
  critic_target self = critic self.
Proof.
  unfold __init__. destruct (bounds_finite (action_space env)); cbn; [|done].
  destruct (_create_actor_critic env (kw_hidden_size kw) (kw_n_critics kw)
              (kw_learning_rate kw) (kw_mc kw) g) as [[ac g1]|] eqn:E;
    cbn; [|done].
  intros [= <- _]. cbn. by eapply create_actor_critic_target.
Qed.

Lemma init_returns env kw cuda g :
  bounds_finite (action_space env) = true ->
  is_Ok (MorphologicalNetworks_new env (kw_mc kw)
           (CriticEnsemble_new env (kw_n_critics kw) (kw_hidden_size kw)
              (CriticEnsemble_new env (kw_n_critics kw) (kw_hidden_size kw)
                 (Actor_new env (kw_hidden_size kw) g).2).2).2) ->
  is_Some (kw_mc kw !! "learning_rate") ->
  is_Ok (__init__ env kw cuda g).
Proof.
  intros Hb [[m g4] Hm] [lr Hlr]. unfold __init__. rewrite Hb. cbn.
  unfold _create_actor_critic.
  destruct (Actor_new env _ g) as [a g1]. cbn in Hm.
  unfold CriticEnsemble_new in *.
  destruct (Critics_new env _ _ g1) as [cs g2] eqn:E2. cbn in Hm.
  destruct (Critics_new env _ _ g2) as [ct g3] eqn:E3. cbn in Hm.
  rewrite CriticEnsemble_load_own.
  2:{ cbn. change cs with (cs, g2).1. change ct with (ct, g3).1.
      rewrite <- E2, <- E3. apply Critics_new_shape. }
  cbn. rewrite Hm. cbn. unfold getitem. rewrite Hlr. cbn. by eexists.
Qed.

End Construction.


(** ** Arithmetic of tensor elements *)

Lemma Rltb_true a b : (a < b)%R -> Rltb a b = true.
Proof. intros H. unfold Rltb. by destruct (Rlt_dec a b). Qed.

Lemma Rltb_false a b : (b <= a)%R -> Rltb a b = false.
Proof. intros H. unfold Rltb. destruct (Rlt_dec a b); [lra|done]. Qed.

Lemma Rltb_spec a b : Rltb a b = true <-> (a < b)%R.
Proof. unfold Rltb. destruct (Rlt_dec a b); split; (done || lra || intros; lra). Qed.

Lemma Rleb_spec a b : Rleb a b = true <-> (a <= b)%R.
Proof. unfold Rleb. destruct (Rle_dec a b); split; (done || lra || intros; lra). Qed.

Lemma Rleb_true a b : (a <= b)%R -> Rleb a b = true.
Proof. apply Rleb_spec. Qed.

Lemma Rleb_false a b : (b < a)%R -> Rleb a b = false.
Proof. intros H. unfold Rleb. destruct (Rle_dec a b); [lra|done]. Qed.

Module NumFacts.

Lemma mul_comm x y : Num.mul x y = Num.mul y x.
Proof. destruct x, y; cbn; try done. by rewrite Rmult_comm. Qed.

Lemma add_comm x y : Num.add x y = Num.add y x.
Proof. destruct x, y; cbn; try done. by rewrite Rplus_comm. Qed.

Lemma add_zero_r x : Num.add x (Fin 0) = x.
Proof. destruct x; cbn; try done. by rewrite Rplus_0_r. Qed.

Lemma mul_zero_r x : is_finite x = true -> Num.mul x (Fin 0) = Fin 0.
Proof. destruct x; cbn; try done. intros _. by rewrite Rmult_0_r. Qed.

Lemma mul_inf_zero : Num.mul PInf (Fin 0) = NaN.
Proof. cbn. unfold Num.signed_inf. by rewrite !Rltb_false by lra. Qed.

Lemma div_pos a b : (0 < b)%R -> Num.div (Fin a) (Fin b) = Fin (a / b).
Proof. intros H. cbn. by rewrite Rltb_true. Qed.

Lemma div_zero_zero : Num.div (Fin 0) (Fin 0) = NaN.
Proof. cbn. unfold Num.signed_inf. by rewrite !Rltb_false by lra. Qed.

Lemma tanh_bounds x : (-1 < tanh x < 1)%R.
Proof.
  unfold tanh, sinh, cosh.
  pose proof (exp_pos x) as Ha. pose proof (exp_pos (- x)) as Hb.
  set (a := exp x) in *. set (b := exp (- x)) in *.
  replace ((a - b) / 2 / ((a + b) / 2))%R with ((a - b) / (a + b))%R by (field; lra).
  split.
  - apply Rmult_lt_reg_r with (a + b)%R; [lra|].
    unfold Rdiv. rewrite Rmult_assoc, Rinv_l by lra. lra.
  - apply Rmult_lt_reg_r with (a + b)%R; [lra|].
    unfold Rdiv. rewrite Rmult_assoc, Rinv_l by lra. lra.
Qed.

Lemma tanh_range x : x <> NaN ->
  exists t, Num.tanh x = Fin t /\ (-1 <= t <= 1)%R.
Proof.
  destruct x as [a| | |]; intros H; cbn; try done.
  - exists (tanh a). split; [done|]. pose proof (tanh_bounds a). lra.
  - exists 1%R. split; [done|lra].
  - exists (-1)%R. split; [done|lra].
Qed.

Lemma ltb_zero_cases x : Num.ltb Num.zero x = true ->
  x = PInf \/ exists a, x = Fin a /\ (0 < a)%R.
Proof.
  destruct x as [a| | |]; cbn; try done; [|by left].
  intros H%Rltb_spec. right. by exists a.
Qed.

Lemma max_Fin a b : exists c, Num.max (Fin a) (Fin b) = Fin c /\ c = Rmax a b.
Proof.
  cbn. unfold Rmax, Rleb. destruct (Rle_dec a b); eauto.
Qed.

Lemma min_Fin a b : exists c, Num.min (Fin a) (Fin b) = Fin c /\ c = Rmin a b.
Proof.
  cbn. unfold Rmin, Rleb. destruct (Rle_dec a b); eauto.
Qed.

(** A clamped log-std is NaN or a real number of the range. *)
Lemma clamp_cases lo hi x : (lo <= hi)%R ->
  Num.clamp (Fin lo) (Fin hi) x = NaN \/
  exists a, Num.clamp (Fin lo) (Fin hi) x = Fin a /\ (lo <= a <= hi)%R.
Proof.
  intros Hlh. unfold Num.clamp.
  destruct x as [a| | |]; [| | |by left]; right.
  - destruct (max_Fin a lo) as (c & -> & ->).
    destruct (min_Fin (Rmax a lo) hi) as (d & -> & ->).
    eexists; split; [done|].
    unfold Rmin, Rmax. repeat destruct (Rle_dec _ _); lra.
  - exists hi. split; [done|lra].
  - exists lo. split; [|lra]. cbn. by rewrite Rleb_true by lra.
Qed.

End NumFacts.

(** ** Broadcasting *)

Lemma bget_lookup {A} (x : list A) i v : x !! i = Some v -> bget x i = Some v.
Proof.
  destruct x as [|a [|b x]]; cbn; try done.
  intros H. destruct i as [|i]; cbn in H; [done|by destruct i].
Qed.

Lemma bget_elem_of {A} (x : list A) i v : bget x i = Some v -> v ∈ x.
Proof.
  destruct x as [|a [|b x]]; cbn; try done.
  - intros [= <-]. by left.
  - intros H. by eapply list_elem_of_lookup_2.
Qed.

Lemma bget2_elem_of {A} (a : list (list A)) r i v :
  bget2 a r i = Some v -> exists row, row ∈ a /\ v ∈ row.
Proof.
  unfold bget2. destruct (bget a r) as [row|] eqn:E; cbn; [|done].
  intros H. exists row. eauto using bget_elem_of.
Qed.

Lemma map_is_fmap {A B} (f : A -> B) (l : list A) : map f l = f <$> l.
Proof. induction l as [|x l IH]; cbn; [done|]. by rewrite IH. Qed.

Lemma bget_map {A B} (f : A -> B) (x : list A) i :
  bget (map f x) i = f <$> bget x i.
Proof.
  rewrite map_is_fmap. destruct x as [|a [|b x]]; try done.
  cbn [bget fmap list_fmap]. apply (list_lookup_fmap f (a :: b :: x)).
Qed.

Lemma bget2_map2d (f : num -> num) (a : batch) r i :
  bget2 (map2d f a) r i = f <$> bget2 a r i.
Proof.
  unfold bget2, map2d. rewrite bget_map.
  destruct (bget a r) as [row|]; cbn; [|done]. apply bget_map.
Qed.

Lemma mapM_result_lookup {A B} (f : A -> result B) l ys i y :
  mapM_result f l = Ok ys -> ys !! i = Some y ->
  exists x, l !! i = Some x /\ f x = Ok y.
Proof.
  revert ys i. induction l as [|x l IH]; intros ys i; cbn.
  - by intros [= <-].
  - destruct (f x) as [y0|] eqn:E; cbn; [|done].
    destruct (mapM_result f l) as [ys0|]; cbn; [|done].
    intros [= <-]. destruct i; cbn.
    + intros [= <-]. eauto.
    + intros H. by apply (IH ys0 i).
Qed.

Lemma mapM_result_length {A B} (f : A -> result B) l ys :
  mapM_result f l = Ok ys -> length ys = length l.
Proof.
  revert ys. induction l as [|x l IH]; intros ys; cbn.
  - by intros [= <-].
  - destruct (f x); cbn; [|done].
    destruct (mapM_result f l) as [ys0|]; cbn; [|done].
    intros [= <-]. cbn. f_equal. by apply (IH ys0).
Qed.

Lemma lookup_map_Some {A B} (g : A -> B) (l : list A) i v :
  map g l !! i = Some v -> exists c, l !! i = Some c /\ v = g c.
Proof.
  rewrite map_is_fmap, list_lookup_fmap.
  destruct (l !! i) as [c|]; cbn; [|done]. intros [= <-]. eauto.
Qed.

Lemma bc1_lookup f x y z i v :
  bc1 f x y = Ok z -> z !! i = Some v ->
  exists a b, bget x i = Some a /\ bget y i = Some b /\ v = f a b.
Proof.
  unfold bc1. case_decide as Hlen.
  - intros [= <-] Hi. apply lookup_zip_with_Some in Hi as (a & b & -> & Ha & Hb).
    exists a, b. eauto using bget_lookup.
  - destruct x as [|a [|a' x]].
    + destruct y as [|b [|b' y]]; try done.
      intros [= <-] Hi. by rewrite lookup_nil in Hi.
    + intros [= <-] Hi.
      apply (lookup_map_Some (f a) y) in Hi as (b & E & ->).
      exists a, b. eauto using bget_lookup.
    + destruct y as [|b [|b' y]]; try done.
      intros [= <-] Hi.
      apply (lookup_map_Some (fun c => f c b) (a :: a' :: x)) in Hi as (c & E & ->).
      exists c, b. eauto using bget_lookup.
Qed.

Lemma bc2_lookup f a b c r row :
  bc2 f a b = Ok c -> c !! r = Some row ->
  exists ra rb, bget a r = Some ra /\ bget b r = Some rb /\ bc1 f ra rb = Ok row.
Proof.
  unfold bc2. case_decide as Hlen.
  - intros H Hr. destruct (mapM_result_lookup _ _ _ _ _ H Hr) as ([ra rb] & Hz & Hf).
    apply lookup_zip_Some in Hz as [Ha Hb]. cbn in Hf.
    exists ra, rb. eauto using bget_lookup.
  - destruct a as [|ra [|ra' a]].
    + destruct b as [|rb [|rb' b]]; try done.
      intros [= <-] Hr. by rewrite lookup_nil in Hr.
    + intros H Hr.
      destruct (mapM_result_lookup _ _ _ _ _ H Hr) as (x & Hx & Hf).
      exists ra, x. eauto using bget_lookup.
    + destruct b as [|rb [|rb' b]]; try done.
      intros H Hr.
      destruct (mapM_result_lookup _ _ _ _ _ H Hr) as (x & Hx & Hf).
      exists x, rb. eauto using bget_lookup.
Qed.

Lemma bc2_elem f a b c r row i v :
  bc2 f a b = Ok c -> c !! r = Some row -> row !! i = Some v ->
  exists x y, bget2 a r i = Some x /\ bget2 b r i = Some y /\ v = f x y.
Proof.
  intros H Hr Hi.
  destruct (bc2_lookup _ _ _ _ _ _ H Hr) as (ra & rb & Ha & Hb & H1).
  destruct (bc1_lookup _ _ _ _ _ _ H1 Hi) as (x & y & Hx & Hy & ->).
  exists x, y. unfold bget2. rewrite Ha, Hb. cbn. eauto.
Qed.


Global Arguments Actor_forward : simpl never.
Global Arguments Normal_new : simpl never.
Global Arguments Normal_rsample : simpl never.
Global Arguments Normal_log_prob : simpl never.
Global Arguments bc1 : simpl never.
Global Arguments bc2 : simpl never.
Global Arguments Linear_batch : simpl never.
Global Arguments Linear_forward : simpl never.
Global Arguments CriticEnsemble_forward : simpl never.
Global Arguments Critic_forward : simpl never.
Global Arguments min_dim0 : simpl never.
Global Arguments randn_like : simpl never.
Global Arguments map2d : simpl never.
Global Arguments sum1_keepdim : simpl never.

Lemma bc1_bget f x y z i v :
  bc1 f x y = Ok z -> bget z i = Some v ->
  exists a b, bget x i = Some a /\ bget y i = Some b /\ v = f a b.
Proof.
  intros H Hv. destruct z as [|v0 [|v1 z']] eqn:Ez; cbn in Hv;
    [done| |rewrite <- Ez in *; by eapply bc1_lookup].
  injection Hv as ->. revert H. unfold bc1. case_decide as Hlen.
  - intros [= H]. destruct x as [|a [|a' x]], y as [|b [|b' y]]; try done.
    cbn in H. injection H as <-. by exists a, b.
  - destruct x as [|a [|a' x]].
    + destruct y as [|b [|b' y]]; done.
    + intros [= H]. destruct y as [|b [|b' y]]; try done.
    + destruct y as [|b [|b' y]]; done.
Qed.

Lemma bc2_bget f a b c r row :
  bc2 f a b = Ok c -> bget c r = Some row ->
  exists ra rb, bget a r = Some ra /\ bget b r = Some rb /\ bc1 f ra rb = Ok row.
Proof.
  intros H Hv. destruct c as [|v0 [|v1 c']] eqn:Ec; cbn in Hv;
    [done| |rewrite <- Ec in *; by eapply bc2_lookup].
  injection Hv as ->. revert H. unfold bc2. case_decide as Hlen.
  - intros H. pose proof (mapM_result_length _ _ _ H) as Hl. cbn in Hl.
    destruct a as [|ra [|ra' a]], b as [|rb [|rb' b]]; try done.
    cbn in H. bind_ok H as z Ez. injection H as ->. by exists ra, rb.
  - destruct a as [|ra [|ra' a]].
    + destruct b as [|rb [|rb' b]]; done.
    + intros H. pose proof (mapM_result_length _ _ _ H) as Hl.
      destruct b as [|rb [|rb' b]]; done.
    + destruct b as [|rb [|rb' b]]; try done.
      intros H. pose proof (mapM_result_length _ _ _ H) as Hl. done.
Qed.

Lemma bc2_bget2 f a b c r i v :
  bc2 f a b = Ok c -> bget2 c r i = Some v ->
  exists x y, bget2 a r i = Some x /\ bget2 b r i = Some y /\ v = f x y.
Proof.
  intros H Hv. unfold bget2 in Hv.
  destruct (bget c r) as [row|] eqn:Hr; [|done]. cbn in Hv.
  destruct (bc2_bget _ _ _ _ _ _ H Hr) as (ra & rb & Ha & Hb & H1).
  destruct (bc1_bget _ _ _ _ _ _ H1 Hv) as (x & y & Hx & Hy & ->).
  exists x, y. unfold bget2. rewrite Ha, Hb. cbn. eauto.
Qed.

Lemma bget2_lookup {A} (a : list (list A)) r row i v :
  a !! r = Some row -> row !! i = Some v -> bget2 a r i = Some v.
Proof.
  intros Hr Hi. unfold bget2. rewrite (bget_lookup _ _ _ Hr). cbn.
  by apply bget_lookup.
Qed.

Lemma Actor_forward_inv a x mean log_std :
  Actor_forward a x = Ok (mean, log_std) ->
  exists raw, log_std = map2d (Num.clamp LOG_STD_MIN LOG_STD_MAX) raw.
Proof.
  unfold Actor_forward. intros H.
  repeat bind_ok H. injection H as <- <-. eauto.
Qed.

Lemma Normal_new_inv mean std n :
  Normal_new mean std = Ok n ->
  n = {| loc := mean; scale := std |} /\
  all2d (fun x => negb (is_nan x)) mean = true /\
  all2d (Num.ltb Num.zero) std = true.
Proof.
  unfold Normal_new. destruct (all2d _ mean) eqn:E1; [|done].
  destruct (all2d _ std) eqn:E2; [|done]. cbn. by intros [= <-].
Qed.

Lemma all2d_elem p (a : batch) row v :
  all2d p a = true -> row ∈ a -> v ∈ row -> p v = true.
Proof.
  unfold all2d. rewrite forallb_forall. intros H Hr Hv.
  apply list_elem_of_In in Hr, Hv.
  specialize (H row Hr). rewrite forallb_forall in H. by apply H.
Qed.

Section Policy.
  Context {col : Collaborators}.

Lemma randn_like_elem g (x : batch) row v :
  row ∈ randn_like g x -> v ∈ row -> exists e, v = Fin e.
Proof.
  unfold randn_like. intros Hr Hv.
  apply elem_of_lookup_imap_1 in Hr as (b & r0 & -> & _).
  rewrite map_is_fmap in Hv. apply list_elem_of_fmap in Hv as (k & -> & _). eauto.
Qed.

(** The raw sample of a policy call that returned is never NaN. *)
Lemma rsample_elem mean raw g x_t g' r i v :
  let std := map2d Num.exp (map2d (Num.clamp LOG_STD_MIN LOG_STD_MAX) raw) in
  all2d (fun x => negb (is_nan x)) mean = true ->
  all2d (Num.ltb Num.zero) std = true ->
  Normal_rsample {| loc := mean; scale := std |} g = Ok (x_t, g') ->
  bget2 x_t r i = Some v -> v <> NaN.
Proof.
  intros std Hm Hs H Hv. unfold Normal_rsample in H. cbn [loc scale] in H.
  bind_ok H as es Ees. bind_ok H as xt Ext. injection H as <- <-.
  unfold bget2 in Hv. destruct (bget _ r) as [row|] eqn:Hr; [|done]. cbn in Hv.
  apply bget_elem_of, list_elem_of_lookup in Hr as [r' Hr].
  apply bget_elem_of, list_elem_of_lookup in Hv as [i' Hv].
  destruct (bc2_elem _ _ _ _ _ _ _ _ Ext Hr Hv) as (m & e & Hm' & He & ->).
  apply bget2_elem_of in Hm' as (mrow & Hmr & Hmv).
  pose proof (all2d_elem _ _ _ _ Hm Hmr Hmv) as Hnan.
  unfold bget2 in He. destruct (bget es r') as [erow|] eqn:Her; [|done]. cbn in He.
  apply bget_elem_of, list_elem_of_lookup in Her as [r'' Her].
  apply bget_elem_of, list_elem_of_lookup in He as [i'' He].
  destruct (bc2_elem _ _ _ _ _ _ _ _ Ees Her He) as (n & s & Hn & Hs' & ->).
  apply bget2_elem_of in Hn as (nrow & Hnr & Hnv).
  destruct (randn_like_elem _ _ _ _ Hnr Hnv) as [e ->].
  pose proof Hs' as Hs''.
  apply bget2_elem_of in Hs'' as (srow & Hsr & Hsv).
  pose proof (all2d_elem _ _ _ _ Hs Hsr Hsv) as Hpos.
  subst std. rewrite !bget2_map2d in Hs'.
  destruct (bget2 raw r'' i'') as [c|]; [|done]. cbn in Hs'. injection Hs' as <-.
  destruct (NumFacts.clamp_cases (-20) 2 c ltac:(lra)) as [Hc|(z & Hc & _)];
    unfold LOG_STD_MIN, LOG_STD_MAX, Num.of_Z in *; rewrite Hc in *; [done|].
  cbn. destruct m; cbn; done.
Qed.

(** What [get_action] computes, stage by stage. *)
Lemma get_action_inv a x g action lp g' :
  get_action a x g = Ok (action, lp, g') ->
  exists mean raw x_t ys lp0 sj,
    let log_std := map2d (Num.clamp LOG_STD_MIN LOG_STD_MAX) raw in
    let std := map2d Num.exp log_std in
    let normal := {| loc := mean; scale := std |} in
    let y_t := map2d Num.tanh x_t in
    Actor_forward a x = Ok (mean, log_std) /\
    all2d (fun x => negb (is_nan x)) mean = true /\
    all2d (Num.ltb Num.zero) std = true /\
    Normal_rsample normal g = Ok (x_t, g') /\
    bc2 Num.mul y_t [data (action_scale a)] = Ok ys /\
    bc2 Num.add ys [data (action_bias a)] = Ok action /\
    Normal_log_prob normal x_t = Ok lp0 /\
    bc2 Num.mul [data (action_scale a)]
      (map2d (fun y => Num.one - Num.pow2 y)%num y_t) = Ok sj /\
    (lp1 ← bc2 Num.sub lp0 (map2d (fun z => Num.log (z + eps_bound)%num) sj);
     Ok (sum1_keepdim lp1)) = Ok lp.
Proof.
  unfold get_action. intros H.
  bind_ok H as [mean log_std] E1.
  destruct (Actor_forward_inv _ _ _ _ E1) as [raw ->].
  bind_ok H as normal E2.
  apply Normal_new_inv in E2 as (-> & Hm & Hs).
  bind_ok H as [x_t g1] E3. bind_ok H as ys E4. bind_ok H as act E5.
  bind_ok H as lp0 E6. bind_ok H as sj E7. bind_ok H as lp1 E8.
  injection H as <- <- <-.
  exists mean, raw, x_t, ys, lp0, sj. cbn zeta. rewrite E8. cbn.
  repeat split; done.
Qed.

End Policy.

(** ** Well-formed modules and finite tensors *)

Lemma finite_add x y : is_finite x = true -> is_finite y = true ->
  is_finite (Num.add x y) = true.
Proof. by destruct x, y. Qed.

Lemma finite_mul x y : is_finite x = true -> is_finite y = true ->
  is_finite (Num.mul x y) = true.
Proof. by destruct x, y. Qed.

Lemma finite_relu x : is_finite x = true -> is_finite (Num.relu x) = true.
Proof.
  destruct x as [a| | |]; try done. intros _.
  destruct (NumFacts.max_Fin a 0) as (c & Hc & _). unfold Num.relu, Num.zero.
  by rewrite Hc.
Qed.

Lemma finite_vsum x : finite_vec x -> is_finite (vsum x) = true.
Proof.
  unfold vsum. generalize Num.zero, (eq_refl : is_finite Num.zero = true).
  intros z Hz H. revert z Hz. induction H as [|v x Hv _ IH]; intros z Hz; cbn; [done|].
  apply IH. by apply finite_add.
Qed.

Lemma finite_zip_with f (x y : vec) :
  (forall a b, is_finite a = true -> is_finite b = true -> is_finite (f a b) = true) ->
  finite_vec x -> finite_vec y -> finite_vec (zip_with f x y).
Proof.
  intros Hf Hx. revert y. induction Hx as [|a x Ha _ IH]; intros y Hy; [constructor|].
  destruct Hy as [|b y Hb Hy]; cbn; constructor; [by apply Hf|by apply IH].
Qed.

Lemma finite_take n (x : vec) : finite_vec x -> finite_vec (take n x).
Proof. unfold finite_vec. apply Forall_take. Qed.

Lemma finite_drop n (x : vec) : finite_vec x -> finite_vec (drop n x).
Proof. unfold finite_vec. apply Forall_drop. Qed.

Lemma finite_dot w x : finite_vec w -> finite_vec x -> is_finite (dot w x) = true.
Proof. intros. apply finite_vsum, finite_zip_with; auto using finite_mul. Qed.

Lemma bc1_same f (x y : vec) :
  length x = length y -> bc1 f x y = Ok (zip_with f x y).
Proof. intros H. unfold bc1. by rewrite decide_True. Qed.

Lemma Linear_forward_ok inn out l x :
  Linear_wf inn out l -> length x = inn -> finite_vec x ->
  exists y, Linear_forward l x = Ok y /\ length y = out /\ finite_vec y.
Proof.
  intros (Hs & Hw & Hb & Fw & Fb) Hx Fx. unfold Linear_forward.
  rewrite Hs, decide_True by done. rewrite bc1_same.
  2:{ rewrite length_map. unfold rows. by rewrite length_map, length_seq. }
  eexists. split; [done|]. split.
  - rewrite length_zip_with, length_map. unfold rows.
    rewrite length_map, length_seq. lia.
  - apply finite_zip_with; auto using finite_add.
    unfold finite_vec. rewrite map_is_fmap, Forall_fmap. unfold rows.
    rewrite map_is_fmap, Forall_fmap. apply Forall_forall. intros j _. cbn.
    apply finite_dot; [|done]. by apply finite_take, finite_drop.
Qed.

Lemma mapM_result_ok {A B} (f : A -> result B) (P : A -> Prop) (Q : B -> Prop) l :
  (forall x, P x -> exists y, f x = Ok y /\ Q y) -> Forall P l ->
  exists ys, mapM_result f l = Ok ys /\ length ys = length l /\ Forall Q ys.
Proof.
  intros Hf Hl. induction Hl as [|x l Hx _ (ys & E & Hlen & HQ)].
  - exists []. by repeat split.
  - destruct (Hf x Hx) as (y & Ey & Hy). exists (y :: ys). cbn.
    rewrite Ey. cbn. rewrite E. cbn. repeat split; [by rewrite Hlen|by constructor].
Qed.

Lemma Linear_batch_ok inn out l x :
  Linear_wf inn out l -> finite_batch inn x ->
  exists y, Linear_batch l x = Ok y /\ length y = length x /\ finite_batch out y.
Proof.
  intros Hl Hx. unfold Linear_batch.
  apply (mapM_result_ok _ (fun row => length row = inn /\ finite_vec row)); [|done].
  intros row [? ?]. by eapply Linear_forward_ok.
Qed.

Lemma finite_batch_map2d D f x :
  (forall a, is_finite a = true -> is_finite (f a) = true) ->
  finite_batch D x -> finite_batch D (map2d f x).
Proof.
  intros Hf Hx. unfold finite_batch, map2d. rewrite map_is_fmap, Forall_fmap.
  eapply Forall_impl; [exact Hx|]. intros row [Hl Hr]. cbn. split.
  - by rewrite length_map.
  - unfold finite_vec. rewrite map_is_fmap, Forall_fmap.
    eapply Forall_impl; [exact Hr|]. auto.
Qed.

Lemma length_map2d f (x : batch) : length (map2d f x) = length x.
Proof. unfold map2d. by rewrite length_map. Qed.

Lemma finite_batch_shaped D x : finite_batch D x -> shaped (length x) D x.
Proof. intros H. split; [done|]. eapply Forall_impl; [exact H|]. by intros r [? _]. Qed.

Lemma shaped_map2d B A f x : shaped B A x -> shaped B A (map2d f x).
Proof.
  intros [Hl Hr]. split; [by rewrite length_map2d|].
  unfold map2d. rewrite map_is_fmap, Forall_fmap.
  eapply Forall_impl; [exact Hr|]. intros r Hr'. cbn. by rewrite length_map.
Qed.

Lemma mapM_zip_same f (a b : batch) A :
  Forall (fun r => length r = A) a -> Forall (fun r => length r = A) b ->
  length a = length b ->
  mapM_result (fun p : vec * vec => bc1 f p.1 p.2) (zip a b)
  = Ok (zip_with (zip_with f) a b).
Proof.
  intros Ha. revert b. induction Ha as [|ra a Hra _ IH]; intros b Hb Hlen.
  - by destruct b.
  - destruct Hb as [|rb b Hrb Hb]; [done|]. cbn.
    rewrite bc1_same by congruence. cbn. rewrite IH by (done || (cbn in Hlen; lia)).
    done.
Qed.

Lemma shaped_zip_with B A f (a b : batch) :
  shaped B A a -> shaped B A b -> shaped B A (zip_with (zip_with f) a b).
Proof.
  intros [Hla Ha] [Hlb Hb]. split; [rewrite length_zip_with; lia|].
  clear Hla Hlb. revert b Hb. induction Ha as [|ra a Hra _ IH]; intros b Hb; [constructor|].
  destruct Hb as [|rb b Hrb Hb]; cbn; constructor; [|by apply IH].
  rewrite length_zip_with. lia.
Qed.

Lemma bc2_same B A f (a b : batch) :
  shaped B A a -> shaped B A b -> bc2 f a b = Ok (zip_with (zip_with f) a b).
Proof.
  intros [Hla Ha] [Hlb Hb]. unfold bc2. rewrite decide_True by congruence.
  eapply mapM_zip_same; eauto. congruence.
Qed.

Lemma mapM_row_r f (a : batch) (rb : vec) :
  Forall (fun r => length r = length rb) a ->
  mapM_result (fun ra => bc1 f ra rb) a = Ok (map (fun ra => zip_with f ra rb) a).
Proof.
  induction 1 as [|ra a Hra _ IH]; [done|]. cbn.
  rewrite bc1_same by done. cbn. by rewrite IH.
Qed.

Lemma mapM_row_l f (ra : vec) (b : batch) :
  Forall (fun r => length r = length ra) b ->
  mapM_result (fun rb => bc1 f ra rb) b = Ok (map (fun rb => zip_with f ra rb) b).
Proof.
  induction 1 as [|rb b Hrb _ IH]; [done|]. cbn.
  rewrite bc1_same by done. cbn. by rewrite IH.
Qed.

(** Broadcasting a vector against the rows of a batch. *)
Lemma bc2_row_r B f (a : batch) (rb : vec) :
  shaped B (length rb) a ->
  bc2 f a [rb] = Ok (map (fun ra => zip_with f ra rb) a).
Proof.
  intros [Hl Ha]. unfold bc2. case_decide as Hlen.
  - destruct a as [|ra [|ra' a]]; try done. cbn.
    apply Forall_cons in Ha as [Hra _]. by rewrite bc1_same.
  - destruct a as [|ra [|ra' a]]; try done. by apply mapM_row_r.
Qed.

Lemma bc2_row_l B f (ra : vec) (b : batch) :
  shaped B (length ra) b ->
  bc2 f [ra] b = Ok (map (fun rb => zip_with f ra rb) b).
Proof.
  intros [Hl Hb]. unfold bc2. case_decide as Hlen.
  - destruct b as [|rb [|rb' b]]; try done. cbn.
    apply Forall_cons in Hb as [Hrb _]. by rewrite bc1_same.
  - by apply mapM_row_l.
Qed.

Lemma shaped_map_zip_r B A f (a : batch) (rb : vec) :
  shaped B A a -> length rb = A -> shaped B A (map (fun ra => zip_with f ra rb) a).
Proof.
  intros [Hl Ha] Hrb. split; [by rewrite length_map|].
  rewrite map_is_fmap, Forall_fmap. eapply Forall_impl; [exact Ha|].
  intros r Hr. cbn in *. rewrite length_zip_with. lia.
Qed.

Lemma shaped_map_zip_l B A f (ra : vec) (b : batch) :
  shaped B A b -> length ra = A -> shaped B A (map (fun rb => zip_with f ra rb) b).
Proof.
  intros [Hl Hb] Hra. split; [by rewrite length_map|].
  rewrite map_is_fmap, Forall_fmap. eapply Forall_impl; [exact Hb|].
  intros r Hr. cbn in *. rewrite length_zip_with. lia.
Qed.

Lemma shaped_sum1 B A (a : batch) : shaped B A a -> shaped B 1 (sum1_keepdim a).
Proof.
  intros [Hl _]. unfold sum1_keepdim. split; [by rewrite length_map|].
  rewrite map_is_fmap, Forall_fmap. by apply Forall_forall.
Qed.

Lemma all2d_spec p (a : batch) :
  all2d p a = true <-> Forall (Forall (fun v => p v = true)) a.
Proof.
  unfold all2d. rewrite forallb_forall, Forall_forall.
  split; intros H row Hr.
  - apply Forall_forall. intros v Hv.
    apply list_elem_of_In, H in Hr. rewrite forallb_forall in Hr.
    by apply Hr, list_elem_of_In.
  - apply forallb_forall. intros v Hv.
    apply list_elem_of_In, H in Hr. rewrite Forall_forall in Hr.
    by apply Hr, list_elem_of_In.
Qed.

Lemma finite_batch_not_nan D x :
  finite_batch D x -> all2d (fun v => negb (is_nan v)) x = true.
Proof.
  intros H. apply all2d_spec. eapply Forall_impl; [exact H|].
  intros row [_ Hr]. eapply Forall_impl; [exact Hr|]. by intros [].
Qed.

Lemma std_positive D raw :
  finite_batch D raw ->
  finite_batch D (map2d Num.exp (map2d (Num.clamp LOG_STD_MIN LOG_STD_MAX) raw)) /\
  all2d (Num.ltb Num.zero)
    (map2d Num.exp (map2d (Num.clamp LOG_STD_MIN LOG_STD_MAX) raw)) = true.
Proof.
  intros H.
  assert (forall v, is_finite v = true ->
    exists s, Num.exp (Num.clamp LOG_STD_MIN LOG_STD_MAX v) = Fin s /\ (0 < s)%R) as Hc.
  { intros [a| | |] Hv; try done.
    destruct (NumFacts.clamp_cases (-20) 2 (Fin a) ltac:(lra)) as [Hc|(z & Hc & _)];
      unfold LOG_STD_MIN, LOG_STD_MAX, Num.of_Z.
    - exfalso. revert Hc. unfold Num.clamp.
      destruct (NumFacts.max_Fin a (-20)) as (c & -> & _).
      by destruct (NumFacts.min_Fin c 2) as (d & -> & _).
    - rewrite Hc. eexists. split; [done|apply exp_pos]. }
  split.
  - unfold finite_batch, map2d. rewrite !map_is_fmap, !Forall_fmap.
    eapply Forall_impl; [exact H|]. intros row [Hl Hr]. cbn. split.
    + by rewrite !length_map.
    + unfold finite_vec. rewrite !map_is_fmap, !Forall_fmap.
      eapply Forall_impl; [exact Hr|]. intros v Hv. cbn.
      by destruct (Hc v Hv) as (s & -> & _).
  - apply all2d_spec. unfold map2d. rewrite !map_is_fmap, !Forall_fmap.
    eapply Forall_impl; [exact H|]. intros row [_ Hr]. cbn.
    rewrite !map_is_fmap, !Forall_fmap.
    eapply Forall_impl; [exact Hr|]. intros v Hv. cbn.
    destruct (Hc v Hv) as (s & -> & Hs). cbn. by apply Rltb_true.
Qed.

Lemma Actor_forward_ok inn h A a x :
  Actor_wf inn h A a -> finite_batch inn x ->
  exists mean raw,
    Actor_forward a x
    = Ok (mean, map2d (Num.clamp LOG_STD_MIN LOG_STD_MAX) raw) /\
    length mean = length x /\ finite_batch A mean /\
    length raw = length x /\ finite_batch A raw.
Proof.
  intros (H1 & H2 & H3 & Hm & Hs & _) Hx. unfold Actor_forward.
  destruct (Linear_batch_ok _ _ _ _ H1 Hx) as (y1 & -> & L1 & F1). cbn.
  apply (finite_batch_map2d _ Num.relu) in F1; [|apply finite_relu].
  destruct (Linear_batch_ok _ _ _ _ H2 F1) as (y2 & -> & L2 & F2). cbn.
  apply (finite_batch_map2d _ Num.relu) in F2; [|apply finite_relu].
  destruct (Linear_batch_ok _ _ _ _ H3 F2) as (y3 & -> & L3 & F3). cbn.
  apply (finite_batch_map2d _ Num.relu) in F3; [|apply finite_relu].
  destruct (Linear_batch_ok _ _ _ _ Hm F3) as (mean & -> & Lm & Fm). cbn.
  destruct (Linear_batch_ok _ _ _ _ Hs F3) as (raw & -> & Lr & Fr). cbn.
  rewrite !length_map2d in *.
  exists mean, raw. repeat split; (done || lia).
Qed.

Section PolicyReturns.
  Context {col : Collaborators}.

Lemma randn_like_shaped g B A (x : batch) :
  shaped B A x -> shaped B A (randn_like g x) /\ finite_batch A (randn_like g x).
Proof.
  intros [Hl Hx]. unfold randn_like. split; [split|].
  - by rewrite length_imap.
  - apply Forall_forall. intros row Hr.
    apply elem_of_lookup_imap_1 in Hr as (b & r0 & -> & Hb).
    rewrite length_map, length_seq.
    rewrite Forall_forall in Hx. by eapply Hx, list_elem_of_lookup_2.
  - apply Forall_forall. intros row Hr.
    apply elem_of_lookup_imap_1 in Hr as (b & r0 & -> & Hb). split.
    + rewrite length_map, length_seq.
      rewrite Forall_forall in Hx. by eapply Hx, list_elem_of_lookup_2.
    + unfold finite_vec. rewrite map_is_fmap, Forall_fmap. by apply Forall_forall.
Qed.

Lemma finite_batch_zip_with D f (a b : batch) :
  (forall u v, is_finite u = true -> is_finite v = true -> is_finite (f u v) = true) ->
  finite_batch D a -> finite_batch D b ->
  finite_batch D (zip_with (zip_with f) a b).
Proof.
  intros Hf Ha. revert b. induction Ha as [|ra a [Hla Hra] _ IH]; intros b Hb;
    [constructor|].
  destruct Hb as [|rb b [Hlb Hrb] Hb]; cbn; constructor; [|by apply IH].
  split; [rewrite length_zip_with; lia|by apply finite_zip_with].
Qed.

(** The policy returns an action for every finite observation of the
    right size. *)
Lemma get_action_returns inn h A (a : Actor) (x : batch) (g : Generator) :
  Actor_wf inn h A a -> finite_batch inn x ->
  exists action lp g',
    get_action a x g = Ok (action, lp, g') /\
    shaped (length x) A action /\ shaped (length x) 1 lp.
Proof.
  intros Ha Hx.
  destruct (Actor_forward_ok _ _ _ _ _ Ha Hx) as (mean & raw & E & Lm & Fm & Lr & Fr).
  destruct Ha as (_ & _ & _ & _ & _ & Hsc & Hbi).
  unfold get_action. rewrite E. cbn [mbind result_bind].
  destruct (std_positive _ _ Fr) as [Fs Hpos].
  set (std := map2d Num.exp _) in *.
  unfold Normal_new. rewrite (finite_batch_not_nan _ _ Fm), Hpos. cbn.
  pose proof (finite_batch_shaped _ _ Fm) as Sm. rewrite Lm in Sm.
  pose proof (finite_batch_shaped _ _ Fs) as Ss.
  unfold std in Ss at 1. rewrite !length_map2d, Lr in Ss.
  destruct (randn_like_shaped g _ _ _ Sm) as [Se Fe].
  unfold Normal_rsample. cbn [loc scale].
  rewrite (bc2_same _ _ _ _ _ Se Ss). cbn.
  pose proof (finite_batch_zip_with _ Num.mul _ _ finite_mul Fe Fs) as Fes.
  pose proof (shaped_zip_with _ _ Num.mul _ _ Se Ss) as Ses.
  rewrite (bc2_same _ _ _ _ _ Sm Ses). cbn.
  pose proof (finite_batch_zip_with _ Num.add _ _ finite_add Fm Fes) as Fxt.
  pose proof (shaped_zip_with _ _ Num.add _ _ Sm Ses) as Sxt.
  set (x_t := zip_with (zip_with Num.add) mean _) in *.
  pose proof (shaped_map2d _ _ Num.tanh _ Sxt) as Sy.
  rewrite <- Hsc in Sy at 1.
  rewrite (bc2_row_r _ _ _ _ Sy). cbn. rewrite Hsc in Sy.
  pose proof (shaped_map_zip_r _ _ Num.mul _ _ Sy Hsc) as Sys.
  rewrite <- Hbi in Sys at 1.
  rewrite (bc2_row_r _ _ _ _ Sys). cbn. rewrite Hbi in Sys.
  pose proof (shaped_map_zip_r _ _ Num.add _ _ Sys Hbi) as Sact.
  unfold Normal_log_prob. rewrite (finite_batch_not_nan _ _ Fxt). cbn [loc scale].
  rewrite (bc2_same _ _ _ _ _ Sxt Sm). cbn.
  pose proof (shaped_zip_with _ _ Num.sub _ _ Sxt Sm) as Sd.
  pose proof (shaped_map2d _ _ (fun x => - Num.pow2 x)%num _ Sd) as Sd'.
  pose proof (shaped_map2d _ _ (Num.mul (Num.of_Z 2)) _
                (shaped_map2d _ _ Num.pow2 _ Ss)) as Sv.
  rewrite (bc2_same _ _ _ _ _ Sd' Sv). cbn.
  pose proof (shaped_zip_with _ _ Num.div _ _ Sd' Sv) as Sq.
  pose proof (shaped_map2d _ _ Num.log _ Ss) as Sl.
  rewrite (bc2_same _ _ _ _ _ Sq Sl). cbn.
  pose proof (shaped_map2d _ _ (fun x => x - log_sqrt_2pi)%num _
                (shaped_zip_with _ _ Num.sub _ _ Sq Sl)) as Slp.
  pose proof (shaped_map2d _ _ (fun y => Num.one - Num.pow2 y)%num _ Sy) as S1.
  rewrite <- Hsc in S1 at 1.
  rewrite (bc2_row_l _ _ _ _ S1). cbn. rewrite Hsc in S1.
  pose proof (shaped_map2d _ _ (fun z => Num.log (z + eps_bound)%num) _
                (shaped_map_zip_l _ _ Num.mul _ _ S1 Hsc)) as Sc.
  rewrite (bc2_same _ _ _ _ _ Slp Sc). cbn.
  do 3 eexists. split; [done|]. split; [done|].
  eapply shaped_sum1, shaped_zip_with; eauto.
Qed.

End PolicyReturns.


(** ** The log-probability of the policy *)

Lemma ln_gaussian_density m s v : (0 < s)%R ->
  ln (gaussian_density m s v)
  = (- ((v + - m) * (v + - m)) / (2 * (s * s)) + - ln s + - ln (sqrt (2 * PI)))%R.
Proof.
  intros Hs. unfold gaussian_density.
  assert (0 < sqrt (2 * PI))%R as Hq by (apply sqrt_lt_R0; pose proof PI_RGT_0; lra).
  rewrite ln_mult; [|apply Rinv_0_lt_compat; nra|apply exp_pos].
  rewrite ln_exp, ln_Rinv by nra. rewrite ln_mult by done.
  field. lra.
Qed.

(** torch's formula is the logarithm of the density. *)
Lemma Normal_log_prob_elt_density mu s e :
  mu <> NaN -> (0 < s)%R ->
  let x := (mu + Fin e * Fin s)%num in
  (- Num.pow2 (x - mu) / (Num.of_Z 2 * Num.pow2 (Fin s)) - Num.log (Fin s)
   - log_sqrt_2pi)%num
  = gaussian_log_density mu (Fin s) x.
Proof.
  intros Hmu Hs. destruct mu as [m| | |]; try done.
  cbn. rewrite !Rltb_true by nra. cbn.
  by rewrite ln_gaussian_density.
Qed.

Lemma eps_bound_nonzero : eps_bound <> Num.zero.
Proof. unfold eps_bound, Num.zero. intros [= H]. lra. Qed.

Section LogProb.
  Context {col : Collaborators}.

Lemma std_elem raw r i sigma :
  all2d (Num.ltb Num.zero)
    (map2d Num.exp (map2d (Num.clamp LOG_STD_MIN LOG_STD_MAX) raw)) = true ->
  bget2 (map2d Num.exp (map2d (Num.clamp LOG_STD_MIN LOG_STD_MAX) raw)) r i
  = Some sigma ->
  exists s, sigma = Fin s /\ (0 < s)%R.
Proof.
  intros Hpos Hs. pose proof Hs as Hs'.
  apply bget2_elem_of in Hs' as (srow & Hsr & Hsv).
  pose proof (all2d_elem _ _ _ _ Hpos Hsr Hsv) as Hp.
  rewrite !bget2_map2d in Hs.
  destruct (bget2 raw r i) as [c|]; [|done]. cbn in Hs. injection Hs as <-.
  destruct (NumFacts.clamp_cases (-20) 2 c ltac:(lra)) as [Hc|(z & Hc & _)];
    unfold LOG_STD_MIN, LOG_STD_MAX, Num.of_Z in *; rewrite Hc in *; [done|].
  eexists. split; [done|apply exp_pos].
Qed.

Lemma rsample_bget2 mean std g x_t g' r i xi :
  Normal_rsample {| loc := mean; scale := std |} g = Ok (x_t, g') ->
  bget2 x_t r i = Some xi ->
  exists mu e sigma,
    bget2 mean r i = Some mu /\ bget2 std r i = Some sigma /\
    xi = (mu + Fin e * sigma)%num.
Proof.
  unfold Normal_rsample. cbn [loc scale]. intros H Hxi.
  bind_ok H as es Ees. bind_ok H as xt Ext. injection H as <- <-.
  destruct (bc2_bget2 _ _ _ _ _ _ _ Ext Hxi) as (mu & ev & Hmu & Hev & ->).
  destruct (bc2_bget2 _ _ _ _ _ _ _ Ees Hev) as (n & sigma & Hn & Hsig & ->).
  apply bget2_elem_of in Hn as (nrow & Hnr & Hnv).
  destruct (randn_like_elem _ _ _ _ Hnr Hnv) as [e ->].
  by exists mu, e, sigma.
Qed.

Lemma Normal_log_prob_bget2 mean std x_t lp0 r i v :
  Normal_log_prob {| loc := mean; scale := std |} x_t = Ok lp0 ->
  bget2 lp0 r i = Some v ->
  exists xi mu sigma,
    bget2 x_t r i = Some xi /\ bget2 mean r i = Some mu /\
    bget2 std r i = Some sigma /\
    v = (- Num.pow2 (xi - mu) / (Num.of_Z 2 * Num.pow2 sigma) - Num.log sigma
         - log_sqrt_2pi)%num.
Proof.
  unfold Normal_log_prob. cbn [loc scale]. intros H Hv.
  destruct (all2d _ x_t); [|done].
  bind_ok H as d Ed. bind_ok H as q Eq. bind_ok H as t Et. injection H as <-.
  rewrite bget2_map2d in Hv.
  destruct (bget2 t r i) as [tv|] eqn:Htv; [|done]. injection Hv as <-.
  destruct (bc2_bget2 _ _ _ _ _ _ _ Et Htv) as (qv & ls & Hqv & Hls & ->).
  destruct (bc2_bget2 _ _ _ _ _ _ _ Eq Hqv) as (dn & vr & Hdn & Hvr & ->).
  rewrite bget2_map2d in Hdn, Hls. rewrite !bget2_map2d in Hvr.
  destruct (bget2 d r i) as [dv|] eqn:Hdv; [|done]. injection Hdn as <-.
  destruct (bget2 std r i) as [sigma|] eqn:Hsig; [|done].
  injection Hls as <-. injection Hvr as <-.
  destruct (bc2_bget2 _ _ _ _ _ _ _ Ed Hdv) as (xi & mu & Hxi & Hmu & ->).
  by exists xi, mu, sigma.
Qed.

(** The log-probability of [get_action], stage by stage: the summed
    tensor and, for each of its elements, the Gaussian log-density of the
    raw sample minus the correction of the squashing. *)
Lemma get_action_log_prob_entries (a : Actor) x g action lp g' :
  get_action a x g = Ok (action, lp, g') ->
  exists mean log_std x_t lp0 sj per_dim,
    Actor_forward a x = Ok (mean, log_std) /\
    Normal_rsample {| loc := mean; scale := map2d Num.exp log_std |} g
    = Ok (x_t, g') /\
    Normal_log_prob {| loc := mean; scale := map2d Num.exp log_std |} x_t = Ok lp0 /\
    bc2 Num.mul [data (action_scale a)]
      (map2d (fun y => Num.one - Num.pow2 y)%num (map2d Num.tanh x_t)) = Ok sj /\
    bc2 Num.sub lp0 (map2d (fun z => Num.log (z + eps_bound)%num) sj) = Ok per_dim /\
    lp = sum1_keepdim per_dim /\
    (forall r row i v,
       per_dim !! r = Some row -> row !! i = Some v ->
       exists mu lambda xi s,
         bget2 mean r i = Some mu /\ bget2 log_std r i = Some lambda /\
         bget2 x_t r i = Some xi /\ bget (data (action_scale a)) i = Some s /\
         v = (gaussian_log_density mu (Num.exp lambda) xi
              - tanh_correction s xi)%num).
Proof.
  intros H.
  destruct (get_action_inv _ _ _ _ _ _ H)
    as (mean & raw & x_t & ys & lp0 & sj & Hf & Hm & Hs & Hx & _ & _ & Hlp0 & Hsj & Hlp).
  cbn zeta in *. bind_ok Hlp as lp1 Elp1. injection Hlp as <-.
  exists mean, (map2d (Num.clamp LOG_STD_MIN LOG_STD_MAX) raw), x_t, lp0, sj, lp1.
  split; [done|]. split; [done|]. split; [done|]. split; [done|]. split; [done|].
  split; [done|].
  intros r row i v Hr Hi.
  pose proof (bget2_lookup _ _ _ _ _ Hr Hi) as Hv.
  destruct (bc2_bget2 _ _ _ _ _ _ _ Elp1 Hv) as (p & c & Hp & Hc & ->).
  destruct (Normal_log_prob_bget2 _ _ _ _ _ _ _ Hlp0 Hp)
    as (xi & mu & sigma & Hxi & Hmu & Hsig & ->).
  rewrite bget2_map2d in Hc.
  destruct (bget2 sj r i) as [z|] eqn:Hz; [|done]. injection Hc as <-.
  destruct (bc2_bget2 _ _ _ _ _ _ _ Hsj Hz) as (s & w & Hs' & Hw & ->).
  rewrite !bget2_map2d, Hxi in Hw. injection Hw as <-.
  unfold bget2 in Hs'. cbn in Hs'.
  destruct (rsample_bget2 _ _ _ _ _ _ _ _ Hx Hxi)
    as (mu' & e & sigma' & Hmu' & Hsig' & Exi).
  rewrite Hmu in Hmu'. injection Hmu' as <-.
  rewrite Hsig in Hsig'. injection Hsig' as <-.
  destruct (std_elem _ _ _ _ Hs Hsig) as (sv & -> & Hsv).
  pose proof Hsig as Hlam. rewrite bget2_map2d in Hlam.
  destruct (bget2 (map2d _ raw) r i) as [lambda|] eqn:El; [|done].
  injection Hlam as Hlam.
  exists mu, lambda, xi, s. repeat split; try done.
  rewrite Hlam. unfold tanh_correction. f_equal.
  subst xi. apply Normal_log_prob_elt_density; [|done].
  apply bget2_elem_of in Hmu as (mrow & Hmr & Hmv).
  pose proof (all2d_elem _ _ _ _ Hm Hmr Hmv) as Hnan. by destruct mu.
Qed.

End LogProb.


Global Arguments record : simpl never.
Global Arguments record_mean : simpl never.
Global Arguments kl_error : simpl never.
Global Arguments mc_losses : simpl never.
Global Arguments ent_coef_loss_of : simpl never.
Global Arguments flatten_obs : simpl never.
Global Arguments getattr : simpl never.
Global Arguments item : simpl never.
Global Arguments getitem : simpl never.

Section Training.
  Context {col : Collaborators}.

Lemma frame_refl s : frame s s.
Proof. done. Qed.

Lemma frame_trans s1 s2 s3 : frame s1 s2 -> frame s2 s3 -> frame s1 s3.
Proof. unfold frame. congruence. Qed.

Lemma frame_fields s s' :
  frame s s' ->
  tau s' = tau s /\ gamma s' = gamma s /\ mc s' = mc s /\ actor s' = actor s /\
  critic s' = critic s /\ critic_optimizer s' = critic_optimizer s /\
  critic_target s' = critic_target s /\ ent_coef s' = ent_coef s /\
  target_entropy s' = target_entropy s /\ ent_coef_tensor s' = ent_coef_tensor s.
Proof. unfold frame, kept. intros [= ]. by repeat split. Qed.

Lemma record_inv key v s s' :
  record key v s = Ok s' ->
  frame s s' /\ mc_network s' = mc_network s /\
  log_of s' = log_of s ++ [LogRecord key v] /\ is_Some (logger s) /\
  frame_ent s s' /\ is_Some (logger s').
Proof.
  unfold record, log_of. destruct (logger s) as [l|] eqn:E; [|done].
  intros [= <-]. cbn. by repeat split.
Qed.

Lemma record_mean_inv key v s s' :
  record_mean key v s = Ok s' ->
  frame s s' /\ mc_network s' = mc_network s /\
  log_of s' = log_of s ++ [LogRecordMean key v] /\ is_Some (logger s) /\
  frame_ent s s' /\ is_Some (logger s').
Proof.
  unfold record_mean, log_of. destruct (logger s) as [l|] eqn:E; [|done].
  intros [= <-]. cbn. by repeat split.
Qed.

(** The composed reward is the extrinsic reward plus [eta] times the KL
    error, as computed: nothing is checked or clamped. *)
Lemma calc_reward_inv s observations actions e_rewards ex r s' :
  calc_reward s observations actions e_rewards ex = Ok (r, s') ->
  exists _err eta,
    kl_error (mc_network s) observations actions = Ok _err /\
    mc s !! "reward_eta" = Some eta /\
    bc2 Num.add e_rewards (map2d (fun x => x * eta)%num _err) = Ok r /\
    frame s s' /\
    log_of s' = log_of s ++
      reward_entries ex (map2d (fun x => x * eta)%num _err) e_rewards _err r.
Proof.
  unfold calc_reward. intros H.
  bind_ok H as _err E1. bind_ok H as eta E2. bind_ok H as rw E3.
  unfold getitem in E2. destruct (mc s !! "reward_eta") as [eta'|] eqn:E2'; [|done].
  injection E2 as ->.
  exists _err, eta. split; [done|]. split; [done|].
  destruct ex.
  - bind_ok H as s1 R1. bind_ok H as s2 R2. bind_ok H as s3 R3. bind_ok H as s4 R4.
    injection H as <- <-.
    apply record_inv in R1 as (F1 & _ & L1 & _), R2 as (F2 & _ & L2 & _),
      R3 as (F3 & _ & L3 & _), R4 as (F4 & _ & L4 & _).
    split; [done|]. split; [eauto using frame_trans|].
    rewrite L4, L3, L2, L1. by rewrite <- !app_assoc.
  - bind_ok H as s1 R1. bind_ok H as s2 R2. bind_ok H as s3 R3. bind_ok H as s4 R4.
    injection H as <- <-.
    apply record_mean_inv in R1 as (F1 & _ & L1 & _), R2 as (F2 & _ & L2 & _),
      R3 as (F3 & _ & L3 & _), R4 as (F4 & _ & L4 & _).
    split; [done|]. split; [eauto using frame_trans|].
    rewrite L4, L3, L2, L1. by rewrite <- !app_assoc.
Qed.

Lemma kl_error_inv net observations actions _err :
  kl_error net observations actions = Ok _err ->
  exists kl, _err = unsqueeze1 (mean_last kl).
Proof.
  unfold kl_error. intros H. bind_ok H as [f w] E1. bind_ok H as kl E2.
  injection H as <-. eauto.
Qed.

Lemma map_add_zero (row : vec) : map (fun a => Num.add a (Fin 0)) row = row.
Proof.
  induction row as [|y row IH]; [done|]. cbn. by rewrite NumFacts.add_zero_r, IH.
Qed.

Lemma add_zero_row (row : vec) : bc1 Num.add row [Fin 0] = Ok row.
Proof.
  unfold bc1. case_decide as Hl.
  - destruct row as [|x [|x' row]]; try done. cbn. by rewrite NumFacts.add_zero_r.
  - destruct row as [|x [|x' row]]; try done.
    by rewrite (map_add_zero (x :: x' :: row)).
Qed.

Lemma add_zero_column (e : batch) (z : vec) :
  length e = length z ->
  bc2 Num.add e (map (fun _ => [Fin 0]) z) = Ok e.
Proof.
  intros Hlen. unfold bc2. rewrite length_map, decide_True by done.
  revert z Hlen. induction e as [|row e IH]; intros [|z0 z] Hlen; try done.
  cbn. rewrite add_zero_row. cbn. rewrite IH by (cbn in Hlen; lia). done.
Qed.

(** C6.  With a weighting coefficient [eta] of 0, the reward composer
    returns the extrinsic reward of every batch whose KL error is finite
    and whose extrinsic reward has one row per KL value (without that,
    the sum broadcasts). *)
Theorem calc_reward_eta_zero self observations actions e_rewards
  is_executing _err rewards self' :
  mc self !! "reward_eta" = Some Num.zero ->
  kl_error (mc_network self) observations actions = Ok _err ->
  all2d is_finite _err = true ->
  length _err = length e_rewards ->
  calc_reward self observations actions e_rewards is_executing = Ok (rewards, self') ->
  rewards = e_rewards.
Proof.
  intros Heta Hkl Hfin Hlen H.
  destruct (calc_reward_inv _ _ _ _ _ _ _ H) as (err' & eta & Hkl' & Heta' & Hr & _).
  rewrite Hkl in Hkl'. injection Hkl' as <-.
  rewrite Heta in Heta'. injection Heta' as <-.
  destruct (kl_error_inv _ _ _ _ Hkl) as [kl ->].
  assert (map2d (fun x => x * Num.zero)%num (unsqueeze1 (mean_last kl))
          = map (fun _ => [Fin 0]) (mean_last kl)) as Hz.
  { apply all2d_spec in Hfin. unfold map2d, unsqueeze1 in *.
    rewrite map_map. apply map_ext_Forall.
    rewrite map_is_fmap, Forall_fmap in Hfin.
    eapply Forall_impl; [exact Hfin|]. cbn. intros x Hx.
    apply Forall_cons in Hx as [Hx _]. by rewrite NumFacts.mul_zero_r. }
  rewrite Hz, add_zero_column in Hr.
  - by injection Hr.
  - unfold unsqueeze1 in Hlen. rewrite length_map in Hlen. done.
Qed.

(** *** The stages of a training step *)

Lemma train_mc_inv s observations next_observations actions s' :
  train_mc s observations next_observations actions = Ok s' ->
  exists fw_loss w_loss loss,
    mc_losses (mc_network s) observations next_observations actions
    = Ok (fw_loss, w_loss, loss) /\
    frame s s' /\
    log_of s' = log_of s ++
      [ LogRecord "mc/fw_loss" (mean_all fw_loss);
        LogRecord "mc/w_prime_a_loss" (mean_all w_loss);
        LogRecord "mc/loss" loss ].
Proof.
  unfold train_mc. intros H. bind_ok H as [[fw w] loss] E.
  bind_ok H as s1 R1. bind_ok H as s2 R2. bind_ok H as s3 R3.
  apply record_inv in R1 as (F1 & _ & L1 & _), R2 as (F2 & _ & L2 & _),
    R3 as (F3 & _ & L3 & _).
  destruct (Adam_step _ _ _) as [opt new]. injection H as <-.
  exists fw, w, loss. split; [done|]. split.
  - unfold frame in *. etrans; [|exact (eq_trans F2 F1)]. etrans; [|exact F3]. done.
  - cbn. change (log_of (set_mc_network ?m (set_mc_optimizer ?o ?s))) with (log_of s).
    rewrite L3, L2, L1. by rewrite <- !app_assoc.
Qed.

Lemma train_ent_coef_inv s observations g ec s' g' :
  train_ent_coef s observations g = Ok (ec, s', g') ->
  frame s s' /\ mc_network s' = mc_network s /\
  log_of s' = log_of s ++ ent_coef_entries s observations g.
Proof.
  unfold train_ent_coef, ent_coef_entries. destruct (ent_coef s).
  - intros H. bind_ok H as [[a lp] g1] E1. bind_ok H as lec E2.
    bind_ok H as te E3. bind_ok H as loss E4. bind_ok H as s1 R1.
    bind_ok H as opt E5. destruct (Adam_step _ _ _) as [opt' new].
    bind_ok H as ec' E6. injection H as <- <- <-.
    apply record_inv in R1 as (F1 & M1 & L1 & _).
    destruct (log_ent_coef s), (target_entropy s); try done.
    injection E2 as ->. injection E3 as ->. rewrite E4. cbn.
    by repeat split.
  - intros H. bind_ok H as ec' E. injection H as <- <- <-.
    rewrite app_nil_r. by repeat split.
Qed.

Lemma next_q_value_of_inv s ent_coef observations next_observations
  replay_data g nq s' g' :
  next_q_value_of s ent_coef observations next_observations replay_data g
  = Ok (nq, s', g') ->
  exists next_state_actions next_state_log_pi crit_next_targets min_target soft
         composed discounted,
    get_action (actor s) next_observations g
    = Ok (next_state_actions, next_state_log_pi, g') /\
    CriticEnsemble_forward (critic_target s) next_observations next_state_actions
    = Ok crit_next_targets /\
    min_dim0 crit_next_targets = Ok min_target /\
    bc2 Num.sub min_target (map2d (Num.mul ent_coef) next_state_log_pi) = Ok soft /\
    calc_reward s observations next_state_actions (rewards replay_data) false
    = Ok (composed, s') /\
    bc1 Num.mul
      (map (fun d => (Num.one - d) * gamma s)%num (flatten (dones replay_data)))
      (flatten soft) = Ok discounted /\
    bc1 Num.add (flatten composed) discounted = Ok nq.
Proof.
  unfold next_q_value_of. intros H.
  bind_ok H as [[a lp] g1] E1. bind_ok H as ts E2. bind_ok H as mt E3.
  bind_ok H as soft E4. bind_ok H as [r s1] E5.
  destruct (calc_reward_inv _ _ _ _ _ _ _ E5) as (er & eta & _ & _ & _ & F & _).
  destruct (frame_fields _ _ F) as (_ & Hg & _). rewrite Hg in H.
  bind_ok H as disc E6. bind_ok H as q E7. injection H as <- <- <-.
  by exists a, lp, ts, mt, soft, r, disc.
Qed.

(** One training step, stage by stage. *)
Lemma train_inv self g self' g' :
  train self g = Ok (self', g') ->
  exists replay_data rb obs next_obs s_mc ent_coef s_ent g1
         s_log next_q_value s_q g2 crit_loss s_cl s_tr actor_loss s_al,
    rb_sample (replay_buffer self) (batch_size self) = (replay_data, rb) /\
    flatten_obs (observations replay_data) = Ok obs /\
    flatten_obs (next_observations replay_data) = Ok next_obs /\
    (* stage 1 *)
    is_Some (logger self) /\
    train_mc
      (set_replay_buffer rb
         (set_logger
            (Some {| entries := log_of self ++
                       [LogRecord "train/n_updates" (Num.of_Z (_n_updates self + 1))] |})
            (set__n_updates (_n_updates self + 1)%Z self)))
      obs next_obs (actions replay_data) = Ok s_mc /\
    (* stage 2 *)
    train_ent_coef s_mc obs g = Ok (ent_coef, s_ent, g1) /\
    record "train/ent_coef" ent_coef s_ent = Ok s_log /\
    (* stage 3 *)
    next_q_value_of s_log ent_coef obs next_obs replay_data g1
    = Ok (next_q_value, s_q, g2) /\
    (* stage 4 *)
    crit_loss_of (critic self) obs (actions replay_data) next_q_value
    = Ok crit_loss /\
    record "train/critic_loss" crit_loss s_q = Ok s_cl /\
    record "train/train_rewards" (vmean (flatten (rewards replay_data))) s_cl
    = Ok s_tr /\
    critic self' =
      CriticEnsemble_set
        (stepped
           (Adam_step (critic_optimizer self)
              (fun ps =>
                 loss_value
                   (crit_loss_of (CriticEnsemble_set ps (critic self)) obs
                      (actions replay_data) next_q_value))
              (CriticEnsemble_parameters (critic self))).2
           (CriticEnsemble_parameters (critic self)))
        (critic self) /\
    (* stage 5 *)
    actor_loss_of (actor self) (critic self') ent_coef obs g2
    = Ok (actor_loss, g') /\
    log_of s_al = log_of s_tr ++ [LogRecord "train/actor_loss" actor_loss] /\
    (* stage 6 *)
    polyak_update (tau self) (critic self') (critic_target self)
    = Ok (critic_target self') /\
    log_of self' = log_of s_al.
Proof.
  unfold train. intros H.
  bind_ok H as s0 R0.
  destruct (rb_sample _ _) as [rd rb] eqn:Erb.
  bind_ok H as obs Eo. bind_ok H as nobs Eno.
  bind_ok H as s_mc Emc. bind_ok H as [[ec s_ent] g1] Eent.
  bind_ok H as s_log Rec. bind_ok H as [[nq s_q] g2] Enq.
  bind_ok H as cl Ecl. bind_ok H as s_cl Rcl. bind_ok H as s_tr Rtr.
  destruct (Adam_step (critic_optimizer s_tr) _ _) as [opt new] eqn:Eadam.
  bind_ok H as [al g3] Eal. bind_ok H as s_al Ral.
  destruct (Adam_step (actor_optimizer s_al) _ _) as [opt' new'] eqn:Eadam'.
  bind_ok H as ct Ect. injection H as <- <-.
  (* the frames *)
  pose proof R0 as R0'. unfold record in R0'. cbn [logger set__n_updates] in R0'.
  destruct (logger self) as [l0|] eqn:El0; [|done]. injection R0' as <-.
  cbn [replay_buffer batch_size set_logger set__n_updates] in Erb.
  destruct (train_mc_inv _ _ _ _ _ Emc) as (fwl & wl & mcl & _ & Fmc & _).
  destruct (train_ent_coef_inv _ _ _ _ _ _ Eent) as (Fent & _ & _).
  apply record_inv in Rec as Hrec. destruct Hrec as (Frec & _ & _ & _).
  destruct (next_q_value_of_inv _ _ _ _ _ _ _ _ _ Enq)
    as (nsa & nlp & cnt & mt & soft & comp & disc & _ & _ & _ & _ & Hcalc & _).
  destruct (calc_reward_inv _ _ _ _ _ _ _ Hcalc) as (er & eta & _ & _ & _ & Fq & _).
  apply record_inv in Rcl as Hrcl. destruct Hrcl as (Fcl & _ & _ & _).
  apply record_inv in Rtr as Hrtr. destruct Hrtr as (Ftr & _ & _ & _).
  apply record_inv in Ral as Hral. destruct Hral as (Fal & _ & Lal & _).
  assert (frame self s_q) as F1.
  { eapply frame_trans; [|exact Fq]. eapply frame_trans; [|exact Frec].
    eapply frame_trans; [|exact Fent]. eapply frame_trans; [|exact Fmc].
    by repeat split. }
  assert (frame self s_tr) as F2 by eauto using frame_trans.
  destruct (frame_fields _ _ F1) as (_ & _ & _ & _ & Hc1 & _).
  destruct (frame_fields _ _ F2) as (Ht2 & _ & _ & Ha2 & Hc2 & Ho2 & Hct2 & _).
  destruct (frame_fields _ _ Fal) as (Ht3 & _ & _ & Ha3 & Hc3 & _ & Hct3 & _).
  exists rd, rb, obs, nobs, s_mc, ec, s_ent, g1, s_log, nq, s_q, g2, cl, s_cl, s_tr,
    al, s_al.
  unfold log_of at 1. rewrite El0.
  cbn [critic actor tau critic_target set_critic set_critic_optimizer
       set_actor set_actor_optimizer set_critic_target] in *.
  rewrite Hc1 in Ecl. rewrite Hc2, Ho2 in Eadam.
  rewrite Ha2, Hc2 in Eal.
  rewrite Ht3, Ht2, Hct3, Hct2, Hc3, Hc2 in Ect.
  rewrite Hc3, Hc2, Eadam. cbn [snd].
  repeat split; try done.
Qed.

End Training.


(** ** Parameters by position *)

Lemma named_from_params off cs : (named_from off cs).*2 = concat (map Critic_params cs).
Proof.
  revert off. induction cs as [|c cs IH]; intros off; [done|].
  rewrite named_from_cons, fmap_app, IH. done.
Qed.

Lemma CriticEnsemble_parameters_concat e :
  CriticEnsemble_parameters e = concat (map Critic_params (_critics e)).
Proof. apply (named_from_params 0). Qed.

Section Parameters.
  Context {col : Collaborators}.

Lemma Critic_params_set ps off c :
  Critic_params (Critic_set ps off c)
  = imap (fun j t => default t (ps !! (off + j))) (Critic_params c).
Proof.
  unfold Critic_params, Critic_set, Linear_set. cbn.
  replace (off + 0) with off by lia. replace (off + 1) with (S off) by lia.
  replace (off + 3) with (S (off + 2)) by lia.
  replace (off + 5) with (S (off + 4)) by lia.
  replace (off + 7) with (S (off + 6)) by lia. done.
Qed.

Lemma params_set_from ps off cs :
  concat (map Critic_params (imap (fun i c => Critic_set ps (8 * (off + i)) c) cs))
  = imap (fun j t => default t (ps !! (8 * off + j))) (concat (map Critic_params cs)).
Proof.
  revert off. induction cs as [|c cs IH]; intros off; [done|].
  rewrite imap_cons. cbn [map concat]. rewrite imap_app.
  f_equal.
  - rewrite Critic_params_set. apply imap_ext. intros j t _. cbn.
    do 2 f_equal. lia.
  - rewrite (imap_ext _ (fun i c => Critic_set ps (8 * (S off + i)) c)).
    2:{ intros i x _. unfold compose. f_equal. lia. }
    rewrite IH. apply imap_ext. intros j t _. cbn. do 2 f_equal. lia.
Qed.

(** In-place assignment of the parameters: position [i] takes [ps !! i]
    and keeps its tensor where [ps] is too short. *)
Lemma CriticEnsemble_set_parameters ps e :
  CriticEnsemble_parameters (CriticEnsemble_set ps e)
  = imap (fun i t => default t (ps !! i)) (CriticEnsemble_parameters e).
Proof.
  rewrite !CriticEnsemble_parameters_concat. unfold CriticEnsemble_set. cbn.
  rewrite (imap_ext _ (fun i c => Critic_set ps (8 * (0 + i)) c)) by done.
  rewrite params_set_from. by apply imap_ext.
Qed.

Lemma stepped_lookup new ps i t :
  ps !! i = Some t ->
  stepped new ps !! i
  = Some {| shape := shape t; data := imap (fun k _ => new i k) (data t) |}.
Proof. intros H. unfold stepped. by rewrite list_lookup_imap, H. Qed.

Lemma stepped_length new ps : length (stepped new ps) = length ps.
Proof. unfold stepped. by rewrite length_imap. Qed.

(** An optimizer step keeps the size of every parameter. *)
Lemma step_keeps_sizes new e i p :
  CriticEnsemble_parameters
    (CriticEnsemble_set (stepped new (CriticEnsemble_parameters e)) e) !! i = Some p ->
  exists p0, CriticEnsemble_parameters e !! i = Some p0 /\
             length (data p) = length (data p0) /\ shape p = shape p0.
Proof.
  rewrite CriticEnsemble_set_parameters, list_lookup_imap.
  destruct (CriticEnsemble_parameters e !! i) as [p0|] eqn:E; [|done].
  cbn. rewrite (stepped_lookup _ _ _ _ E). cbn. intros [= <-].
  exists p0. cbn. by rewrite length_imap.
Qed.

Lemma polyak_pair_elem tau p t t' :
  polyak_pair tau p t = Ok t' -> length (data p) = length (data t) ->
  shape t' = shape t /\ length (data t') = length (data t) /\
  forall k x, data t !! k = Some x ->
    exists y, data p !! k = Some y /\
              data t' !! k = Some ((Num.one - tau) * x + tau * y)%num.
Proof.
  unfold polyak_pair. intros H Hlen. bind_ok H as d Ed. injection H as <-.
  rewrite bc1_same in Ed by (by rewrite length_map). injection Ed as <-.
  cbn. rewrite length_zip_with, length_map.
  rewrite decide_True by lia. repeat split; [lia|].
  intros k x Hk. destruct (lookup_lt_is_Some_2 (data p) k) as [y Hy].
  { rewrite Hlen. by eapply lookup_lt_Some. }
  exists y. split; [done|].
  rewrite lookup_zip_with, map_is_fmap, list_lookup_fmap, Hk. cbn. rewrite Hy. cbn.
  by rewrite (NumFacts.mul_comm x).
Qed.

Lemma polyak_update_elem tau source target target' i t :
  polyak_update tau source target = Ok target' ->
  CriticEnsemble_parameters target !! i = Some t ->
  match CriticEnsemble_parameters source !! i with
  | Some p =>
      exists t', polyak_pair tau p t = Ok t' /\
                 CriticEnsemble_parameters target' !! i = Some t'
  | None => CriticEnsemble_parameters target' !! i = Some t
  end.
Proof.
  unfold polyak_update. intros H Ht. bind_ok H as ps Eps. injection H as <-.
  rewrite CriticEnsemble_set_parameters, list_lookup_imap, Ht. cbn.
  destruct (CriticEnsemble_parameters source !! i) as [p|] eqn:Ep.
  - destruct (lookup_lt_is_Some_2 ps i) as [t' Ht'].
    { rewrite (mapM_result_length _ _ _ Eps), length_zip.
      apply lookup_lt_Some in Ep, Ht. lia. }
    destruct (mapM_result_lookup _ _ _ _ _ Eps Ht') as ([p' t0] & Hz & Hp).
    apply lookup_zip_Some in Hz as [Hp' Ht0]. cbn in *. simplify_eq.
    exists t'. by rewrite Ht'.
  - rewrite (lookup_ge_None_2 ps i); [done|].
    rewrite (mapM_result_length _ _ _ Eps), length_zip.
    apply lookup_ge_None in Ep. lia.
Qed.

(** C4.  A training step makes every element of every target parameter
    [(1 - tau) * old + tau * source], [source] being the element of the
    critic after its optimization step; nothing else changes the target. *)
Theorem train_polyak_update self g self' g' :
  same_sizes (critic self) (critic_target self) ->
  train self g = Ok (self', g') ->
  polyak_update (tau self) (critic self') (critic_target self)
  = Ok (critic_target self') /\
  forall i t,
    CriticEnsemble_parameters (critic_target self) !! i = Some t ->
    exists p t',
      CriticEnsemble_parameters (critic self') !! i = Some p /\
      CriticEnsemble_parameters (critic_target self') !! i = Some t' /\
      shape t' = shape t /\ length (data t') = length (data t) /\
      forall k x, data t !! k = Some x ->
        exists y, data p !! k = Some y /\
                  data t' !! k = Some ((Num.one - tau self) * x + tau self * y)%num.
Proof.
  intros Hsz H.
  destruct (train_inv _ _ _ _ H)
    as (rd & rb & obs & nobs & s_mc & ec & s_ent & g1 & s_log & nq & s_q & g2 & cl &
        s_cl & s_tr & al & s_al & _ & _ & _ & _ & _ & _ & _ & _ & _ & _ & _ & Hc &
        _ & _ & Hp & _).
  split; [done|]. intros i t Ht.
  pose proof (polyak_update_elem _ _ _ _ _ _ Hp Ht) as Hi.
  destruct (lookup_lt_is_Some_2 (CriticEnsemble_parameters (critic self)) i) as [p0 Hp0].
  { rewrite (Forall2_length _ _ _ Hsz). by eapply lookup_lt_Some. }
  pose proof (Forall2_lookup_lr _ _ _ _ _ _ Hsz Hp0 Ht) as Hlen. cbn in Hlen.
  destruct (lookup_lt_is_Some_2 (CriticEnsemble_parameters (critic self')) i)
    as [p Hpi].
  { rewrite Hc, CriticEnsemble_set_parameters, length_imap.
    by eapply lookup_lt_Some. }
  rewrite Hpi in Hi. destruct Hi as (t' & Ht' & Hti).
  pose proof Hpi as Hpi'. rewrite Hc in Hpi'.
  apply step_keeps_sizes in Hpi' as (p0' & Hp0' & Hl & _).
  rewrite Hp0 in Hp0'. injection Hp0' as <-.
  destruct (polyak_pair_elem _ _ _ _ Ht' ltac:(congruence)) as (Hs & Hl' & He).
  exists p, t'. repeat split; done.
Qed.

End Parameters.


(** ** A training step returns *)

Lemma Linear_wf_shaped inn out l : Linear_wf inn out l -> Linear_shaped inn out l.
Proof. intros (?&?&?&_). by repeat split. Qed.

Lemma Linear_forward_shaped inn out l x :
  Linear_shaped inn out l -> length x = inn ->
  exists y, Linear_forward l x = Ok y /\ length y = out.
Proof.
  intros (Hs & Hw & Hb) Hx. unfold Linear_forward.
  rewrite Hs, decide_True by done. rewrite bc1_same.
  2:{ rewrite length_map. unfold rows. by rewrite length_map, length_seq. }
  eexists. split; [done|].
  rewrite length_zip_with, length_map. unfold rows.
  rewrite length_map, length_seq. lia.
Qed.

Lemma Linear_batch_shaped B inn out l x :
  Linear_shaped inn out l -> shaped B inn x ->
  exists y, Linear_batch l x = Ok y /\ shaped B out y.
Proof.
  intros Hl [HB Hx]. unfold Linear_batch.
  destruct (mapM_result_ok (Linear_forward l) (fun row => length row = inn)
              (fun y => length y = out) x) as (y & E & Hlen & Hy); [|done|].
  - intros row Hr. by eapply Linear_forward_shaped.
  - exists y. split; [done|]. split; [lia|done].
Qed.

Lemma cat1_shaped B D A (x a : batch) :
  shaped B D x -> shaped B A a ->
  exists y, cat1 x a = Ok y /\ shaped B (D + A) y.
Proof.
  intros [Hlx Hx] [Hla Ha]. unfold cat1. rewrite decide_True by lia.
  eexists. split; [done|]. split; [rewrite length_zip_with; lia|].
  clear Hlx Hla. revert a Ha. induction Hx as [|rx x Hrx _ IH]; intros a Ha; [constructor|].
  destruct Ha as [|ra a Hra Ha]; cbn; constructor; [|by apply IH].
  rewrite length_app. lia.
Qed.

Lemma Critic_forward_shaped B D A h c x a :
  Critic_shaped (D + A) h c -> shaped B D x -> shaped B A a ->
  exists q, Critic_forward c x a = Ok q /\ shaped B 1 q.
Proof.
  intros (H1 & H2 & H3 & H4) Hx Ha. unfold Critic_forward.
  destruct (cat1_shaped _ _ _ _ _ Hx Ha) as (xa & -> & Sxa). cbn.
  destruct (Linear_batch_shaped _ _ _ _ _ H1 Sxa) as (y1 & -> & S1). cbn.
  apply (shaped_map2d _ _ Num.relu) in S1.
  destruct (Linear_batch_shaped _ _ _ _ _ H2 S1) as (y2 & -> & S2). cbn.
  apply (shaped_map2d _ _ Num.relu) in S2.
  destruct (Linear_batch_shaped _ _ _ _ _ H3 S2) as (y3 & -> & S3). cbn.
  apply (shaped_map2d _ _ Num.relu) in S3.
  by apply (Linear_batch_shaped _ _ _ _ _ H4 S3).
Qed.

Lemma CriticEnsemble_forward_shaped B D A h e x a :
  Ensemble_shaped (D + A) h e -> shaped B D x -> shaped B A a ->
  exists qs, CriticEnsemble_forward e x a = Ok qs /\
             qs <> [] /\ Forall (shaped B 1) qs.
Proof.
  intros [Hne He] Hx Ha. unfold CriticEnsemble_forward.
  destruct (mapM_result_ok (fun critic => Critic_forward critic x a)
              (Critic_shaped (D + A) h) (shaped B 1) (_critics e))
    as (qs & -> & Hlen & Hqs); [|done|].
  - intros c Hc. by eapply Critic_forward_shaped.
  - cbn. exists qs. unfold stack.
    destruct qs; [by destruct (_critics e)|]. by repeat split.
Qed.

Lemma min_dim0_shaped B (qs : list batch) :
  qs <> [] -> Forall (shaped B 1) qs ->
  exists q, min_dim0 qs = Ok q /\ shaped B 1 q.
Proof.
  intros Hne Hqs. unfold min_dim0. destruct qs as [|q0 qs]; [done|]. clear Hne.
  apply Forall_cons in Hqs as [Hq0 Hqs].
  revert q0 Hq0. induction Hqs as [|q qs Hq _ IH]; intros q0 Hq0; cbn.
  - by exists q0.
  - rewrite (bc2_same _ _ _ _ _ Hq0 Hq). cbn. apply IH.
    by apply shaped_zip_with.
Qed.

Lemma shaped_flatten B (a : batch) : shaped B 1 a -> length (flatten a) = B.
Proof.
  intros [<- Ha]. unfold flatten. induction Ha as [|r a Hr _ IH]; [done|].
  cbn. rewrite length_app, IH. lia.
Qed.

Lemma mse_loss_shaped B (input target : batch) :
  shaped B 1 input -> shaped B 1 target -> exists l, mse_loss input target = Ok l.
Proof.
  intros Hi Ht. unfold mse_loss. rewrite (bc2_same _ _ _ _ _ Hi Ht). cbn. eauto.
Qed.

Lemma shaped_unsqueeze1 (v : vec) : shaped (length v) 1 (unsqueeze1 v).
Proof.
  unfold unsqueeze1. split; [by rewrite length_map|].
  rewrite map_is_fmap, Forall_fmap. by apply Forall_forall.
Qed.

Lemma crit_loss_of_shaped B D A h e x a (nq : vec) :
  Ensemble_shaped (D + A) h e -> shaped B D x -> shaped B A a -> length nq = B ->
  exists l, crit_loss_of e x a nq = Ok l.
Proof.
  intros He Hx Ha Hq. unfold crit_loss_of.
  destruct (CriticEnsemble_forward_shaped _ _ _ _ _ _ _ He Hx Ha) as (qs & -> & _ & Hqs).
  cbn.
  destruct (mapM_result_ok (fun _a_v => mse_loss _a_v (unsqueeze1 nq))
              (shaped B 1) (fun _ => True) qs) as (ls & -> & _); [|done|].
  - intros q Sq. destruct (mse_loss_shaped B q (unsqueeze1 nq)) as [l Hl]; eauto.
    rewrite <- Hq. apply shaped_unsqueeze1.
  - cbn. eauto.
Qed.


Section Returns.
  Context {col : Collaborators}.

Lemma record_returns key v s :
  is_Some (logger s) -> exists s', record key v s = Ok s'.
Proof. intros [l Hl]. unfold record. rewrite Hl. eauto. Qed.

Lemma record_mean_returns key v s :
  is_Some (logger s) -> exists s', record_mean key v s = Ok s'.
Proof. intros [l Hl]. unfold record_mean. rewrite Hl. eauto. Qed.

Lemma calc_reward_returns B s observations actions e_rewards ex _err :
  is_Some (logger s) -> is_Some (mc s !! "reward_eta") ->
  kl_error (mc_network s) observations actions = Ok _err -> length _err = B ->
  shaped B 1 e_rewards ->
  exists r s', calc_reward s observations actions e_rewards ex = Ok (r, s') /\
               shaped B 1 r.
Proof.
  intros Hl [eta Heta] Hkl Hlen He. unfold calc_reward. rewrite Hkl. cbn.
  unfold getitem. rewrite Heta. cbn.
  destruct (kl_error_inv _ _ _ _ Hkl) as [kl ->].
  assert (shaped B 1 (map2d (fun x => x * eta)%num (unsqueeze1 (mean_last kl)))) as Si.
  { apply shaped_map2d. pose proof (shaped_unsqueeze1 (mean_last kl)) as Su.
    unfold unsqueeze1 in Hlen. rewrite length_map in Hlen. by rewrite Hlen in Su. }
  rewrite (bc2_same _ _ _ _ _ He Si). cbn.
  set (r := zip_with _ _ _).
  assert (forall k v s0, is_Some (logger s0) ->
            exists s1, (if ex then record else record_mean) k v s0 = Ok s1 /\
                       is_Some (logger s1)) as Hlog.
  { intros k v s0 Hs0. destruct ex.
    - destruct (record_returns k v s0 Hs0) as [s1 H1]. exists s1. split; [done|].
      by apply record_inv in H1 as (_ & _ & _ & _ & _ & ?).
    - destruct (record_mean_returns k v s0 Hs0) as [s1 H1]. exists s1. split; [done|].
      by apply record_mean_inv in H1 as (_ & _ & _ & _ & _ & ?). }
  destruct (Hlog "mc/i_reward"
              (mean_all (map2d (fun x => x * eta)%num (unsqueeze1 (mean_last kl)))) s Hl)
    as (s1 & -> & Hl1). cbn.
  destruct (Hlog "mc/e_reward" (mean_all e_rewards) s1 Hl1) as (s2 & -> & Hl2). cbn.
  destruct (Hlog "mc/kld" (mean_all (unsqueeze1 (mean_last kl))) s2 Hl2)
    as (s3 & -> & Hl3). cbn.
  destruct (Hlog "mc/reward" (mean_all r) s3 Hl3) as (s4 & -> & Hl4). cbn.
  exists r, s4. split; [done|]. by apply shaped_zip_with.
Qed.

Lemma train_mc_returns s observations next_observations actions :
  is_Some (logger s) ->
  is_Ok (mc_losses (mc_network s) observations next_observations actions) ->
  exists s', train_mc s observations next_observations actions = Ok s'.
Proof.
  intros Hl [[[fw w] loss] Hm]. unfold train_mc. rewrite Hm. cbn.
  destruct (record_returns "mc/fw_loss" (mean_all fw) s Hl) as [s1 H1].
  rewrite H1. cbn. apply record_inv in H1 as (_ & _ & _ & _ & _ & Hl1).
  destruct (record_returns "mc/w_prime_a_loss" (mean_all w) s1 Hl1) as [s2 H2].
  rewrite H2. cbn. apply record_inv in H2 as (_ & _ & _ & _ & _ & Hl2).
  destruct (record_returns "mc/loss" loss s2 Hl2) as [s3 H3].
  rewrite H3. cbn. destruct (Adam_step _ _ _). eauto.
Qed.

Lemma train_ent_coef_returns D h A s observations g :
  is_Some (logger s) -> ent_coef_ready s ->
  Actor_wf D h A (actor s) -> finite_batch D observations ->
  exists ec s' g', train_ent_coef s observations g = Ok (ec, s', g').
Proof.
  intros Hl Hr Ha Hx. unfold train_ent_coef, ent_coef_ready in *.
  destruct (ent_coef s).
  - destruct Hr as ((lec & Hlec & Hlen) & [te Hte] & [opt Hopt]).
    destruct (get_action_returns _ _ _ _ _ g Ha Hx) as (a & lp & g1 & -> & _ & Slp).
    cbn. rewrite Hlec, Hte. unfold getattr. cbn.
    unfold ent_coef_loss_of.
    assert (length (map Num.neg (data lec)) = 1) as Hn by (by rewrite length_map).
    pose proof (shaped_map2d _ _ (fun x => x + te)%num _ Slp) as Slp'.
    rewrite <- Hn in Slp' at 1.
    rewrite (bc2_row_l _ _ _ _ Slp'). cbn.
    destruct (record_returns "train/ent_coef_loss"
                (mean_all (map (fun rb => zip_with Num.mul (map Num.neg (data lec)) rb)
                             (map2d (fun x => x + te)%num lp))) s Hl) as [s1 H1].
    rewrite H1. cbn. apply record_inv in H1 as (_ & _ & _ & _ & [_ Ho] & _).
    rewrite Ho, Hopt. cbn. destruct (Adam_step _ _ _) as [opt' new].
    unfold stepped. cbn.
    destruct (data lec) as [|x [|x' d]]; try done. cbn. eauto.
  - destruct Hr as [ec Hec]. rewrite Hec. unfold getattr. cbn. eauto.
Qed.

Lemma next_q_value_of_returns B D h A s ent_coef observations next_observations
  replay_data g :
  is_Some (logger s) -> is_Some (mc s !! "reward_eta") ->
  Actor_wf D h A (actor s) -> finite_batch D next_observations ->
  length next_observations = B ->
  Ensemble_shaped (D + A) h (critic_target s) ->
  (forall a, shaped B A a ->
     exists _err, kl_error (mc_network s) observations a = Ok _err /\ length _err = B) ->
  shaped B 1 (rewards replay_data) -> shaped B 1 (dones replay_data) ->
  exists nq s' g',
    next_q_value_of s ent_coef observations next_observations replay_data g
    = Ok (nq, s', g') /\ length nq = B.
Proof.
  intros Hl Heta Ha Hx HB Ht Hkl Hr Hd. unfold next_q_value_of.
  destruct (get_action_returns _ _ _ _ _ g Ha Hx) as (a & lp & g1 & -> & Sa & Slp).
  cbn. rewrite HB in Sa, Slp.
  pose proof (finite_batch_shaped _ _ Hx) as Sx. rewrite HB in Sx.
  destruct (CriticEnsemble_forward_shaped _ _ _ _ _ _ _ Ht Sx Sa)
    as (qs & -> & Hne & Sqs). cbn.
  destruct (min_dim0_shaped _ _ Hne Sqs) as (q & -> & Sq). cbn.
  pose proof (shaped_map2d _ _ (Num.mul ent_coef) _ Slp) as Slp'.
  rewrite (bc2_same _ _ _ _ _ Sq Slp'). cbn.
  destruct (Hkl a Sa) as (_err & Hk & Hlen).
  destruct (calc_reward_returns B s observations a (rewards replay_data) false
              _err Hl Heta Hk Hlen Hr) as (r & s' & -> & Sr). cbn.
  pose proof (shaped_zip_with _ _ Num.sub _ _ Sq Slp') as Ssoft.
  rewrite bc1_same.
  2:{ rewrite length_map, (shaped_flatten _ _ Hd), (shaped_flatten _ _ Ssoft). done. }
  cbn. rewrite bc1_same.
  2:{ rewrite length_zip_with, length_map, (shaped_flatten _ _ Hd),
        (shaped_flatten _ _ Ssoft), (shaped_flatten _ _ Sr). lia. }
  cbn. do 3 eexists. split; [done|].
  rewrite !length_zip_with, length_map, (shaped_flatten _ _ Hd),
    (shaped_flatten _ _ Ssoft), (shaped_flatten _ _ Sr). lia.
Qed.

Lemma actor_loss_of_returns D h A a e ent_coef observations g :
  Actor_wf D h A a -> Ensemble_shaped (D + A) h e -> finite_batch D observations ->
  exists l g', actor_loss_of a e ent_coef observations g = Ok (l, g').
Proof.
  intros Ha He Hx. unfold actor_loss_of.
  destruct (get_action_returns _ _ _ _ _ g Ha Hx) as (pi & lp & g1 & -> & Sa & Slp).
  cbn. pose proof (finite_batch_shaped _ _ Hx) as Sx.
  destruct (CriticEnsemble_forward_shaped _ _ _ _ _ _ _ He Sx Sa)
    as (qs & -> & Hne & Sqs). cbn.
  destruct (min_dim0_shaped _ _ Hne Sqs) as (q & -> & Sq). cbn.
  pose proof (shaped_map2d _ _ (Num.mul ent_coef) _ Slp) as Slp'.
  rewrite (bc2_same _ _ _ _ _ Slp' Sq). cbn. eauto.
Qed.

End Returns.


Lemma params_at cs k c j :
  cs !! k = Some c -> j < 8 ->
  concat (map Critic_params cs) !! (8 * k + j) = Critic_params c !! j.
Proof.
  revert k. induction cs as [|c0 cs IH]; intros k Hk Hj; [done|].
  cbn [map concat]. destruct k as [|k].
  - injection Hk as ->. rewrite lookup_app_l by (cbn; lia). done.
  - rewrite lookup_app_r by (cbn; lia).
    replace (8 * S k + j - length (Critic_params c0)) with (8 * k + j) by (cbn; lia).
    by apply IH.
Qed.

Section Step.
  Context {col : Collaborators}.

Lemma Critic_set_stepped new e k c :
  _critics e !! k = Some c ->
  Critic_set (stepped new (CriticEnsemble_parameters e)) (8 * k) c
  = {| c_fc1 := {| weight := stepped_tensor new (8 * k) (weight (c_fc1 c));
                   bias := stepped_tensor new (S (8 * k)) (bias (c_fc1 c)) |};
       c_fc2 := {| weight := stepped_tensor new (8 * k + 2) (weight (c_fc2 c));
                   bias := stepped_tensor new (S (8 * k + 2)) (bias (c_fc2 c)) |};
       c_fc3 := {| weight := stepped_tensor new (8 * k + 4) (weight (c_fc3 c));
                   bias := stepped_tensor new (S (8 * k + 4)) (bias (c_fc3 c)) |};
       c_fc4 := {| weight := stepped_tensor new (8 * k + 6) (weight (c_fc4 c));
                   bias := stepped_tensor new (S (8 * k + 6)) (bias (c_fc4 c)) |} |}.
Proof.
  intros Hk. rewrite CriticEnsemble_parameters_concat.
  assert (forall j t, j < 8 -> Critic_params c !! j = Some t ->
            stepped new (concat (map Critic_params (_critics e))) !! (8 * k + j)
            = Some (stepped_tensor new (8 * k + j) t)) as H.
  { intros j t Hj Ht. apply stepped_lookup. by rewrite (params_at _ _ c). }
  unfold Critic_set, Linear_set.
  rewrite <- (Nat.add_0_r (8 * k)) at 1.
  rewrite (H 0 (weight (c_fc1 c))), (H 2 (weight (c_fc2 c))),
    (H 4 (weight (c_fc3 c))), (H 6 (weight (c_fc4 c))) by (done || lia).
  replace (S (8 * k)) with (8 * k + 1) by lia.
  replace (S (8 * k + 2)) with (8 * k + 3) by lia.
  replace (S (8 * k + 4)) with (8 * k + 5) by lia.
  replace (S (8 * k + 6)) with (8 * k + 7) by lia.
  rewrite (H 1 (bias (c_fc1 c))), (H 3 (bias (c_fc2 c))),
    (H 5 (bias (c_fc3 c))), (H 7 (bias (c_fc4 c))) by (done || lia).
  cbn. by rewrite Nat.add_0_r.
Qed.

(** An optimizer step keeps the architecture of the ensemble. *)
Lemma step_keeps_shape inn h new e :
  Ensemble_shaped inn h e ->
  Ensemble_shaped inn h
    (CriticEnsemble_set (stepped new (CriticEnsemble_parameters e)) e) /\
  length (_critics (CriticEnsemble_set (stepped new (CriticEnsemble_parameters e)) e))
  = length (_critics e).
Proof.
  intros [Hne He]. unfold CriticEnsemble_set. cbn. split; [split|].
  - destruct (_critics e); [done|]. by rewrite imap_cons.
  - apply Forall_forall. intros c' Hc'.
    apply elem_of_lookup_imap_1 in Hc' as (k & c & -> & Hk).
    rewrite (Critic_set_stepped _ _ _ _ Hk).
    rewrite Forall_forall in He.
    destruct (He c (list_elem_of_lookup_2 _ _ _ Hk))
      as ((?&?&?) & (?&?&?) & (?&?&?) & (?&?&?)).
    repeat split; cbn; rewrite ?length_imap; done.
  - by rewrite length_imap.
Qed.

Lemma Critic_params_sizes inn h c c' :
  Critic_shaped inn h c -> Critic_shaped inn h c' ->
  Forall2 (fun p t => length (data p) = length (data t))
    (Critic_params c) (Critic_params c').
Proof.
  intros ((?&?&?) & (?&?&?) & (?&?&?) & (?&?&?))
         ((?&?&?) & (?&?&?) & (?&?&?) & (?&?&?)).
  unfold Critic_params. repeat constructor; congruence.
Qed.

Lemma shaped_same_sizes inn h e e' :
  Ensemble_shaped inn h e -> Ensemble_shaped inn h e' ->
  length (_critics e) = length (_critics e') ->
  same_sizes e e'.
Proof.
  intros [_ He] [_ He'] Hlen. unfold same_sizes.
  rewrite !CriticEnsemble_parameters_concat.
  revert He' Hlen. generalize (_critics e'). induction He as [|c cs Hc _ IH];
    intros [|c' cs'] He' Hlen; try done; try (by constructor).
  apply Forall_cons in He' as [Hc' He']. cbn [map concat].
  apply Forall2_app; [by eapply Critic_params_sizes|].
  apply IH; [done|]. cbn in Hlen. lia.
Qed.

Lemma polyak_update_returns tau source target :
  same_sizes source target ->
  exists target', polyak_update tau source target = Ok target'.
Proof.
  unfold same_sizes, polyak_update. intros H.
  destruct (mapM_result_ok (fun pt : tensor * tensor => polyak_pair tau pt.1 pt.2)
              (fun pt => length (data pt.1) = length (data pt.2)) (fun _ => True)
              (zip (CriticEnsemble_parameters source) (CriticEnsemble_parameters target)))
    as (ps & -> & _); [| |cbn; eauto].
  - intros [p t] Hpt. cbn in *. unfold polyak_pair.
    rewrite bc1_same by (by rewrite length_map). cbn. eauto.
  - induction H; cbn; constructor; auto.
Qed.

End Step.


Section TrainReturns.
  Context {col : Collaborators}.

Lemma log_of_snoc s l x l' : log_of s = l ++ x :: l' -> is_Some (logger s).
Proof. unfold log_of. destruct (logger s); [eauto|]. by destruct l. Qed.

Lemma train_mc_keeps s observations next_observations actions s' :
  train_mc s observations next_observations actions = Ok s' ->
  is_Some (logger s') /\ frame_ent s s'.
Proof.
  unfold train_mc. intros H. bind_ok H as [[fw w] loss] E.
  bind_ok H as s1 R1. bind_ok H as s2 R2. bind_ok H as s3 R3.
  apply record_inv in R1 as (_ & _ & _ & _ & [F1 F1'] & _),
    R2 as (_ & _ & _ & _ & [F2 F2'] & _), R3 as (_ & _ & _ & _ & [F3 F3'] & L3).
  destruct (Adam_step _ _ _) as [opt new]. injection H as <-. cbn.
  split; [done|]. split; cbn; congruence.
Qed.

Lemma train_ent_coef_keeps s observations g ec s' g' :
  train_ent_coef s observations g = Ok (ec, s', g') ->
  is_Some (logger s) -> is_Some (logger s').
Proof.
  unfold train_ent_coef. destruct (ent_coef s).
  - intros H. bind_ok H as [[a lp] g1] E1. bind_ok H as lec E2.
    bind_ok H as te E3. bind_ok H as loss E4. bind_ok H as s1 R1.
    bind_ok H as opt E5. destruct (Adam_step _ _ _) as [opt' new].
    bind_ok H as ec' E6. injection H as <- <- <-.
    by apply record_inv in R1 as (_ & _ & _ & _ & _ & L1).
  - intros H. bind_ok H as ec' E. by injection H as <- <- <-.
Qed.

Lemma ent_coef_ready_frame s s' :
  frame s s' -> frame_ent s s' -> ent_coef_ready s -> ent_coef_ready s'.
Proof.
  intros F [E1 E2]. unfold ent_coef_ready.
  destruct (frame_fields _ _ F) as (_ & _ & _ & _ & _ & _ & _ & -> & -> & ->).
  by rewrite E1, E2.
Qed.

(** A training step on a batch of the right sizes returns, whatever the
    values of the rewards and of the losses. *)
Lemma train_returns B D h A self obs nobs g :
  train_ready B D h A self obs nobs ->
  exists self' g', train self g = Ok (self', g').
Proof.
  intros [[l0 Hl0] Heta Hent Hact Hcr Hct Hn Ho Hno Fo Fno Lo Lno Sa Sr Sd Hmc Hkl].
  unfold train.
  assert (record "train/n_updates"
            (Num.of_Z (_n_updates (set__n_updates (_n_updates self + 1)%Z self)))
            (set__n_updates (_n_updates self + 1)%Z self)
          = Ok (set_logger
                  (Some {| entries := entries l0 ++
                             [LogRecord "train/n_updates"
                                (Num.of_Z (_n_updates self + 1))] |})
                  (set__n_updates (_n_updates self + 1)%Z self))) as ->.
  { unfold record. cbn. by rewrite Hl0. }
  cbn [mbind result_bind]. cbn [replay_buffer batch_size set_logger set__n_updates].
  destruct (rb_sample (replay_buffer self) (batch_size self)) as [rd rb].
  cbn [fst] in *. rewrite Ho, Hno. cbn [mbind result_bind].
  set (s0 := set_replay_buffer rb _).
  assert (frame self s0) as F0 by done.
  assert (frame_ent self s0) as FE0 by done.
  destruct (train_mc_returns s0 obs nobs (actions rd)) as [s_mc Emc]; [by eexists|done|].
  rewrite Emc. cbn [mbind result_bind].
  destruct (train_mc_inv _ _ _ _ _ Emc) as (fwl & wl & mcl & _ & Fmc & _).
  destruct (train_mc_keeps _ _ _ _ _ Emc) as [Lmc FEmc].
  assert (frame self s_mc) as F1 by eauto using frame_trans.
  destruct (frame_fields _ _ F1) as (_ & _ & Hm1 & Ha1 & _).
  destruct (train_ent_coef_returns D h A s_mc obs g) as (ec & s_ent & g1 & Eent);
    [done| |by rewrite Ha1|done|].
  { apply (ent_coef_ready_frame self); [done| |done].
    destruct FE0, FEmc. split; congruence. }
  rewrite Eent. cbn [mbind result_bind].
  destruct (train_ent_coef_inv _ _ _ _ _ _ Eent) as (Fent & _ & _).
  pose proof (train_ent_coef_keeps _ _ _ _ _ _ Eent Lmc) as Lent.
  destruct (record_returns "train/ent_coef" ec s_ent Lent) as [s_log Rec].
  rewrite Rec. cbn [mbind result_bind].
  apply record_inv in Rec as (Frec & _ & _ & _ & _ & Llog).
  assert (frame self s_log) as F2 by eauto using frame_trans.
  destruct (frame_fields _ _ F2) as (_ & _ & Hm2 & Ha2 & _ & _ & Hct2 & _).
  destruct (next_q_value_of_returns B D h A s_log ec obs nobs rd g1)
    as (nq & s_q & g2 & Enq & Lnq); try done.
  { by rewrite Hm2. } { by rewrite Ha2. } { by rewrite Hct2. }
  { intros a Ha. apply Hkl, Ha. }
  rewrite Enq. cbn [mbind result_bind].
  destruct (next_q_value_of_inv _ _ _ _ _ _ _ _ _ Enq)
    as (nsa & nlp & cnt & mt & soft & comp & disc & _ & _ & _ & _ & Hcalc & _).
  destruct (calc_reward_inv _ _ _ _ _ _ _ Hcalc) as (er & eta & _ & _ & _ & Fq & Lq).
  apply log_of_snoc in Lq as Lsq.
  assert (frame self s_q) as F3 by eauto using frame_trans.
  destruct (frame_fields _ _ F3) as (_ & _ & _ & _ & Hc3 & _).
  pose proof (finite_batch_shaped _ _ Fo) as So. rewrite Lo in So.
  destruct (crit_loss_of_shaped B D A h (critic s_q) obs (actions rd) nq)
    as [cl Ecl]; try done.
  { by rewrite Hc3. }
  rewrite Ecl. cbn [mbind result_bind].
  destruct (record_returns "train/critic_loss" cl s_q Lsq) as [s_cl Rcl].
  rewrite Rcl. cbn [mbind result_bind].
  apply record_inv in Rcl as (Fcl & _ & _ & _ & _ & Lcl).
  destruct (record_returns "train/train_rewards" (vmean (flatten (rewards rd)))
              s_cl Lcl) as [s_tr Rtr].
  rewrite Rtr. cbn [mbind result_bind].
  apply record_inv in Rtr as (Ftr & _ & _ & _ & _ & Ltr).
  assert (frame self s_tr) as F4 by eauto using frame_trans.
  destruct (frame_fields _ _ F4) as (_ & _ & _ & Ha4 & Hc4 & _ & Hct4 & _).
  destruct (Adam_step (critic_optimizer s_tr) _ _) as [opt new].
  cbn [critic actor set_critic set_critic_optimizer].
  rewrite Hc4, Ha4.
  destruct (step_keeps_shape _ _ new _ Hcr) as [Hcr' Hn'].
  destruct (actor_loss_of_returns D h A (actor self)
              (CriticEnsemble_set
                 (stepped new (CriticEnsemble_parameters (critic self)))
                 (critic self)) ec obs g2) as (al & g3 & Eal); try done.
  rewrite Eal. cbn [mbind result_bind].
  set (s5 := set_critic _ _).
  destruct (record_returns "train/actor_loss" al s5) as [s_al Ral]; [done|].
  rewrite Ral. cbn [mbind result_bind].
  apply record_inv in Ral as (Fal & _ & _ & _ & _ & Lal).
  destruct (Adam_step (actor_optimizer s_al) _ _) as [opt' new'].
  cbn [tau critic critic_target set_actor set_actor_optimizer].
  destruct (frame_fields _ _ Fal) as (Ht5 & _ & _ & _ & Hc5 & _ & Hct5 & _).
  rewrite Hc5, Hct5. subst s5. cbn [critic critic_target set_critic set_critic_optimizer].
  rewrite Hct4.
  destruct (polyak_update_returns (tau s_al)
              (CriticEnsemble_set
                 (stepped new (CriticEnsemble_parameters (critic self)))
                 (critic self)) (critic_target self)) as [ct Ect].
  { eapply shaped_same_sizes; [exact Hcr'|exact Hct|]. by rewrite Hn'. }
  rewrite Ect. cbn [mbind result_bind]. eauto.
Qed.

End TrainReturns.


Global Arguments Actor_load_state_dict : simpl never.
Global Arguments CriticEnsemble_load_state_dict : simpl never.

Lemma foldM_invariant {A B} (f : A -> B -> result A) (P : A -> Prop) (l : list B) a a' :
  (forall a x a', x ∈ l -> P a -> f a x = Ok a' -> P a') ->
  P a -> foldM f l a = Ok a' -> P a'.
Proof.
  revert a. induction l as [|x l IH]; intros a Hf Ha H; cbn in H.
  - by injection H as <-.
  - destruct (f a x) as [a1|] eqn:E; [|done]. cbn in H.
    apply (IH a1); [|by eapply Hf; [left| |]|done].
    intros a2 y a3 Hy. apply Hf. by right.
Qed.

Section Persistence.
  Context {col : Collaborators}.

Lemma setattr_other key v m m' :
  setattr key v m = Ok m' -> key ∉ excluded -> unsaved m' = unsaved m.
Proof.
  unfold setattr, excluded, ill_typed. intros H Hk.
  repeat (case_decide;
          [ first
              [ destruct v; try discriminate H; repeat case_decide;
                try discriminate H; injection H as <-; reflexivity
              | exfalso; apply Hk; subst key; by repeat constructor ] |]).
  discriminate H.
Qed.

Lemma delitems_lookup (ks : list string) (d d' : gmap string value) k :
  foldM (fun data to_exclude => delitem to_exclude data) ks d = Ok d' ->
  d' !! k = if decide (k ∈ ks) then None else d !! k.
Proof.
  revert d. induction ks as [|k0 ks IH]; intros d H; cbn in H.
  - injection H as <-. rewrite decide_False; [done|]. apply not_elem_of_nil.
  - unfold delitem at 2 in H. destruct (d !! k0) eqn:E0; [|done].
    cbn in H. rewrite (IH _ H). destruct (decide (k = k0)) as [->|Hne].
    + rewrite (decide_True (P := k0 ∈ k0 :: ks)) by left.
      case_decide; [done|]. apply lookup_delete_eq.
    + rewrite lookup_delete_ne by done.
      destruct (decide (k ∈ ks)).
      * by rewrite (decide_True (P := k ∈ k0 :: ks)) by (by right).
      * rewrite (decide_False (P := k ∈ k0 :: ks)); [done|].
        by intros [?|?]%elem_of_cons.
Qed.

(** A checkpoint holds none of the excluded attributes. *)
Lemma saved_data_excluded self data k :
  saved_data self = Ok data -> k ∈ excluded -> data !! k = None.
Proof.
  unfold saved_data. intros H Hk. bind_ok H as d E. injection H as <-.
  assert (k <> "_actor" /\ k <> "_critic" /\ k <> "_mc") as (? & ? & ?).
  { unfold excluded in Hk.
    repeat split; intros ->;
      repeat (apply elem_of_cons in Hk as [Hk|Hk]; [discriminate Hk|]);
      by apply elem_of_nil in Hk. }
  rewrite !lookup_insert_ne by done.
  rewrite (delitems_lookup _ _ _ k E). by rewrite decide_True.
Qed.

Lemma saved_data_networks self data :
  saved_data self = Ok data ->
  data !! "_actor" = Some (VStateDict (Actor_state_dict (actor self))) /\
  data !! "_critic" = Some (VStateDict (CriticEnsemble_state_dict (critic self))) /\
  data !! "_mc" = Some (VStateDict (mc_state_dict (mc_network self))).
Proof.
  unfold saved_data. intros H. bind_ok H as d E. injection H as <-.
  repeat split.
  - by rewrite lookup_insert_ne, lookup_insert_ne, lookup_insert_eq.
  - by rewrite lookup_insert_ne, lookup_insert_eq.
  - by rewrite lookup_insert_eq.
Qed.

Lemma init_counters env kw cuda g self g' :
  __init__ env kw cuda g = Ok (self, g') ->
  num_timesteps self = 0%Z /\ _n_updates self = 0%Z /\ logger self = None.
Proof.
  unfold __init__. intros H. bind_ok H as u E0. bind_ok H as [ac g1] E1.
  by injection H as <- <-.
Qed.

(** What [load] does with a checkpoint of [save]: every attribute of the
    list that [save] excludes keeps the value the constructor gave it,
    except for the two networks that get their saved parameters. *)
Lemma load_inv self path files files' env kw cuda g model g' :
  save self path files = Ok files' ->
  load path env kw cuda g files' = Ok (model, g') ->
  exists fresh a,
    __init__ env kw cuda g = Ok (fresh, g') /\
    num_timesteps model = num_timesteps fresh /\
    _n_updates model = _n_updates fresh /\
    critic_target model = critic_target fresh /\
    Actor_load_state_dict (actor fresh) (Actor_state_dict (actor self)) = Ok a /\
    actor model = a /\
    CriticEnsemble_load_state_dict (critic fresh)
      (CriticEnsemble_state_dict (critic self)) = Ok (critic model).
Proof.
  unfold save, load. intros Hs H. bind_ok Hs as data Ed. injection Hs as <-.
  bind_ok H as [fresh g1] Ei. bind_ok H as loaded El.
  unfold torch_load in El. rewrite lookup_insert_eq in El. injection El as <-.
  bind_ok H as m1 Ef.
  assert (unsaved m1 = unsaved fresh) as Hu.
  { refine (foldM_invariant _ (fun m => unsaved m = unsaved fresh) _ _ _ _ _ Ef);
      [|done].
    intros m [k v] m' Hkv Hm Hstep. cbn in Hstep.
    case_bool_decide as Hn; [by injection Hstep as <-|].
    rewrite <- Hm. eapply setattr_other; [exact Hstep|].
    intros Hk. apply elem_of_map_to_list in Hkv.
    by rewrite (saved_data_excluded _ _ _ Ed Hk) in Hkv. }
  destruct (saved_data_networks _ _ Ed) as (Ha & Hc & Hm).
  unfold getitem in H. rewrite Ha, Hc, Hm in H. cbn [mbind result_bind as_state_dict] in H.
  bind_ok H as a Ea. cbn [critic set_actor] in H.
  bind_ok H as c Ec. cbn [mc_network set_critic set_actor] in H.
  bind_ok H as m Em. injection H as <- <-.
  injection Hu as Hu1 Hu2 Hu3 Hu4 Hu5.
  exists fresh, a. cbn. rewrite Hu4 in Ec. rewrite Hu5 in Ea. by repeat split.
Qed.

(** C10.  After loading a checkpoint that [save] wrote, the two counters
    have the values of a fresh engine, 0, whatever they were in the saved
    engine. *)
Theorem load_resets_counters self path files files' env kw cuda g model g' :
  save self path files = Ok files' ->
  load path env kw cuda g files' = Ok (model, g') ->
  num_timesteps model = 0%Z /\ _n_updates model = 0%Z.
Proof.
  intros Hs Hl.
  destruct (load_inv _ _ _ _ _ _ _ _ _ _ Hs Hl) as (fresh & a & Hi & -> & -> & _).
  by destruct (init_counters _ _ _ _ _ _ Hi) as (-> & -> & _).
Qed.

(** C2.  The target ensemble of a loaded engine is the critic ensemble
    that the constructor initialized, and not the restored one: the critic
    ensemble is the fresh one with the saved parameters loaded into it,
    and nothing copies them to the target. *)
Theorem load_keeps_fresh_target self path files files' env kw cuda g model g' :
  save self path files = Ok files' ->
  load path env kw cuda g files' = Ok (model, g') ->
  exists fresh,
    __init__ env kw cuda g = Ok (fresh, g') /\
    critic_target model = critic fresh /\
    CriticEnsemble_load_state_dict (critic fresh)
      (CriticEnsemble_state_dict (critic self)) = Ok (critic model).
Proof.
  intros Hs Hl.
  destruct (load_inv _ _ _ _ _ _ _ _ _ _ Hs Hl)
    as (fresh & a & Hi & _ & _ & Ht & _ & _ & Hc).
  exists fresh. rewrite Ht. by rewrite (init_target_copy _ _ _ _ _ _ Hi).
Qed.

End Persistence.


Section Stages.
  Context {col : Collaborators}.

(** A training step that returns has run its six stages on the values
    they computed. *)
Lemma train_stages self g self' g' :
  train self g = Ok (self', g') ->
  exists obs next_obs fw_loss w_loss mc_loss ent_entries ent_coef
         net g1 next_state_actions next_state_log_pi g2 _err eta composed
         discounted next_q_value crit_loss actor_loss,
    flatten_obs (observations (sampled self)) = Ok obs /\
    flatten_obs (next_observations (sampled self)) = Ok next_obs /\
    mc_losses (mc_network self) obs next_obs
      (actions (sampled self)) = Ok (fw_loss, w_loss, mc_loss) /\
    get_action (actor self) next_obs g1
    = Ok (next_state_actions, next_state_log_pi, g2) /\
    kl_error net obs next_state_actions = Ok _err /\
    mc self !! "reward_eta" = Some eta /\
    bc2 Num.add (rewards (sampled self)) (map2d (fun x => x * eta)%num _err)
    = Ok composed /\
    bc1 Num.add (flatten composed) discounted = Ok next_q_value /\
    crit_loss_of (critic self) obs (actions (sampled self)) next_q_value
    = Ok crit_loss /\
    actor_loss_of (actor self) (critic self') ent_coef obs g2
    = Ok (actor_loss, g') /\
    polyak_update (tau self) (critic self') (critic_target self)
    = Ok (critic_target self') /\
    log_of self' = log_of self ++
      train_entries (_n_updates self + 1) fw_loss w_loss mc_loss ent_entries ent_coef
        (map2d (fun x => x * eta)%num _err) (rewards (sampled self)) _err composed
        crit_loss actor_loss /\
    (forall B D h A,
       train_ready B D h A self obs next_obs ->
       length next_q_value = B).
Proof.
  intros H.
  destruct (train_inv _ _ _ _ H)
    as (rd & rb & obs & nobs & s_mc & ec & s_ent & g1 & s_log & nq & s_q & g2 & cl &
        s_cl & s_tr & al & s_al & Hrb & Ho & Hno & Hlog & Hmc & Hent & Hrec & Hnq &
        Hcl & Rcl & Rtr & Hc & Hal & Lal & Hp & Lend).
  unfold sampled. rewrite Hrb. cbn [fst].
  destruct (train_mc_inv _ _ _ _ _ Hmc) as (fwl & wl & mcl & Hl & Fmc & Lmc).
  destruct (train_ent_coef_inv _ _ _ _ _ _ Hent) as (Fent & _ & Lent).
  apply record_inv in Hrec as (Frec & _ & Lrec & _ & _ & Slog).
  destruct (next_q_value_of_inv _ _ _ _ _ _ _ _ _ Hnq)
    as (nsa & nlp & cnt & mt & soft & comp & disc & Hga & _ & _ & _ & Hcr & _ & Hq).
  destruct (calc_reward_inv _ _ _ _ _ _ _ Hcr) as (er & eta & Hkl & Heta & Hr & _ & Lq).
  apply record_inv in Rcl as (_ & _ & Lcl & _), Rtr as (_ & _ & Ltr & _).
  assert (frame self s_log) as F.
  { eapply frame_trans; [|exact Frec]. eapply frame_trans; [|exact Fent].
    eapply frame_trans; [|exact Fmc]. done. }
  destruct (frame_fields _ _ F) as (_ & _ & Hm & Ha & _ & _ & Hct & _).
  assert (forall B D h A, train_ready B D h A self obs nobs -> length nq = B) as Hlen.
  { intros B D h A Hr'.
    pose proof (ready_rewards _ _ _ _ _ _ _ Hr') as Sr.
    pose proof (ready_dones _ _ _ _ _ _ _ Hr') as Sd.
    rewrite Hrb in Sr, Sd. cbn [fst] in Sr, Sd.
    pose proof (ready_eta _ _ _ _ _ _ _ Hr') as He. rewrite <- Hm in He.
    pose proof (ready_actor _ _ _ _ _ _ _ Hr') as Hw. rewrite <- Ha in Hw.
    pose proof (ready_target _ _ _ _ _ _ _ Hr') as Ht. rewrite <- Hct in Ht.
    destruct (next_q_value_of_returns B D h A s_log ec obs nobs rd g1 Slog He Hw
                (ready_next_obs_finite _ _ _ _ _ _ _ Hr')
                (ready_next_obs_length _ _ _ _ _ _ _ Hr') Ht
                (fun a0 Ha0 => ready_kl _ _ _ _ _ _ _ Hr' (mc_network s_log) a0 Ha0)
                Sr Sd)
      as (nq' & s_q' & g2' & Enq & Lnq).
    rewrite Enq in Hnq. by injection Hnq as <- _ _. }
  rewrite Ha in Hga. rewrite Hm in Heta.
  exists obs, nobs, fwl, wl, mcl, (ent_coef_entries s_mc obs g), ec, (mc_network s_log),
    g1, nsa, nlp, g2, er, eta, comp, disc, nq, cl, al.
  repeat split; try done.
  rewrite Lend, Lal, Ltr, Lcl, Lq, Lrec, Lent, Lmc. unfold train_entries.
  cbn [log_of logger set_replay_buffer set_logger entries].
  by rewrite <- !app_assoc.
Qed.

(** C1.  In stage 3 of a training step the reward composer gets the
    observation of the sampled transitions, not their next observation,
    together with the action the policy samples at the next observation
    and the extrinsic reward; the composed reward is what the target of
    the critics is built from. *)
Theorem train_composes_reward_on_observations self g self' g' :
  train self g = Ok (self', g') ->
  exists obs next_obs g1 next_state_actions next_state_log_pi g2
         s s' composed discounted next_q_value crit_loss,
    flatten_obs (observations (sampled self)) = Ok obs /\
    flatten_obs (next_observations (sampled self)) = Ok next_obs /\
    get_action (actor self) next_obs g1
    = Ok (next_state_actions, next_state_log_pi, g2) /\
    calc_reward s obs next_state_actions (rewards (sampled self)) false
    = Ok (composed, s') /\
    mc s = mc self /\
    bc1 Num.add (flatten composed) discounted = Ok next_q_value /\
    crit_loss_of (critic self) obs (actions (sampled self)) next_q_value
    = Ok crit_loss.
Proof.
  intros H.
  destruct (train_inv _ _ _ _ H)
    as (rd & rb & obs & nobs & s_mc & ec & s_ent & g1 & s_log & nq & s_q & g2 & cl &
        s_cl & s_tr & al & s_al & Hrb & Ho & Hno & Hlog & Hmc & Hent & Hrec & Hnq &
        Hcl & _).
  unfold sampled. rewrite Hrb. cbn [fst].
  destruct (train_mc_inv _ _ _ _ _ Hmc) as (fwl & wl & mcl & Hl & Fmc & Lmc).
  destruct (train_ent_coef_inv _ _ _ _ _ _ Hent) as (Fent & _ & Lent).
  apply record_inv in Hrec as (Frec & _ & Lrec & _).
  destruct (next_q_value_of_inv _ _ _ _ _ _ _ _ _ Hnq)
    as (nsa & nlp & cnt & mt & soft & comp & disc & Hga & _ & _ & _ & Hcr & _ & Hq).
  assert (frame self s_log) as F.
  { eapply frame_trans; [|exact Frec]. eapply frame_trans; [|exact Fent].
    eapply frame_trans; [|exact Fmc]. done. }
  destruct (frame_fields _ _ F) as (_ & _ & Hm & Ha & _).
  rewrite Ha in Hga.
  exists obs, nobs, g1, nsa, nlp, g2, s_log, s_q, comp, disc, nq, cl.
  by repeat split.
Qed.



End Stages.

Section Fresh.
  Context {col : Collaborators}.

(** C5.  At the end of the constructor the target ensemble has the
    parameters of the critic ensemble, each with the same shape and the
    same elements. *)
Theorem init_target_equals_critic env kw cuda g self g' :
  __init__ env kw cuda g = Ok (self, g') ->
  CriticEnsemble_parameters (critic_target self)
  = CriticEnsemble_parameters (critic self) /\
  CriticEnsemble_state_dict (critic_target self)
  = CriticEnsemble_state_dict (critic self).
Proof. intros H. by rewrite (init_target_copy _ _ _ _ _ _ H). Qed.

End Fresh.


Lemma foldM_returns {A B} (f : A -> B -> result A) (l : list B) a :
  (forall a x, x ∈ l -> is_Ok (f a x)) -> is_Ok (foldM f l a).
Proof.
  revert a. induction l as [|x l IH]; intros a Hf; cbn; [by eexists|].
  destruct (Hf a x) as [a' ->]; [left|]. cbn. apply IH.
  intros a0 y Hy. apply Hf. by right.
Qed.

Section SaveReturns.
  Context {col : Collaborators}.

Lemma delitems_returns (ks : list string) (d : gmap string value) :
  NoDup ks -> (forall k, k ∈ ks -> is_Some (d !! k)) ->
  is_Ok (foldM (fun data to_exclude => delitem to_exclude data) ks d).
Proof.
  revert d. induction ks as [|k0 ks IH]; intros d Hnd Hk; cbn; [by eexists|].
  apply NoDup_cons in Hnd as [Hk0 Hnd].
  unfold delitem at 2. destruct (Hk k0) as [v ->]; [left|]. cbn.
  apply IH; [done|]. intros k Hin. rewrite lookup_delete_ne; [apply Hk; by right|].
  by intros ->.
Qed.

Lemma dict_excluded self k : k ∈ excluded -> is_Some (__dict__ self !! k).
Proof.
  intros Hk. unfold __dict__.
  destruct (list_to_map (attributes self) !! k) as [v|] eqn:E; [by eexists|].
  apply (not_elem_of_list_to_map_2 (M := gmap string)) in E. exfalso. apply E.
  unfold attributes. rewrite fmap_app. apply elem_of_app. left. cbn.
  unfold excluded in Hk.
  repeat (apply elem_of_cons in Hk as [->|Hk]; [by repeat constructor|]).
  by apply elem_of_nil in Hk.
Qed.

(** [save] returns for every engine. *)
Lemma saved_data_returns self : is_Ok (saved_data self).
Proof.
  unfold saved_data.
  destruct (delitems_returns excluded (__dict__ self)) as [d ->].
  - apply (bool_decide_unpack _). by vm_compute.
  - apply dict_excluded.
  - cbn. by eexists.
Qed.

Lemma save_returns self path files : is_Ok (save self path files).
Proof. unfold save. destruct (saved_data_returns self) as [d ->]. by eexists. Qed.

(** Every attribute can be assigned back. *)
Lemma setattr_attribute self k v m :
  (k, v) ∈ attributes self -> is_Ok (setattr k v m).
Proof.
  unfold attributes. intros H.
  repeat (apply elem_of_app in H as [H|H]);
    [| destruct (target_entropy self); cbn in H
     | destruct (log_ent_coef self); cbn in H
     | destruct (ent_coef_optimizer self); cbn in H
     | destruct (ent_coef_tensor self); cbn in H ].
  all: repeat (apply elem_of_cons in H as [H|H];
               [ injection H as -> ->; unfold setattr; cbn;
                 try (destruct (ent_coef self)); try (destruct (logger self));
                 try (destruct (_last_obs self)); cbn;
                 rewrite ?(decide_True (P := (0 <= Z.of_nat (n_critics self))%Z)),
                   ?(decide_True (P := (0 <= Z.of_nat (hidden_size self))%Z)) by lia;
                 by eexists |]).
  all: by apply elem_of_nil in H.
Qed.

Lemma saved_data_attribute self data k v :
  saved_data self = Ok data -> data !! k = Some v -> k ∉ network_keys ->
  (k, v) ∈ attributes self.
Proof.
  unfold saved_data, network_keys. intros H Hk Hn. bind_ok H as d E.
  injection H as <-.
  rewrite !lookup_insert_ne in Hk by (intros <-; apply Hn; by repeat constructor).
  rewrite (delitems_lookup _ _ _ k E) in Hk. case_decide; [done|].
  by apply elem_of_list_to_map_2 in Hk.
Qed.

(** [load] returns on a checkpoint of [save] whenever the constructor
    returns and the saved parameters fit the networks it builds. *)
Lemma load_returns self path files files' env kw cuda g fresh g' :
  save self path files = Ok files' ->
  __init__ env kw cuda g = Ok (fresh, g') ->
  is_Ok (Actor_load_state_dict (actor fresh) (Actor_state_dict (actor self))) ->
  is_Ok (CriticEnsemble_load_state_dict (critic fresh)
           (CriticEnsemble_state_dict (critic self))) ->
  (forall m, is_Ok (mc_load_state_dict m (mc_state_dict (mc_network self)))) ->
  is_Ok (load path env kw cuda g files').
Proof.
  unfold save, load. intros Hs Hi [a Ha] [c Hc] Hm. bind_ok Hs as data Ed.
  injection Hs as <-. rewrite Hi. cbn [mbind result_bind].
  unfold torch_load. rewrite lookup_insert_eq. cbn [mbind result_bind].
  destruct (foldM_returns
              (fun (model : CLEANSACMC) (kv : string * value) =>
                 if bool_decide (kv.1 ∈ network_keys) then Ok model
                 else setattr kv.1 kv.2 model)
              (map_to_list data) fresh) as [m1 Ef].
  { intros m [k v] Hkv. cbn. case_bool_decide as Hn; [by eexists|].
    apply elem_of_map_to_list in Hkv. eapply setattr_attribute.
    by eapply saved_data_attribute. }
  rewrite Ef. cbn [mbind result_bind].
  assert (unsaved m1 = unsaved fresh) as Hu.
  { refine (foldM_invariant _ (fun m => unsaved m = unsaved fresh) _ _ _ _ _ Ef);
      [|done].
    intros m [k v] m' Hkv Hm0 Hstep. cbn in Hstep.
    case_bool_decide as Hn; [by injection Hstep as <-|].
    rewrite <- Hm0. eapply setattr_other; [exact Hstep|].
    intros Hk. apply elem_of_map_to_list in Hkv.
    by rewrite (saved_data_excluded _ _ _ Ed Hk) in Hkv. }
  injection Hu as Hu1 Hu2 Hu3 Hu4 Hu5.
  destruct (saved_data_networks _ _ Ed) as (Ha' & Hc' & Hm').
  unfold getitem. rewrite Ha', Hc', Hm'. cbn [mbind result_bind as_state_dict].
  rewrite Hu5, Ha. cbn [mbind result_bind critic set_actor].
  rewrite Hu4, Hc. cbn [mbind result_bind mc_network set_actor set_critic].
  destruct (Hm (mc_network m1)) as [m ->]. cbn. by eexists.
Qed.

End SaveReturns.


(** ** The shapes of the policy's outputs *)

Lemma bget_in_range {A} (x : list A) i : i < length x -> bget x i = x !! i.
Proof.
  destruct x as [|a [|b x]]; cbn; try done.
  intros H. by replace i with 0 by lia.
Qed.


Lemma shaped_lookup B A (a : batch) r row :
  shaped B A a -> a !! r = Some row -> r < B /\ length row = A.
Proof.
  intros [Hl Ha] Hr. split; [rewrite <- Hl; by eapply lookup_lt_Some|].
  rewrite Forall_forall in Ha. by eapply Ha, list_elem_of_lookup_2.
Qed.

Lemma bc2_shaped B A f (a b c : batch) :
  shaped B A a -> shaped B A b -> bc2 f a b = Ok c -> shaped B A c.
Proof.
  intros Ha Hb H. rewrite (bc2_same _ _ _ _ _ Ha Hb) in H. injection H as <-.
  by apply shaped_zip_with.
Qed.


Lemma bc2_row_l_shaped B A f (ra : vec) (b : batch) c :
  shaped B A b -> length ra = A -> bc2 f [ra] b = Ok c -> shaped B A c.
Proof.
  intros Hb Hra H. rewrite (bc2_row_l B) in H by (by rewrite Hra).
  injection H as <-. by apply shaped_map_zip_l.
Qed.

Lemma Linear_forward_length inn out l x y :
  Linear_shaped inn out l -> Linear_forward l x = Ok y -> length y = out.
Proof.
  intros (Hs & Hw & Hb). unfold Linear_forward. rewrite Hs.
  case_decide as Hx; [|done]. rewrite bc1_same.
  2:{ rewrite length_map. unfold rows. by rewrite length_map, length_seq. }
  intros [= <-]. rewrite length_zip_with, length_map. unfold rows.
  rewrite length_map, length_seq. lia.
Qed.

(** A linear layer that returns gives one row of [out] elements per row of
    its input. *)
Lemma Linear_batch_length inn out l x y :
  Linear_shaped inn out l -> Linear_batch l x = Ok y -> shaped (length x) out y.
Proof.
  intros Hl H. unfold Linear_batch in H. split; [by eapply mapM_result_length|].
  apply Forall_forall. intros row Hr.
  apply list_elem_of_lookup in Hr as [i Hi].
  destruct (mapM_result_lookup _ _ _ _ _ H Hi) as (xr & _ & E).
  by eapply Linear_forward_length.
Qed.

Lemma relu_batch_length inn out l x y :
  Linear_shaped inn out l -> map2d Num.relu <$> Linear_batch l x = Ok y ->
  shaped (length x) out y.
Proof.
  intros Hl H. destruct (Linear_batch l x) as [z|] eqn:E; [|done].
  injection H as <-. by eapply shaped_map2d, Linear_batch_length.
Qed.

Lemma Actor_forward_length inn h A a x mean log_std :
  Actor_shaped inn h A a -> Actor_forward a x = Ok (mean, log_std) ->
  shaped (length x) A mean /\ shaped (length x) A log_std.
Proof.
  intros (H1 & H2 & H3 & Hm & Hs & _) H. unfold Actor_forward in H.
  bind_ok H as x1 E1. bind_ok H as x2 E2. bind_ok H as x3 E3.
  bind_ok H as m E4. bind_ok H as ls E5. injection H as <- <-.
  pose proof (relu_batch_length _ _ _ _ _ H1 E1) as [L1 _].
  pose proof (relu_batch_length _ _ _ _ _ H2 E2) as [L2 _].
  pose proof (relu_batch_length _ _ _ _ _ H3 E3) as [L3 _].
  pose proof (Linear_batch_length _ _ _ _ _ Hm E4) as S4.
  pose proof (Linear_batch_length _ _ _ _ _ Hs E5) as S5.
  replace (length x3) with (length x) in S4, S5 by congruence.
  split; [done|]. by apply shaped_map2d.
Qed.

Section PolicyShapes.
  Context {col : Collaborators}.

Lemma Normal_rsample_length B A mean std g x_t g' :
  shaped B A mean -> shaped B A std ->
  Normal_rsample {| loc := mean; scale := std |} g = Ok (x_t, g') ->
  shaped B A x_t.
Proof.
  intros Sm Ss H. unfold Normal_rsample in H. cbn [loc scale] in H.
  bind_ok H as es Ees. bind_ok H as xt Ext. injection H as <- _.
  destruct (randn_like_shaped g _ _ _ Sm) as [Se _].
  exact (bc2_shaped _ _ _ _ _ _ Sm (bc2_shaped _ _ _ _ _ _ Se Ss Ees) Ext).
Qed.

Lemma Normal_log_prob_length B A mean std x_t lp0 :
  shaped B A mean -> shaped B A std -> shaped B A x_t ->
  Normal_log_prob {| loc := mean; scale := std |} x_t = Ok lp0 ->
  shaped B A lp0.
Proof.
  intros Sm Ss Sx H. unfold Normal_log_prob in H. cbn [loc scale] in H.
  destruct (all2d _ x_t); [|done].
  bind_ok H as d Ed. bind_ok H as q Eq. bind_ok H as t Et. injection H as <-.
  apply shaped_map2d.
  pose proof (bc2_shaped _ _ _ _ _ _ Sx Sm Ed) as Sd.
  pose proof (bc2_shaped _ _ _ _ _ _
                (shaped_map2d _ _ (fun x => - Num.pow2 x)%num _ Sd)
                (shaped_map2d _ _ (Num.mul (Num.of_Z 2)) _
                   (shaped_map2d _ _ Num.pow2 _ Ss)) Eq) as Sq.
  exact (bc2_shaped _ _ _ _ _ _ Sq (shaped_map2d _ _ Num.log _ Ss) Et).
Qed.


(** C9.  The log-probability [get_action] returns has one row of one
    element per observation: the sum, over the [A] action dimensions, of
    the Gaussian log-density of the raw sample minus
    [log (scale * (1 - tanh(x)^2) + 1e-6)]; the constant 1e-6 is not 0. *)
Theorem get_action_log_prob inn h A (a : Actor) x g action lp g' :
  Actor_shaped inn h A a ->
  get_action a x g = Ok (action, lp, g') ->
  exists mean log_std x_t per_dim,
    Actor_forward a x = Ok (mean, log_std) /\
    Normal_rsample {| loc := mean; scale := map2d Num.exp log_std |} g
    = Ok (x_t, g') /\
    shaped (length x) A mean /\ shaped (length x) A log_std /\
    shaped (length x) A x_t /\ shaped (length x) A per_dim /\
    shaped (length x) 1 lp /\
    (forall r, r < length x ->
       exists row, per_dim !! r = Some row /\ lp !! r = Some [vsum row]) /\
    (forall r row i v,
       per_dim !! r = Some row -> row !! i = Some v ->
       exists mu lambda xi s,
         bget2 mean r i = Some mu /\ bget2 log_std r i = Some lambda /\
         bget2 x_t r i = Some xi /\ data (action_scale a) !! i = Some s /\
         v = (gaussian_log_density mu (Num.exp lambda) xi
              - tanh_correction s xi)%num) /\
    eps_bound <> Num.zero.
Proof.
  intros Ha H.
  destruct (get_action_log_prob_entries _ _ _ _ _ _ H)
    as (mean & log_std & x_t & lp0 & sj & per_dim
        & Hf & Hx & Hlp0 & Hsj & Hpd & -> & Hent).
  destruct (Actor_forward_length _ _ _ _ _ _ _ Ha Hf) as [Sm Sl].
  pose proof (shaped_map2d _ _ Num.exp _ Sl) as Ss.
  pose proof (Normal_rsample_length _ _ _ _ _ _ _ Sm Ss Hx) as Sx.
  pose proof (Normal_log_prob_length _ _ _ _ _ _ Sm Ss Sx Hlp0) as Sp.
  destruct Ha as (_ & _ & _ & _ & _ & _ & Lsc & _ & _).
  pose proof (bc2_row_l_shaped _ _ _ _ _ _
                (shaped_map2d _ _ (fun y => Num.one - Num.pow2 y)%num _
                   (shaped_map2d _ _ Num.tanh _ Sx)) Lsc Hsj) as Ssj.
  pose proof (bc2_shaped _ _ _ _ _ _ Sp
                (shaped_map2d _ _ (fun z => Num.log (z + eps_bound)%num) _ Ssj) Hpd)
    as Spd.
  exists mean, log_std, x_t, per_dim.
  split; [done|]. split; [done|]. split; [done|]. split; [done|].
  split; [done|]. split; [done|]. split; [by eapply shaped_sum1|].
  split; [|split; [|apply eps_bound_nonzero]].
  - intros r Hr. destruct Spd as [Hl _].
    destruct (lookup_lt_is_Some_2 per_dim r) as [row Hrow]; [lia|].
    exists row. split; [done|]. unfold sum1_keepdim.
    by rewrite map_is_fmap, list_lookup_fmap, Hrow.
  - intros r row i v Hr Hi.
    destruct (Hent r row i v Hr Hi) as (mu & lambda & xi & s & H1 & H2 & H3 & H4 & H5).
    exists mu, lambda, xi, s. repeat split; try done.
    rewrite <- bget_in_range; [done|].
    destruct (shaped_lookup _ _ _ _ _ Spd Hr) as [_ Hrow].
    rewrite Lsc, <- Hrow. by eapply lookup_lt_Some.
Qed.

End PolicyShapes.


(** ** Further properties of the construction and of the networks *)

Section MoreConstruction.
  Context {col : Collaborators}.

(** The constructor rejects an action space with a bound that is
    infinite or NaN, before it builds anything. *)
Theorem init_rejects_non_finite_bound env kw cuda g v :
  v ∈ low (action_space env) ++ high (action_space env) ->
  is_finite v = false ->
  __init__ env kw cuda g
  = Raise (AssertionError
             "Continuous action space must have a finite lower and upper bound").
Proof.
  intros Hv Hf. unfold __init__.
  assert (bounds_finite (action_space env) = false) as ->; [|done].
  unfold bounds_finite. apply not_true_is_false. intros [Hl Hh]%andb_prop.
  rewrite forallb_forall in Hl, Hh.
  apply elem_of_app in Hv as [Hv|Hv]; apply list_elem_of_In in Hv.
  - rewrite (Hl _ Hv) in Hf. discriminate Hf.
  - rewrite (Hh _ Hv) in Hf. discriminate Hf.
Qed.

(** An engine fresh from the constructor has no logger, and a training
    step on it raises at its first statement. *)
Theorem fresh_engine_cannot_train env kw cuda g self g' g0 :
  __init__ env kw cuda g = Ok (self, g') ->
  logger self = None /\ train self g0 = Raise (AttributeError "record").
Proof.
  intros H. destruct (init_counters _ _ _ _ _ _ H) as (_ & _ & Hl).
  split; [done|]. unfold train, record. cbn. by rewrite Hl.
Qed.

(** The forward pass of the actor clamps the log standard deviation:
    every element it returns is NaN or lies in [-20, 2]. *)
Theorem Actor_forward_clamps_log_std (a : Actor) x mean log_std r row i v :
  Actor_forward a x = Ok (mean, log_std) ->
  log_std !! r = Some row -> row !! i = Some v ->
  nan_or_within LOG_STD_MIN LOG_STD_MAX v.
Proof.
  intros H Hr Hi. destruct (Actor_forward_inv _ _ _ _ H) as [raw ->].
  unfold map2d in Hr. rewrite map_is_fmap, list_lookup_fmap in Hr.
  destruct (raw !! r) as [rrow|]; [|done]. injection Hr as <-.
  rewrite map_is_fmap, list_lookup_fmap in Hi.
  destruct (rrow !! i) as [u|]; [|done]. injection Hi as <-.
  unfold nan_or_within, LOG_STD_MIN, LOG_STD_MAX, Num.of_Z.
  destruct (NumFacts.clamp_cases (IZR (-20)) (IZR 2) u) as [->|(c & -> & Hc)];
    [lra|by left|].
  right. cbn. split; apply Rleb_true; lra.
Qed.

(** The ensemble returns one column of Q-values per critic. *)
Theorem CriticEnsemble_forward_shapes B D A h (e : CriticEnsemble) x a :
  Ensemble_shaped (D + A) h e -> shaped B D x -> shaped B A a ->
  exists qs,
    CriticEnsemble_forward e x a = Ok qs /\
    length qs = length (_critics e) /\ Forall (shaped B 1) qs.
Proof.
  intros He Hx Ha.
  destruct (CriticEnsemble_forward_shaped _ _ _ _ _ _ _ He Hx Ha) as (qs & E & _ & S).
  exists qs. split; [done|]. split; [|done].
  unfold CriticEnsemble_forward in E. bind_ok E as qs' Em.
  apply mapM_result_length in Em. unfold stack in E. destruct qs'; [done|].
  by injection E as <-.
Qed.

(** The learned entropy coefficient is the exponential of its logarithm
    after the optimizer step: it is never negative. *)
Theorem train_ent_coef_never_negative s observations g ec s' g' :
  ent_coef s = Auto ->
  train_ent_coef s observations g = Ok (ec, s', g') ->
  never_negative ec.
Proof.
  unfold train_ent_coef. intros -> H.
  bind_ok H as [[a lp] g1] E1. bind_ok H as lec E2.
  bind_ok H as te E3. bind_ok H as loss E4. bind_ok H as s1 R1.
  bind_ok H as opt E5. destruct (Adam_step _ _ _) as [opt' new].
  bind_ok H as ec' E6. injection H as <- _ _.
  unfold item in E6. cbn [data] in E6.
  destruct (map Num.exp _) as [|y [|y' l]] eqn:Em; try done.
  injection E6 as <-.
  destruct (data (default lec (stepped new [lec] !! 0%nat))) as [|u l]; [done|].
  injection Em as <- _. unfold never_negative. destruct u; cbn.
  - right. right. eexists. split; [done|]. left. apply exp_pos.
  - right. by left.
  - right. right. exists 0%R. split; [done|]. lra.
  - by left.
Qed.

End MoreConstruction.


(** ** Further properties of the observations and of the reward composer *)

Lemma cat1_lookup (x a y : batch) r :
  cat1 x a = Ok y ->
  length y = length x /\ length x = length a /\
  y !! r = (xr ← x !! r; ar ← a !! r; Some (xr ++ ar)).
Proof.
  unfold cat1. case_decide as Hl; [|done]. intros [= <-].
  rewrite length_zip_with. split; [lia|]. split; [done|].
  rewrite lookup_zip_with. destruct (x !! r); [|done]. cbn. by destruct (a !! r).
Qed.

(** A dict observation is flattened into its three arrays side by side:
    observation, achieved goal, desired goal. *)
Theorem flatten_obs_dict_rows (d : gmap string batch) by_index y :
  flatten_obs (ObsDict d by_index) = Ok y ->
  exists o ag dg,
    d !! "observation" = Some o /\ d !! "achieved_goal" = Some ag /\
    d !! "desired_goal" = Some dg /\
    length y = length o /\ length ag = length o /\ length dg = length o /\
    forall r ro ra rd,
      o !! r = Some ro -> ag !! r = Some ra -> dg !! r = Some rd ->
      y !! r = Some (ro ++ ra ++ rd).
Proof.
  unfold flatten_obs, getitem. intros H.
  destruct (d !! "observation") as [o|]; [|done].
  destruct (d !! "achieved_goal") as [ag|]; [|done].
  destruct (d !! "desired_goal") as [dg|]; [|done].
  cbn [mbind result_bind] in H. bind_ok H as oa E.
  exists o, ag, dg. repeat split; try done.
  - destruct (cat1_lookup _ _ _ 0 E) as (L1 & _ & _).
    destruct (cat1_lookup _ _ _ 0 H) as (L2 & _ & _). congruence.
  - destruct (cat1_lookup _ _ _ 0 E) as (_ & L1 & _). done.
  - destruct (cat1_lookup _ _ _ 0 E) as (L1 & L1' & _).
    destruct (cat1_lookup _ _ _ 0 H) as (_ & L2 & _). congruence.
  - intros r ro ra rd Ho Ha Hd.
    destruct (cat1_lookup _ _ _ r E) as (_ & _ & L1).
    destruct (cat1_lookup _ _ _ r H) as (_ & _ & L2).
    rewrite L2, L1, Ho, Ha, Hd. cbn. by rewrite <- app_assoc.
Qed.

(** A dict observation without one of the three keys raises [KeyError]
    for a key that is missing. *)
Theorem flatten_obs_missing_key (d : gmap string batch) by_index :
  d !! "observation" = None \/ d !! "achieved_goal" = None \/
  d !! "desired_goal" = None ->
  exists k, flatten_obs (ObsDict d by_index) = Raise (KeyError k) /\ d !! k = None.
Proof.
  intros H. unfold flatten_obs, getitem.
  destruct (d !! "observation") as [o|] eqn:Eo; [|by exists "observation"].
  destruct (d !! "achieved_goal") as [ag|] eqn:Ea; [|by exists "achieved_goal"].
  destruct (d !! "desired_goal") as [dg|] eqn:Ed; [|by exists "desired_goal"].
  by destruct H as [?|[?|?]].
Qed.

Section MoreTraining.
  Context {col : Collaborators}.

(** The reward composer: each element of its result is the extrinsic
    reward plus the KL error times ["reward_eta"]; it adds four entries
    to the log and changes nothing else of the engine. *)
Theorem calc_reward_composition s observations actions e_rewards ex r s' :
  calc_reward s observations actions e_rewards ex = Ok (r, s') ->
  exists _err eta,
    kl_error (mc_network s) observations actions = Ok _err /\
    mc s !! "reward_eta" = Some eta /\
    (forall row i v, bget2 r row i = Some v ->
       exists e k, bget2 e_rewards row i = Some e /\ bget2 _err row i = Some k /\
                   v = (e + k * eta)%num) /\
    length (log_of s') = (length (log_of s) + 4)%nat /\
    kept s' = kept s /\ mc_network s' = mc_network s /\
    replay_buffer s' = replay_buffer s /\ _n_updates s' = _n_updates s.
Proof.
  intros H. pose proof H as H0.
  destruct (calc_reward_inv _ _ _ _ _ _ _ H) as (er & eta & Hkl & Heta & Hr & F & L).
  exists er, eta. split; [done|]. split; [done|]. split.
  { intros row i v Hv.
    destruct (bc2_bget2 _ _ _ _ _ _ _ Hr Hv) as (e & k' & He & Hk & ->).
    rewrite bget2_map2d in Hk. destruct (bget2 er row i) as [k|]; [|done].
    injection Hk as <-. by exists e, k. }
  split; [rewrite L, length_app; by destruct ex|]. split; [exact F|].
  unfold calc_reward in H0. rewrite Hkl in H0. cbn [mbind result_bind] in H0.
  unfold getitem in H0. rewrite Heta in H0. cbn [mbind result_bind] in H0.
  rewrite Hr in H0. cbn [mbind result_bind] in H0.
  destruct ex.
  - bind_ok H0 as s1 R1. bind_ok H0 as s2 R2. bind_ok H0 as s3 R3.
    bind_ok H0 as s4 R4. injection H0 as <-.
    unfold record in *.
    destruct (logger s); [|done]. injection R1 as <-.
    cbn in R2. injection R2 as <-. cbn in R3. injection R3 as <-.
    cbn in R4. by injection R4 as <-.
  - bind_ok H0 as s1 R1. bind_ok H0 as s2 R2. bind_ok H0 as s3 R3.
    bind_ok H0 as s4 R4. injection H0 as <-.
    unfold record_mean in *.
    destruct (logger s); [|done]. injection R1 as <-.
    cbn in R2. injection R2 as <-. cbn in R3. injection R3 as <-.
    cbn in R4. by injection R4 as <-.
Qed.

(** Without ["reward_eta"] in the curiosity configuration the reward
    composer raises [KeyError] once the KL error is computed. *)
Theorem calc_reward_requires_eta s observations actions e_rewards ex :
  is_Ok (kl_error (mc_network s) observations actions) ->
  mc s !! "reward_eta" = None ->
  calc_reward s observations actions e_rewards ex = Raise (KeyError "reward_eta").
Proof.
  intros [er Hkl] Heta. unfold calc_reward. rewrite Hkl. cbn [mbind result_bind].
  unfold getitem. by rewrite Heta.
Qed.

End MoreTraining.


Section MoreSteps.
  Context {col : Collaborators}.

Lemma record_settings key v s s' : record key v s = Ok s' -> settings s' = settings s.
Proof. unfold record. destruct (logger s); [|done]. by intros [= <-]. Qed.

Lemma record_mean_settings key v s s' :
  record_mean key v s = Ok s' -> settings s' = settings s.
Proof. unfold record_mean. destruct (logger s); [|done]. by intros [= <-]. Qed.

Lemma calc_reward_settings s observations actions e_rewards ex r s' :
  calc_reward s observations actions e_rewards ex = Ok (r, s') ->
  settings s' = settings s.
Proof.
  unfold calc_reward. intros H.
  bind_ok H as _err E1. bind_ok H as eta E2. bind_ok H as rw E3.
  destruct ex.
  - bind_ok H as s1 R1. bind_ok H as s2 R2. bind_ok H as s3 R3. bind_ok H as s4 R4.
    injection H as _ <-.
    apply record_settings in R1, R2, R3, R4. congruence.
  - bind_ok H as s1 R1. bind_ok H as s2 R2. bind_ok H as s3 R3. bind_ok H as s4 R4.
    injection H as _ <-.
    apply record_mean_settings in R1, R2, R3, R4. congruence.
Qed.

Lemma train_mc_settings s observations next_observations actions s' :
  train_mc s observations next_observations actions = Ok s' ->
  settings s' = settings s.
Proof.
  unfold train_mc. intros H. bind_ok H as [[fw w] loss] E.
  bind_ok H as s1 R1. bind_ok H as s2 R2. bind_ok H as s3 R3.
  apply record_settings in R1, R2, R3.
  destruct (Adam_step _ _ _) as [opt new]. injection H as <-.
  transitivity (settings s3); [done|congruence].
Qed.

Lemma train_ent_coef_settings s observations g ec s' g' :
  train_ent_coef s observations g = Ok (ec, s', g') -> settings s' = settings s.
Proof.
  unfold train_ent_coef. destruct (ent_coef s) eqn:Ee.
  - intros H. bind_ok H as [[a lp] g1] E1. bind_ok H as lec E2.
    bind_ok H as te E3. bind_ok H as loss E4. bind_ok H as s1 R1.
    bind_ok H as opt E5. destruct (Adam_step _ _ _) as [opt' new].
    bind_ok H as ec' E6. injection H as _ <- _.
    apply record_settings in R1. transitivity (settings s1); [done|congruence].
  - intros H. bind_ok H as ec' E. by injection H as _ <- _.
Qed.

Lemma next_q_value_of_settings s ent_coef observations next_observations
  replay_data g nq s' g' :
  next_q_value_of s ent_coef observations next_observations replay_data g
  = Ok (nq, s', g') -> settings s' = settings s.
Proof.
  intros H.
  destruct (next_q_value_of_inv _ _ _ _ _ _ _ _ _ H)
    as (nsa & nlp & cnt & mt & soft & comp & disc & _ & _ & _ & _ & Hc & _).
  by eapply calc_reward_settings.
Qed.

Lemma train_settings_inv self g self' g' :
  train self g = Ok (self', g') ->
  _n_updates self' = (_n_updates self + 1)%Z /\
  num_timesteps self' = num_timesteps self /\
  env self' = env self /\ _last_obs self' = _last_obs self /\
  learning_starts self' = learning_starts self /\
  batch_size self' = batch_size self /\
  tau self' = tau self /\ gamma self' = gamma self /\ mc self' = mc self.
Proof.
  unfold train. intros H.
  bind_ok H as s0 R0.
  destruct (rb_sample _ _) as [rd rb] eqn:Erb.
  bind_ok H as obs Eo. bind_ok H as nobs Eno.
  bind_ok H as s_mc Emc. bind_ok H as [[ec s_ent] g1] Eent.
  bind_ok H as s_log Rec. bind_ok H as [[nq s_q] g2] Enq.
  bind_ok H as cl Ecl. bind_ok H as s_cl Rcl. bind_ok H as s_tr Rtr.
  destruct (Adam_step (critic_optimizer s_tr) _ _) as [opt new].
  bind_ok H as [al g3] Eal. bind_ok H as s_al Ral.
  destruct (Adam_step (actor_optimizer s_al) _ _) as [opt' new'].
  bind_ok H as ct Ect. injection H as <- _.
  apply record_settings in R0, Rec, Rcl, Rtr, Ral.
  apply train_mc_settings in Emc. apply train_ent_coef_settings in Eent.
  apply next_q_value_of_settings in Enq.
  assert (settings s_al = settings (set__n_updates (_n_updates self + 1)%Z self)) as Hs.
  { rewrite Ral. transitivity (settings s_tr); [done|].
    rewrite Rtr, Rcl, Enq, Rec, Eent, Emc. transitivity (settings s0); [done|].
    by rewrite R0. }
  unfold settings in Hs. cbn in Hs.
  injection Hs as _ _ _ Hb Hls Ht Hg _ _ Hm He Hlo Hnt _ Hn.
  by repeat split.
Qed.

(** A training step adds 1 to [_n_updates]; it leaves the step counter,
    the environment, the last observation and the hyperparameters as
    they are. *)
Theorem train_counts_one_update self g self' g' :
  train self g = Ok (self', g') ->
  _n_updates self' = (_n_updates self + 1)%Z /\
  num_timesteps self' = num_timesteps self /\
  env self' = env self /\ _last_obs self' = _last_obs self /\
  learning_starts self' = learning_starts self /\
  batch_size self' = batch_size self /\
  tau self' = tau self /\ gamma self' = gamma self /\ mc self' = mc self.
Proof. apply train_settings_inv. Qed.

(** The curiosity stage logs the two negative log-likelihoods and their
    summed mean, steps the curiosity networks, and leaves the policy and
    the critics as they are. *)
Theorem train_mc_effect s observations next_observations actions s' :
  train_mc s observations next_observations actions = Ok s' ->
  exists fw_loss w_loss total,
    mc_losses (mc_network s) observations next_observations actions
    = Ok (fw_loss, w_loss, mean_all total) /\
    bc2 Num.add fw_loss w_loss = Ok total /\
    log_of s' = log_of s ++
      [ LogRecord "mc/fw_loss" (mean_all fw_loss);
        LogRecord "mc/w_prime_a_loss" (mean_all w_loss);
        LogRecord "mc/loss" (mean_all total) ] /\
    actor s' = actor s /\ critic s' = critic s /\
    critic_target s' = critic_target s /\ settings s' = settings s.
Proof.
  intros H. destruct (train_mc_inv _ _ _ _ _ H) as (fw & w & loss & Hm & F & L).
  pose proof Hm as Hm'. unfold mc_losses in Hm'.
  bind_ok Hm' as [fn wn] E1. bind_ok Hm' as fwl E2. bind_ok Hm' as wl E3.
  bind_ok Hm' as total E4. injection Hm' as <- <- <-.
  exists fwl, wl, total. split; [done|]. split; [done|]. split; [done|].
  destruct (frame_fields _ _ F) as (_ & _ & _ & Ha & Hc & _ & Ht & _).
  repeat split; try done. by eapply train_mc_settings.
Qed.

(** The target of the critics, element by element: the composed reward
    plus [(1 - done) * gamma] times the soft value, the soft value being
    the minimum over the target critics minus the entropy coefficient
    times the log-probability of the next action. *)
Theorem next_q_value_formula s ent_coef observations next_observations
  replay_data g nq s' g' :
  next_q_value_of s ent_coef observations next_observations replay_data g
  = Ok (nq, s', g') ->
  exists next_state_actions next_state_log_pi qs min_target soft composed,
    get_action (actor s) next_observations g
    = Ok (next_state_actions, next_state_log_pi, g') /\
    CriticEnsemble_forward (critic_target s) next_observations next_state_actions
    = Ok qs /\
    min_dim0 qs = Ok min_target /\
    (forall r i q, bget2 soft r i = Some q ->
       exists m lp, bget2 min_target r i = Some m /\
                    bget2 next_state_log_pi r i = Some lp /\
                    q = (m - ent_coef * lp)%num) /\
    calc_reward s observations next_state_actions (rewards replay_data) false
    = Ok (composed, s') /\
    (forall i v, bget nq i = Some v ->
       exists rw d q,
         bget (flatten composed) i = Some rw /\
         bget (flatten (dones replay_data)) i = Some d /\
         bget (flatten soft) i = Some q /\
         v = (rw + (Num.one - d) * gamma s * q)%num).
Proof.
  intros H.
  destruct (next_q_value_of_inv _ _ _ _ _ _ _ _ _ H)
    as (nsa & nlp & cnt & mt & soft & comp & disc & Hga & Hf & Hm & Hs & Hc & Hd & Hq).
  exists nsa, nlp, cnt, mt, soft, comp. repeat split; try done.
  - intros r i q Hsoft.
    destruct (bc2_bget2 _ _ _ _ _ _ _ Hs Hsoft) as (m & l & Hm' & Hl & ->).
    rewrite bget2_map2d in Hl. destruct (bget2 nlp r i) as [lp|]; [|done].
    injection Hl as <-. by exists m, lp.
  - intros i v Hv.
    destruct (bc1_bget _ _ _ _ _ _ Hq Hv) as (rw & dq & Hrw & Hdq & ->).
    destruct (bc1_bget _ _ _ _ _ _ Hd Hdq) as (dg & q & Hdg & Hq' & ->).
    rewrite bget_map in Hdg.
    destruct (bget (flatten (dones replay_data)) i) as [d|]; [|done].
    injection Hdg as <-. by exists rw, d, q.
Qed.

(** With [tau = 1] the Polyak update copies the critic into the target
    (a hard update), element by element, wherever the old target element
    is finite. *)
Theorem polyak_update_tau_one source target target' i t k x :
  polyak_update Num.one source target = Ok target' ->
  same_sizes source target ->
  CriticEnsemble_parameters target !! i = Some t ->
  data t !! k = Some x -> is_finite x = true ->
  exists p t' y,
    CriticEnsemble_parameters source !! i = Some p /\
    CriticEnsemble_parameters target' !! i = Some t' /\
    data p !! k = Some y /\ data t' !! k = Some y.
Proof.
  intros H Hsz Ht Hx Hfin.
  pose proof (polyak_update_elem _ _ _ _ _ _ H Ht) as Hi.
  destruct (lookup_lt_is_Some_2 (CriticEnsemble_parameters source) i) as [p Hp].
  { rewrite (Forall2_length _ _ _ Hsz). by eapply lookup_lt_Some. }
  pose proof (Forall2_lookup_lr _ _ _ _ _ _ Hsz Hp Ht) as Hlen. cbn in Hlen.
  rewrite Hp in Hi. destruct Hi as (t' & Hpair & Ht').
  destruct (polyak_pair_elem _ _ _ _ Hpair Hlen) as (_ & _ & He).
  destruct (He k x Hx) as (y & Hy & Hv).
  exists p, t', y. repeat split; try done. rewrite Hv. f_equal.
  destruct x as [a| | |]; try done.
  destruct y as [b| | |]; cbn; unfold Num.signed_inf;
    repeat first [rewrite Rltb_true by lra | rewrite Rltb_false by lra];
    try done.
  f_equal. lra.
Qed.

(** With [tau = 0] the Polyak update leaves the target as it is,
    wherever the critic element is finite. *)
Theorem polyak_update_tau_zero source target target' i t k x :
  polyak_update Num.zero source target = Ok target' ->
  same_sizes source target ->
  CriticEnsemble_parameters target !! i = Some t ->
  data t !! k = Some x ->
  (forall p y, CriticEnsemble_parameters source !! i = Some p ->
               data p !! k = Some y -> is_finite y = true) ->
  exists t',
    CriticEnsemble_parameters target' !! i = Some t' /\ data t' !! k = Some x.
Proof.
  intros H Hsz Ht Hx Hfin.
  pose proof (polyak_update_elem _ _ _ _ _ _ H Ht) as Hi.
  destruct (lookup_lt_is_Some_2 (CriticEnsemble_parameters source) i) as [p Hp].
  { rewrite (Forall2_length _ _ _ Hsz). by eapply lookup_lt_Some. }
  pose proof (Forall2_lookup_lr _ _ _ _ _ _ Hsz Hp Ht) as Hlen. cbn in Hlen.
  rewrite Hp in Hi. destruct Hi as (t' & Hpair & Ht').
  destruct (polyak_pair_elem _ _ _ _ Hpair Hlen) as (_ & _ & He).
  destruct (He k x Hx) as (y & Hy & Hv).
  exists t'. split; [done|]. rewrite Hv. f_equal.
  specialize (Hfin p y Hp Hy). destruct y as [b| | |]; try done.
  destruct x as [a| | |]; cbn; unfold Num.signed_inf;
    repeat first [rewrite Rltb_true by lra | rewrite Rltb_false by lra];
    try done.
  f_equal. lra.
Qed.

End MoreSteps.


(** ** Loading a state dict copies it *)

Lemma load_tensor_inv sd key own t :
  load_tensor sd key own = Ok t -> sd !! key = Some t.
Proof.
  unfold load_tensor. destruct (sd !! key) as [t'|]; [|done].
  case_decide; [|done]. by intros [= <-].
Qed.

Lemma Linear_load_inv sd p l r :
  Linear_load sd p l = Ok r ->
  sd !! (p +:+ "weight") = Some (weight r) /\ sd !! (p +:+ "bias") = Some (bias r).
Proof.
  unfold Linear_load. intros H. bind_ok H as w Ew. bind_ok H as b Eb.
  injection H as <-. split; by eapply load_tensor_inv.
Qed.

Lemma Critic_load_from sd p tgt src r :
  (forall s, sd !! (p +:+ s) = (list_to_map (Critic_named "" src) : gmap string tensor) !! s) ->
  Critic_load sd p tgt = Ok r -> r = src.
Proof.
  intros Hsd H. unfold Critic_load in H.
  bind_ok H as l1 E1. bind_ok H as l2 E2. bind_ok H as l3 E3. bind_ok H as l4 E4.
  injection H as <-.
  apply Linear_load_inv in E1 as [W1 B1], E2 as [W2 B2], E3 as [W3 B3], E4 as [W4 B4].
  rewrite !string_app_assoc, !Hsd in W1, B1, W2, B2, W3, B3, W4, B4.
  destruct (Critic_named_entries src) as (F1 & F2 & F3 & F4 & F5 & F6 & F7 & F8).
  rewrite F1 in W1. rewrite F2 in B1. rewrite F3 in W2. rewrite F4 in B2.
  rewrite F5 in W3. rewrite F6 in B3. rewrite F7 in W4. rewrite F8 in B4.
  destruct src as [[] [] [] []], l1, l2, l3, l4. cbn in *. congruence.
Qed.

Lemma Critic_load_missing sd p tgt :
  sd !! (p +:+ "fc1." +:+ "weight") = None -> Critic_load sd p tgt = load_error.
Proof.
  intros Hsd. unfold Critic_load, Linear_load, load_tensor.
  by rewrite !string_app_assoc, Hsd.
Qed.

Lemma Critics_load_from sd (srcs : list Critic) off tgts rs :
  (forall j c s, srcs !! j = Some c ->
     sd !! (critic_prefix j +:+ s)
     = (list_to_map (Critic_named "" c) : gmap string tensor) !! s) ->
  (forall j s, srcs !! j = None -> sd !! (critic_prefix j +:+ s) = None) ->
  mapM_result (fun ic : nat * Critic => Critic_load sd (critic_prefix ic.1) ic.2)
    (imap (fun i c => (off + i, c)) tgts) = Ok rs ->
  length rs = length tgts /\
  forall i, i < length tgts -> is_Some (srcs !! (off + i)) /\ rs !! i = srcs !! (off + i).
Proof.
  intros Hs Hn. revert off rs.
  induction tgts as [|tgt tgts IH]; intros off rs H.
  - cbn in H. injection H as <-. split; [done|]. cbn. lia.
  - rewrite imap_cons in H. cbn [mapM_result fst snd] in H.
    bind_ok H as r Er. bind_ok H as rs' Ers. injection H as <-.
    rewrite (imap_ext _ (fun i c => (S off + i, c))) in Ers.
    2:{ intros i x _. unfold compose. f_equal. lia. }
    destruct (IH _ _ Ers) as [Hlen Hi]. rewrite Nat.add_0_r in Er.
    destruct (srcs !! off) as [c|] eqn:Ec.
    + apply (Critic_load_from _ _ _ c) in Er; [|intros s; by apply Hs]. subst r.
      split; [cbn; lia|]. intros [|i] Hlt.
      * rewrite Nat.add_0_r, Ec. split; [by eexists|done].
      * replace (off + S i) with (S off + i) by lia. apply Hi. cbn in Hlt. lia.
    + rewrite Critic_load_missing in Er; [done|]. exact (Hn off _ Ec).
Qed.

(** Loading the state dict of [src] succeeds only into an ensemble of as
    many critics, and then gives [src]. *)
Lemma CriticEnsemble_load_from tgt src r :
  CriticEnsemble_load_state_dict tgt (CriticEnsemble_state_dict src) = Ok r ->
  r = src.
Proof.
  unfold CriticEnsemble_load_state_dict. intros H.
  bind_ok H as rs Ers. bind_ok H as u Eu. injection H as <-.
  destruct (Critics_load_from (CriticEnsemble_state_dict src) (_critics src) 0
              (_critics tgt) rs) as [Hlen Hi]; [| |exact Ers|].
  { intros j c s Hj. by apply CriticEnsemble_state_dict_lookup. }
  { intros j s Hj. apply (named_from_lookup_None 0).
    intros i s' Hlt Heq. apply critic_prefix_inj in Heq as [-> _].
    apply lookup_ge_None in Hj. cbn in Hlt. lia. }
  assert (length (_critics src) <= length (_critics tgt)) as Hle.
  { destruct (decide (length (_critics src) <= length (_critics tgt))) as [|Hgt];
      [done|exfalso].
    destruct (lookup_lt_is_Some_2 (_critics src) (length (_critics tgt))) as [c Hc];
      [lia|].
    unfold check_unexpected in Eu. case_decide as Hsub; [|done].
    assert (critic_prefix (length (_critics tgt)) +:+ "fc1." +:+ "weight"
            ∈ dom (CriticEnsemble_state_dict src)) as Hin.
    { apply elem_of_dom.
      rewrite (CriticEnsemble_state_dict_lookup _ _ c) by done.
      destruct (Critic_named_entries c) as (-> & _). by eexists. }
    apply Hsub, elem_of_dom in Hin as [t Ht].
    assert (CriticEnsemble_state_dict tgt
              !! (critic_prefix (length (_critics tgt)) +:+ "fc1." +:+ "weight") = None)
      as Hnone.
    { apply (named_from_lookup_None 0).
      intros i s' Hlt Heq. apply critic_prefix_inj in Heq as [Heq _]. cbn in Heq. lia. }
    by rewrite Hnone in Ht. }
  destruct src as [srcs]. cbn in *. f_equal.
  apply list_eq. intros i. destruct (decide (i < length (_critics tgt))) as [Hlt|Hge].
  - by destruct (Hi i Hlt) as [_ ->].
  - rewrite !lookup_ge_None_2; [done|lia|lia].
Qed.

Lemma Actor_state_dict_entries a :
  let m := Actor_state_dict a in
  m !! ("fc1." +:+ "weight") = Some (weight (fc1 a)) /\
  m !! ("fc1." +:+ "bias") = Some (bias (fc1 a)) /\
  m !! ("fc2." +:+ "weight") = Some (weight (fc2 a)) /\
  m !! ("fc2." +:+ "bias") = Some (bias (fc2 a)) /\
  m !! ("fc3." +:+ "weight") = Some (weight (fc3 a)) /\
  m !! ("fc3." +:+ "bias") = Some (bias (fc3 a)) /\
  m !! ("fc_mean." +:+ "weight") = Some (weight (fc_mean a)) /\
  m !! ("fc_mean." +:+ "bias") = Some (bias (fc_mean a)) /\
  m !! ("fc_logstd." +:+ "weight") = Some (weight (fc_logstd a)) /\
  m !! ("fc_logstd." +:+ "bias") = Some (bias (fc_logstd a)) /\
  m !! "action_scale" = Some (action_scale a) /\
  m !! "action_bias" = Some (action_bias a).
Proof. repeat split; reflexivity. Qed.

(** Loading the state dict of the actor [src], when it succeeds, gives
    [src]: parameters and buffers. *)
Lemma Actor_load_from tgt src r :
  Actor_load_state_dict tgt (Actor_state_dict src) = Ok r -> r = src.
Proof.
  unfold Actor_load_state_dict. intros H.
  bind_ok H as l1 E1. bind_ok H as l2 E2. bind_ok H as l3 E3.
  bind_ok H as lm E4. bind_ok H as ls E5. bind_ok H as sc E6. bind_ok H as bi E7.
  bind_ok H as u E8. injection H as <-.
  apply Linear_load_inv in E1 as [W1 B1], E2 as [W2 B2], E3 as [W3 B3],
    E4 as [W4 B4], E5 as [W5 B5].
  apply load_tensor_inv in E6, E7.
  destruct (Actor_state_dict_entries src)
    as (F1 & F2 & F3 & F4 & F5 & F6 & F7 & F8 & F9 & F10 & F11 & F12).
  rewrite F1 in W1. rewrite F2 in B1. rewrite F3 in W2. rewrite F4 in B2.
  rewrite F5 in W3. rewrite F6 in B3. rewrite F7 in W4. rewrite F8 in B4.
  rewrite F9 in W5. rewrite F10 in B5. rewrite F11 in E6. rewrite F12 in E7.
  destruct src as [[] [] [] [] [] ? ?], l1, l2, l3, lm, ls. cbn in *. congruence.
Qed.

Section MorePersistence.
  Context {col : Collaborators}.

(** Round trip of the two networks: whenever loading a checkpoint of
    [save] returns, the actor and the critic ensemble of the loaded engine
    are the saved ones, parameter by parameter (and the two buffers of the
    actor). *)
Theorem load_restores_actor_and_critic self path files files' env kw cuda g model g' :
  save self path files = Ok files' ->
  load path env kw cuda g files' = Ok (model, g') ->
  actor model = actor self /\ critic model = critic self.
Proof.
  intros Hs Hl.
  destruct (load_inv _ _ _ _ _ _ _ _ _ _ Hs Hl)
    as (fresh & a & _ & _ & _ & _ & Ha & -> & Hc).
  split; [by eapply Actor_load_from|by eapply CriticEnsemble_load_from].
Qed.

Lemma dict_lookup_fixed self k v :
  (k, v) ∈ take 24 (attributes self) ->
  NoDup (take 24 (attributes self)).*1 ->
  __dict__ self !! k = Some v.
Proof.
  intros Hin Hnd. unfold __dict__.
  rewrite <- (take_drop 24 (attributes self)), list_to_map_app.
  apply lookup_union_Some_l. by apply elem_of_list_to_map_1.
Qed.

Lemma dict_lookup_kept self data k v :
  saved_data self = Ok data ->
  (k, v) ∈ take 24 (attributes self) ->
  k ∉ excluded ->
  data !! k = Some v.
Proof.
  unfold saved_data. intros H Hin Hk. bind_ok H as d E. injection H as <-.
  assert (k <> "_actor" /\ k <> "_critic" /\ k <> "_mc") as (? & ? & ?).
  { unfold attributes in Hin. cbn [take app] in Hin.
    repeat (apply elem_of_cons in Hin as [Hin|Hin];
            [injection Hin as -> _; by repeat split|]).
    by apply elem_of_nil in Hin. }
  rewrite !lookup_insert_ne by done.
  rewrite (delitems_lookup _ _ _ k E), decide_False by done.
  apply dict_lookup_fixed; [done|]. apply (bool_decide_unpack _). by vm_compute.
Qed.

(** What a checkpoint holds: none of the nine excluded attributes (the
    environment, the logger, the replay buffer, the counters, the last
    observation and the three network objects), the state dicts of the
    actor, of the critic ensemble and of the curiosity networks, and the
    hyperparameters as they are. *)
Theorem saved_data_contents self data :
  saved_data self = Ok data ->
  (forall k, k ∈ excluded -> data !! k = None) /\
  data !! "_actor" = Some (VStateDict (Actor_state_dict (actor self))) /\
  data !! "_critic" = Some (VStateDict (CriticEnsemble_state_dict (critic self))) /\
  data !! "_mc" = Some (VStateDict (mc_state_dict (mc_network self))) /\
  data !! "tau" = Some (VFloat (tau self)) /\
  data !! "gamma" = Some (VFloat (gamma self)) /\
  data !! "learning_rate" = Some (VFloat (learning_rate self)) /\
  data !! "learning_starts" = Some (VInt (learning_starts self)) /\
  data !! "batch_size" = Some (VInt (batch_size self)) /\
  data !! "mc" = Some (VDict (mc self)).
Proof.
  intros H. split; [intros k Hk; by eapply saved_data_excluded|].
  destruct (saved_data_networks _ _ H) as (Ha & Hc & Hm).
  split; [done|]. split; [done|]. split; [done|].
  repeat split;
    (eapply dict_lookup_kept;
     [ exact H
     | unfold attributes; cbn [take app]; by repeat constructor
     | unfold excluded; intros Hin;
       repeat (apply elem_of_cons in Hin as [Hin|Hin]; [discriminate Hin|]);
       by apply elem_of_nil in Hin ]).
Qed.

End MorePersistence.


(** ** Rollout steps and the loop of [learn] *)

Lemma foldM_ok_elem {A B} (f : A -> B -> result A) (l : list B) a a' x :
  foldM f l a = Ok a' -> x ∈ l -> exists a0 a1, f a0 x = Ok a1.
Proof.
  revert a. induction l as [|y l IH]; intros a H Hx; [by apply elem_of_nil in Hx|].
  cbn in H. destruct (f a y) as [a1|] eqn:E; [|done]. cbn in H.
  apply elem_of_cons in Hx as [->|Hx]; [by exists a, a1|]. by eapply IH.
Qed.

Section Rollout.
  Context {col : Collaborators} {cbs : Callbacks}.

Lemma select_action_inv self g actions lp s1 g1 :
  select_action self g = Ok (actions, lp, s1, g1) ->
  exists e, s1 = set_env e self.
Proof.
  unfold select_action. case_decide as Hd.
  - destruct (space_sample (env self)) as [a e]. intros [= <- <- <- <-]. by exists e.
  - intros H. bind_ok H as o Eo. bind_ok H as [[a l] g2] Ep.
    injection H as <- <- <- <-. exists (env self). by destruct self.
Qed.

Lemma set_terminal_inv idx infos o o' :
  set_terminal idx infos o = Ok o' ->
  exists info t, infos !! idx = Some info /\ terminal_observation info = Ok t.
Proof.
  unfold set_terminal. intros H.
  destruct (infos !! idx) as [info|]; [|done]. cbn [mbind result_bind] in H.
  bind_ok H as t Et. by exists info, t.
Qed.

Lemma collect_rollout_inv self callback g c self' callback' g' :
  collect_rollout self callback g = Ok (c, self', callback', g') ->
  exists actions log_prob s1 new_obs rewards dones infos,
    select_action self g = Ok (actions, log_prob, s1, g') /\
    env_step (env s1) actions = (new_obs, rewards, dones, infos, env self') /\
    _last_obs self' = Some new_obs /\
    num_timesteps self'
    = (num_timesteps self + Z.of_nat (num_envs (env self')))%Z /\
    learned self' = learned self /\
    (c = false <-> (on_step callback self').1 = Some false) /\
    (forall idx, dones !! idx = Some true ->
       exists info t, infos !! idx = Some info /\ terminal_observation info = Ok t).
Proof.
  unfold collect_rollout. intros H.
  bind_ok H as [[[actions lp] s1] g1] Esel.
  destruct (env_step (env s1) actions) as [[[[new_obs rewards] dones] infos] env'] eqn:Estep.
  bind_ok H as obs Eo. bind_ok H as [r s2] Ecr.
  bind_ok H as s3 R3. bind_ok H as s4 R4. bind_ok H as s5 R5.
  bind_ok H as real_next_obs Efold.
  destruct (select_action_inv _ _ _ _ _ _ Esel) as [e ->].
  destruct (calc_reward_inv _ _ _ _ _ _ _ Ecr) as (er & eta & _ & _ & _ & F2 & _).
  apply calc_reward_settings in Ecr.
  pose proof (record_settings _ _ _ _ R3) as S3.
  pose proof (record_settings _ _ _ _ R4) as S4.
  pose proof (record_mean_settings _ _ _ _ R5) as S5.
  apply record_inv in R3 as (F3 & _), R4 as (F4 & _).
  apply record_mean_inv in R5 as (F5 & _).
  assert (kept s5 = kept (set_env env' (set_env e self))) as Hk.
  { unfold frame in *. congruence. }
  assert (settings s5 = settings (set_env env' (set_env e self))) as Hs by congruence.
  unfold kept in Hk. unfold settings in Hs. cbn in Hk, Hs.
  injection Hk as _ _ _ Ha _ Hc _ Hct He Hnt Hls _ _ _ _.
  injection Hs as _ _ _ _ _ _ _ _ _ _ _ _ _ _ Hn.
  exists actions, lp, (set_env e self), new_obs, rewards, dones, infos.
  assert (forall idx, dones !! idx = Some true ->
            exists info t, infos !! idx = Some info /\ terminal_observation info = Ok t)
    as Hterm.
  { intros idx Hd.
    destruct (foldM_ok_elem _ _ _ _ (idx, true) Efold) as (o0 & o1 & Hst).
    - apply elem_of_lookup_imap. by exists idx, true.
    - cbn in Hst. by eapply set_terminal_inv. }
  destruct (on_step callback _) as [[[|]|] cb'] eqn:Ecb;
    injection H as <- <- <- <-;
    (split; [done|]); (split; [cbn in *; by rewrite Estep, He|]);
    (split; [done|]); (split; [cbn; by rewrite Hnt|]);
    (split; [unfold learned; cbn; by rewrite Ha, Hc, Hct, Hn, Hls|]);
    (split; [|exact Hterm]); cbn in Ecb |- *; rewrite Ecb; by split.
Qed.

(** One rollout step: the step counter grows by the number of
    sub-environments, the last observation becomes the one the step
    returned, the flag is false exactly when the callback answers
    [False] (not when it answers [None]); the networks and the update
    counter are as before, and every sub-environment that finished had a
    terminal observation in its info. *)
Theorem collect_rollout_effect self callback g c self' callback' g' :
  collect_rollout self callback g = Ok (c, self', callback', g') ->
  exists actions log_prob s1 new_obs rewards dones infos,
    select_action self g = Ok (actions, log_prob, s1, g') /\
    env_step (env s1) actions = (new_obs, rewards, dones, infos, env self') /\
    _last_obs self' = Some new_obs /\
    num_timesteps self'
    = (num_timesteps self + Z.of_nat (num_envs (env self')))%Z /\
    learned self' = learned self /\
    (c = false <-> (on_step callback self').1 = Some false) /\
    (forall idx, dones !! idx = Some true ->
       exists info t, infos !! idx = Some info /\ terminal_observation info = Ok t).
Proof. apply collect_rollout_inv. Qed.

Lemma learn_loop_monotone fuel total self callback g self' callback' g' :
  learn_loop fuel total self callback g = Ok (self', callback', g') ->
  learning_starts self' = learning_starts self /\
  (num_timesteps self <= num_timesteps self')%Z.
Proof.
  revert self callback g. induction fuel as [|fuel IH]; intros self callback g H.
  - cbn in H. injection H as <- _ _. split; [done|lia].
  - cbn [learn_loop] in H. case_decide as Hlt; [|injection H as <- _ _; split; [done|lia]].
    bind_ok H as [[[c s1] cb1] g1] Ecr.
    destruct (collect_rollout_inv _ _ _ _ _ _ _ Ecr)
      as (a & lp & s0 & no & rw & dn & inf & _ & _ & _ & Hnt & Hl & _).
    injection Hl as _ _ _ _ Hls.
    destruct c; [|injection H as <- _ _; split; [done|lia]].
    bind_ok H as [s2 g2] Etr.
    assert (learning_starts s2 = learning_starts s1 /\
            num_timesteps s2 = num_timesteps s1) as [Hls2 Hnt2].
    { repeat case_decide; try (by injection Etr as <- _).
      by destruct (train_settings_inv _ _ _ _ Etr) as (_ & ? & _ & _ & ? & _). }
    destruct (IH _ _ _ H) as [Hls3 Hnt3]. split; [congruence|lia].
Qed.

(** No training step runs during the warm-up: when the loop of [learn]
    returns with a step counter that is not above [learning_starts], the
    networks and the update counter are the ones it started with. *)
Theorem learn_loop_no_update_in_warmup fuel total self callback g self' callback' g' :
  learn_loop fuel total self callback g = Ok (self', callback', g') ->
  (num_timesteps self' <= learning_starts self)%Z ->
  actor self' = actor self /\ critic self' = critic self /\
  critic_target self' = critic_target self /\ _n_updates self' = _n_updates self.
Proof.
  revert self callback g. induction fuel as [|fuel IH]; intros self callback g H Hw.
  - cbn in H. by injection H as <- _ _.
  - cbn [learn_loop] in H. case_decide as Hlt; [|by injection H as <- _ _].
    bind_ok H as [[[c s1] cb1] g1] Ecr.
    destruct (collect_rollout_inv _ _ _ _ _ _ _ Ecr)
      as (a & lp & s0 & no & rw & dn & inf & _ & _ & _ & Hnt & Hl & _).
    injection Hl as Ha Hc Hct Hn Hls.
    destruct c; [|by injection H as <- _ _].
    bind_ok H as [s2 g2] Etr.
    destruct (learn_loop_monotone _ _ _ _ _ _ _ _ H) as [Hls3 Hnt3].
    assert (s2 = s1) as ->.
    { repeat case_decide; try (by injection Etr as <- _).
      destruct (train_settings_inv _ _ _ _ Etr) as (_ & Hnt2 & _). lia. }
    destruct (IH _ _ _ H) as (Ha' & Hc' & Hct' & Hn'); [lia|].
    repeat split; congruence.
Qed.

End Rollout.


Section WarmupRollout.
  Context {col : Collaborators} {cbs : Callbacks}.

(** When no sub-environment finished, the next observation is stored as
    it is. *)
Lemma foldM_no_terminal infos (f : nat -> bool -> nat * bool) dones o :
  (forall i d, (f i d).2 = d) ->
  Forall (fun d => d = false) dones ->
  foldM (fun (real_next_obs : Obs) (id : nat * bool) =>
           if id.2 then set_terminal id.1 infos real_next_obs else Ok real_next_obs)
    (imap f dones) o = Ok o.
Proof.
  intros Hf H. revert f Hf. induction H as [|d dones -> _ IH]; intros f Hf; [done|].
  rewrite imap_cons. cbn [foldM]. rewrite Hf. cbn [mbind result_bind].
  apply IH. intros i d. apply Hf.
Qed.

(** A warm-up step returns when the reward composer does and no
    sub-environment finished. *)
Lemma collect_rollout_warmup_returns self cb g a e new_obs rewards dones infos e'
  obs _err :
  (num_timesteps self < learning_starts self)%Z ->
  space_sample (env self) = (a, e) ->
  env_step e [a] = (new_obs, rewards, dones, infos, e') ->
  flatten_obs new_obs = Ok obs ->
  is_Some (logger self) -> is_Some (mc self !! "reward_eta") ->
  kl_error (mc_network self) obs [a] = Ok _err -> length _err = 1%nat ->
  length rewards = 1%nat ->
  Forall (fun d => d = false) dones ->
  exists s',
    collect_rollout self cb g
    = Ok (match (on_step cb s').1 with Some false => false | _ => true end,
          s', (on_step cb s').2, g) /\
    num_timesteps s' = (num_timesteps self + Z.of_nat (num_envs e'))%Z /\
    learning_starts s' = learning_starts self.
Proof.
  intros Hlt Hsp Hst Hfl Hlog Heta Hkl Hlen Hrw Hdn.
  unfold collect_rollout, select_action.
  rewrite decide_True by done. rewrite Hsp. cbn [mbind result_bind].
  change (env (set_env e self)) with e. rewrite Hst, Hfl. cbn [mbind result_bind].
  destruct (calc_reward_returns 1 (set_env e' (set_env e self)) obs [a] [rewards]
              true _err) as (r & s1 & E1 & _);
    [done|done|done|done|by repeat constructor|].
  rewrite E1. cbn [mbind result_bind].
  pose proof (calc_reward_settings _ _ _ _ _ _ _ E1) as S1.
  destruct (calc_reward_inv _ _ _ _ _ _ _ E1) as (er & et & _ & _ & _ & _ & L1).
  apply log_of_snoc in L1.
  destruct (record_returns "actor_entropy" (- vmean [Num.zero])%num s1 L1) as [s2 E2].
  rewrite E2. cbn [mbind result_bind].
  pose proof (record_settings _ _ _ _ E2) as S2.
  apply record_inv in E2 as (_ & _ & _ & _ & _ & L2).
  destruct (record_returns "train/rollout_rewards_step" (vmean rewards) s2 L2)
    as [s3 E3].
  rewrite E3. cbn [mbind result_bind].
  pose proof (record_settings _ _ _ _ E3) as S3.
  apply record_inv in E3 as (_ & _ & _ & _ & _ & L3).
  destruct (record_mean_returns "train/rollout_rewards_mean" (vmean rewards) s3 L3)
    as [s4 E4].
  rewrite E4. cbn [mbind result_bind].
  pose proof (record_mean_settings _ _ _ _ E4) as S4.
  rewrite foldM_no_terminal by done. cbn [mbind result_bind].
  assert (settings s4 = settings (set_env e' (set_env e self))) as Hs by congruence.
  unfold settings in Hs. cbn in Hs.
  injection Hs as _ _ _ _ Hls _ _ _ _ _ He _ Hnt _ _.
  match goal with
  | |- context [on_step cb ?s] => exists s; destruct (on_step cb s) as [[[|]|] cb']
  end; (split; [reflexivity|]); cbn; by rewrite Hnt, He, Hls.
Qed.

End WarmupRollout.


(** ** An instance for the examples *)

(** ** The instance of the examples *)

#[local] Existing Instance Example.collaborators.
#[local] Existing Instance Example.callbacks.

Lemma init_constructed reward eta seed :
  fst <$> __init__ (Example.environment reward) (Example.kwargs eta) false seed
  = Ok (Example.constructed reward eta seed).
Proof. vm_compute. reflexivity. Qed.


Lemma engine_ready reward eta seed :
  train_ready 1 1 1 1 (Example.engine reward eta seed) [[Fin 1]] [[Fin 2]].
Proof.
  constructor.
  - by eexists.
  - by eexists.
  - unfold ent_coef_ready. cbn. repeat split; eauto.
  - repeat split; repeat constructor.
  - split; [done|]. repeat constructor.
  - split; [done|]. repeat constructor.
  - done.
  - done.
  - done.
  - repeat constructor.
  - repeat constructor.
  - done.
  - done.
  - repeat constructor.
  - repeat constructor.
  - repeat constructor.
  - eexists. reflexivity.
  - intros net a Ha. eexists. split; reflexivity.
Qed.

Lemma vmean_one (x : R) : vmean [Fin x] = Fin x.
Proof.
  unfold vmean, vsum. cbn. rewrite Rltb_true by lra. f_equal. field.
Qed.

Lemma mean_all_one (x : R) : mean_all [[Fin x]] = Fin x.
Proof. apply vmean_one. Qed.

(** The KL error of the two predictors of the example at observation [o]. *)
Lemma example_kl_error net (o : R) (a : batch) :
  kl_error net [[Fin o]] a = Ok [[Fin (o * o / 2)]].
Proof.
  unfold kl_error. cbn. unfold unsqueeze1, mean_last, bc2, bc1, map2d. cbn -[vmean].
  destruct (decide (1%nat = 1%nat)); cbn -[vmean]; rewrite vmean_one; do 4 f_equal; field.
Qed.

Lemma init_target_equals_critic_witness :
  exists self g',
    __init__ (Example.environment (Fin 1)) (Example.kwargs (Fin (1 / 2))) false 0%nat
    = Ok (self, g') /\
    CriticEnsemble_parameters (critic_target self)
    = CriticEnsemble_parameters (critic self).
Proof.
  destruct (__init__ (Example.environment (Fin 1)) (Example.kwargs (Fin (1 / 2)))
              false 0%nat) as [[self g']|e] eqn:E.
  - exists self, g'. split; [reflexivity|].
    exact (proj1 (init_target_equals_critic _ _ _ _ _ _ E)).
  - vm_compute in E. discriminate E.
Defined.

Lemma train_polyak_update_witness :
  exists self' g',
    same_sizes (critic (Example.engine (Fin 1) (Fin (1 / 2)) 0))
      (critic_target (Example.engine (Fin 1) (Fin (1 / 2)) 0)) /\
    train (Example.engine (Fin 1) (Fin (1 / 2)) 0) 0%nat = Ok (self', g') /\
    polyak_update (tau (Example.engine (Fin 1) (Fin (1 / 2)) 0)) (critic self')
      (critic_target (Example.engine (Fin 1) (Fin (1 / 2)) 0))
    = Ok (critic_target self').
Proof.
  destruct (@train_returns Example.collaborators _ _ _ _ _ _ _ 0%nat (engine_ready (Fin 1) (Fin (1 / 2)) 0))
    as (self' & g' & E).
  assert (same_sizes (critic (Example.engine (Fin 1) (Fin (1 / 2)) 0))
            (critic_target (Example.engine (Fin 1) (Fin (1 / 2)) 0))) as Hsz
    by repeat constructor.
  exists self', g'. split; [exact Hsz|]. split; [exact E|].
  exact (proj1 (train_polyak_update _ _ _ _ Hsz E)).
Defined.


Lemma train_composes_reward_on_observations_witness :
  exists self' g' s next_state_actions composed s',
    train (Example.engine (Fin 1) (Fin (1 / 2)) 0) 0%nat = Ok (self', g') /\
    calc_reward s [[Fin 1]] next_state_actions [[Fin 1]] false = Ok (composed, s').
Proof.
  destruct (@train_returns Example.collaborators _ _ _ _ _ _ _ 0%nat (engine_ready (Fin 1) (Fin (1 / 2)) 0))
    as (self' & g' & E).
  destruct (train_composes_reward_on_observations _ _ _ _ E)
    as (obs & nobs & g1 & nsa & nlp & g2 & s & s' & comp & disc & nq & cl & Ho & _ & _ &
        Hc & _).
  injection Ho as <-.
  exists self', g', s, nsa, comp, s'. split; [exact E|exact Hc].
Defined.

Lemma calc_reward_eta_zero_witness :
  exists rewards self',
    mc (Example.engine (Fin 1) Num.zero 0) !! "reward_eta" = Some Num.zero /\
    kl_error (mc_network (Example.engine (Fin 1) Num.zero 0)) [[Fin 1]] [[Fin 0]]
    = Ok [[Fin (1 * 1 / 2)]] /\
    calc_reward (Example.engine (Fin 1) Num.zero 0) [[Fin 1]] [[Fin 0]] [[Fin 3]] true
    = Ok (rewards, self') /\
    rewards = [[Fin 3]].
Proof.
  destruct (calc_reward_returns 1 (Example.engine (Fin 1) Num.zero 0) [[Fin 1]]
              [[Fin 0]] [[Fin 3]] true [[Fin (1 * 1 / 2)]])
    as (rewards & self' & E & _).
  - by eexists.
  - by eexists.
  - apply example_kl_error.
  - reflexivity.
  - repeat constructor.
  - exists rewards, self'. split; [reflexivity|].
    split; [apply example_kl_error|]. split; [exact E|].
    apply (calc_reward_eta_zero (Example.engine (Fin 1) Num.zero 0) [[Fin 1]] [[Fin 0]]
             [[Fin 3]] true [[Fin (1 * 1 / 2)]] rewards self').
    + reflexivity.
    + apply example_kl_error.
    + reflexivity.
    + reflexivity.
    + exact E.
Defined.


Lemma example_actor_shaped reward eta seed :
  Actor_shaped 1 1 1 (actor (Example.engine reward eta seed)).
Proof. repeat split. Qed.


Lemma get_action_log_prob_witness :
  exists action lp g' per_dim,
    get_action (actor (Example.engine (Fin 1) (Fin (1 / 2)) 0)) [[Fin 1]] 0%nat
    = Ok (action, lp, g') /\
    shaped 1 1 per_dim /\ shaped 1 1 lp /\
    (forall r, r < 1 ->
       exists row, per_dim !! r = Some row /\ lp !! r = Some [vsum row]) /\
    eps_bound <> Num.zero.
Proof.
  destruct (@get_action_returns Example.collaborators 1 1 1
              (actor (Example.engine (Fin 1) (Fin (1 / 2)) 0)) [[Fin 1]] 0%nat)
    as (action & lp & g' & E & _).
  - exact (ready_actor _ _ _ _ _ _ _ (engine_ready (Fin 1) (Fin (1 / 2)) 0)).
  - repeat constructor.
  - destruct (@get_action_log_prob Example.collaborators 1 1 1
                (actor (Example.engine (Fin 1) (Fin (1 / 2)) 0)) [[Fin 1]] 0%nat
                action lp g' (example_actor_shaped _ _ _) E)
      as (mean & log_std & x_t & per_dim & _ & _ & _ & _ & _ & Sp & Sl & Hsum & _ & Heps).
    exists action, lp, g', per_dim.
    split; [exact E|]. split; [exact Sp|]. split; [exact Sl|].
    split; [exact Hsum|exact Heps].
Defined.


Lemma init_example reward eta seed :
  exists g',
    __init__ (Example.environment reward) (Example.kwargs eta) false seed
    = Ok (Example.constructed reward eta seed, g').
Proof.
  pose proof (init_constructed reward eta seed) as H.
  destruct (__init__ (Example.environment reward) (Example.kwargs eta) false seed)
    as [[s g']|e]; [|discriminate H].
  injection H as ->. by exists g'.
Qed.

(** Loading, into a fresh engine of the example, a checkpoint of an engine
    of the example returns. *)
Lemma load_example self reward eta path files files' :
  actor self = actor (Example.constructed reward eta 5) ->
  critic self = critic (Example.constructed reward eta 5) ->
  save self path files = Ok files' ->
  is_Ok (load path (Example.environment reward) (Example.kwargs eta) false 0%nat files').
Proof.
  intros Ha Hc Hs. destruct (init_example reward eta 0) as [g' Hi].
  eapply load_returns; [exact Hs|exact Hi| | |].
  - rewrite Ha. eexists. vm_compute. reflexivity.
  - rewrite Hc. eexists. vm_compute. reflexivity.
  - intros m. by eexists.
Qed.

Lemma load_resets_counters_witness :
  exists files' model g',
    save (set__n_updates 7 (set_num_timesteps 5000 (Example.engine (Fin 1) (Fin (1 / 2)) 5)))
      "checkpoint" ∅ = Ok files' /\
    load "checkpoint" (Example.environment (Fin 1)) (Example.kwargs (Fin (1 / 2)))
      false 0%nat files' = Ok (model, g') /\
    num_timesteps model = 0%Z /\ _n_updates model = 0%Z.
Proof.
  destruct (save_returns
              (set__n_updates 7
                 (set_num_timesteps 5000 (Example.engine (Fin 1) (Fin (1 / 2)) 5)))
              "checkpoint" ∅) as [files' Es].
  destruct (load_example _ (Fin 1) (Fin (1 / 2)) _ _ _ eq_refl eq_refl Es)
    as [[model g'] El].
  exists files', model, g'. split; [exact Es|]. split; [exact El|].
  exact (load_resets_counters _ _ _ _ _ _ _ _ _ _ Es El).
Defined.

Lemma load_keeps_fresh_target_witness :
  exists files' model g',
    save (Example.engine (Fin 1) (Fin (1 / 2)) 5) "checkpoint" ∅ = Ok files' /\
    load "checkpoint" (Example.environment (Fin 1)) (Example.kwargs (Fin (1 / 2)))
      false 0%nat files' = Ok (model, g') /\
    critic_target model = critic (Example.constructed (Fin 1) (Fin (1 / 2)) 0).
Proof.
  destruct (save_returns (Example.engine (Fin 1) (Fin (1 / 2)) 5) "checkpoint" ∅)
    as [files' Es].
  destruct (load_example _ (Fin 1) (Fin (1 / 2)) _ _ _ eq_refl eq_refl Es)
    as [[model g'] El].
  exists files', model, g'. split; [exact Es|]. split; [exact El|].
  destruct (load_keeps_fresh_target _ _ _ _ _ _ _ _ _ _ Es El) as (fresh & Hi & Ht & _).
  destruct (init_example (Fin 1) (Fin (1 / 2)) 0) as [g0 Hi0].
  rewrite Hi0 in Hi. injection Hi as <- _. exact Ht.
Defined.

(** The engine of the example built from a generator in state 5, saved
    and loaded with a generator in state 0: the critic ensemble has the
    saved parameters and the target ensemble those of the fresh critic. *)
Lemma load_target_differs_from_critic :
  exists files' model g',
    save (Example.engine (Fin 1) (Fin (1 / 2)) 5) "checkpoint" ∅ = Ok files' /\
    load "checkpoint" (Example.environment (Fin 1)) (Example.kwargs (Fin (1 / 2)))
      false 0%nat files' = Ok (model, g') /\
    critic model = critic (Example.engine (Fin 1) (Fin (1 / 2)) 5) /\
    CriticEnsemble_parameters (critic_target model)
    <> CriticEnsemble_parameters (critic model).
Proof.
  destruct (save_returns (Example.engine (Fin 1) (Fin (1 / 2)) 5) "checkpoint" ∅)
    as [files' Es].
  destruct (load_example _ (Fin 1) (Fin (1 / 2)) _ _ _ eq_refl eq_refl Es)
    as [[model g'] El].
  exists files', model, g'. split; [exact Es|]. split; [exact El|].
  destruct (load_inv _ _ _ _ _ _ _ _ _ _ Es El)
    as (fresh & a & Hi & _ & _ & Ht & _ & _ & Hc).
  destruct (init_example (Fin 1) (Fin (1 / 2)) 0) as [g0 Hi0].
  rewrite Hi0 in Hi. injection Hi as <- _.
  assert (critic model = critic (Example.engine (Fin 1) (Fin (1 / 2)) 5)) as Hcm.
  { rewrite CriticEnsemble_load_own in Hc by repeat constructor.
    by injection Hc as <-. }
  split; [exact Hcm|]. rewrite Ht, Hcm. intros H.
  apply (f_equal (fun ps => t ← ps !! 0%nat; data t !! 0%nat)) in H.
  vm_compute in H. injection H as H. lra.
Qed.


Lemma bc2_one (f : num -> num -> num) (x y : num) : bc2 f [[x]] [[y]] = Ok [[f x y]].
Proof. unfold bc2, bc1. cbn. by repeat case_decide. Qed.





(** The transition of the example goes from observation 1 to observation 2:
    the step composes the reward with the KL error at observation 1, 1/2,
    and not with the one at observation 2, which is 2. *)
Lemma reward_composed_on_observation :
  exists self' g',
    train (Example.engine (Fin 1) (Fin (1 / 2)) 0) 0%nat = Ok (self', g') /\
    LogRecordMean "mc/kld" (Fin (1 / 2)) ∈ log_of self' /\
    LogRecordMean "mc/reward" (Fin (5 / 4)) ∈ log_of self' /\
    (forall net a, kl_error net [[Fin 2]] a = Ok [[Fin (2 * 2 / 2)]]) /\
    (forall net a, kl_error net [[Fin 1]] a = Ok [[Fin (1 * 1 / 2)]]).
Proof.
  pose proof (engine_ready (Fin 1) (Fin (1 / 2)) 0) as Hr.
  destruct (@train_returns Example.collaborators _ _ _ _ _ _ _ 0%nat Hr)
    as (self' & g' & E).
  destruct (train_stages _ _ _ _ E)
    as (obs & nobs & fwl & wl & mcl & ee & ec & net & g1 & nsa & nlp & g2 & er & eta &
        comp & disc & nq & cl & al & Ho & Hno & _ & _ & Hkl & Heta & Hc & _ & _ &
        _ & _ & Hlog & _).
  injection Ho as <-. injection Hno as <-.
  rewrite example_kl_error in Hkl. injection Hkl as <-.
  change (rewards (sampled (Example.engine (Fin 1) (Fin (1 / 2)) 0)))
    with [[Fin 1]] in *.
  change (mc (Example.engine (Fin 1) (Fin (1 / 2)) 0) !! "reward_eta")
    with (Some (Fin (1 / 2))) in Heta.
  injection Heta as <-.
  unfold map2d in Hc, Hlog. cbn [map] in Hc, Hlog. rewrite bc2_one in Hc.
  injection Hc as <-.
  exists self', g'. split; [exact E|].
  split; [|split; [|split; intros; apply example_kl_error]].
  - rewrite Hlog. unfold train_entries, reward_entries. rewrite !elem_of_app.
    do 4 right. left. cbn [Num.add Num.mul]. rewrite !mean_all_one.
    replace (1 * 1 / 2)%R with (1 / 2)%R by lra. by repeat constructor.
  - rewrite Hlog. unfold train_entries, reward_entries. rewrite !elem_of_app.
    do 4 right. left. cbn [Num.add Num.mul]. rewrite !mean_all_one.
    replace (1 + 1 * 1 / 2 * (1 / 2))%R with (5 / 4)%R by lra. by repeat constructor.
Qed.


(** The KL error of the example on a batch of two observations. *)
Lemma example_kl_error_pair net (o1 o2 : R) (a : batch) :
  kl_error net [[Fin o1]; [Fin o2]] a = Ok [[Fin (o1 * o1 / 2)]; [Fin (o2 * o2 / 2)]].
Proof.
  unfold kl_error. cbn. unfold unsqueeze1, mean_last, bc2, bc1, map2d. cbn -[vmean].
  destruct (decide (2%nat = 2%nat)); [|done].
  destruct (decide (1%nat = 1%nat)); [|done]. cbn -[vmean].
  rewrite !vmean_one. do 2 f_equal; [|f_equal]; do 2 f_equal; field.
Qed.

(** With [eta = 0] and two sub-environments, the call of [collect_rollout]
    passes the two extrinsic rewards as one row, [rewards.view(1, -1)], and
    the KL error is a column of two finite values: the sum broadcasts to
    2 x 2, which is not the extrinsic reward. *)
Lemma eta_zero_reward_broadcasts :
  exists _err rewards self',
    mc (Example.engine (Fin 1) Num.zero 0) !! "reward_eta" = Some Num.zero /\
    kl_error (mc_network (Example.engine (Fin 1) Num.zero 0))
      [[Fin 1]; [Fin 2]] [[Fin 0]; [Fin 0]] = Ok _err /\
    all2d is_finite _err = true /\
    calc_reward (Example.engine (Fin 1) Num.zero 0) [[Fin 1]; [Fin 2]]
      [[Fin 0]; [Fin 0]] [[Fin 3; Fin 4]] true = Ok (rewards, self') /\
    rewards = [[Fin 3; Fin 4]; [Fin 3; Fin 4]] /\
    rewards <> [[Fin 3; Fin 4]].
Proof.
  assert (exists rewards self',
            calc_reward (Example.engine (Fin 1) Num.zero 0) [[Fin 1]; [Fin 2]]
              [[Fin 0]; [Fin 0]] [[Fin 3; Fin 4]] true = Ok (rewards, self') /\
            rewards = [[Fin 3; Fin 4]; [Fin 3; Fin 4]]) as (rewards & self' & E & Hr).
  { unfold calc_reward. rewrite example_kl_error_pair. cbn [mbind result_bind].
    unfold getitem.
    change (mc (Example.engine (Fin 1) Num.zero 0) !! "reward_eta") with (Some Num.zero).
    cbn [mbind result_bind].
    assert (bc2 Num.add [[Fin 3; Fin 4]]
              (map2d (fun x => x * Num.zero)%num
                 [[Fin (1 * 1 / 2)]; [Fin (2 * 2 / 2)]])
            = Ok [[Fin 3; Fin 4]; [Fin 3; Fin 4]]) as ->.
    { unfold bc2, bc1, map2d. cbn.
      replace (3 + 1 * 1 / 2 * 0)%R with 3%R by lra.
      replace (4 + 1 * 1 / 2 * 0)%R with 4%R by lra.
      replace (3 + 2 * 2 / 2 * 0)%R with 3%R by lra.
      replace (4 + 2 * 2 / 2 * 0)%R with 4%R by lra. done. }
    cbn [mbind result_bind]. unfold record. cbn. eauto. }
  exists [[Fin (1 * 1 / 2)]; [Fin (2 * 2 / 2)]], rewards, self'.
  split; [reflexivity|]. split; [apply example_kl_error_pair|].
  split; [reflexivity|]. split; [exact E|]. split; [exact Hr|].
  rewrite Hr. discriminate.
Qed.



(** ** Instances of the further properties *)

Lemma init_rejects_non_finite_bound_witness :
  PInf ∈ [Fin (-1)] ++ [PInf] /\
  __init__
    {| observation_space := BoxSpace Example.box;
       action_space := {| low := [Fin (-1)]; high := [PInf]; box_shape := [1%nat] |};
       num_envs := 1; env_state := Fin 1 |}
    (Example.kwargs (Fin (1 / 2))) false 0%nat
  = Raise (AssertionError
             "Continuous action space must have a finite lower and upper bound").
Proof.
  split; [by repeat constructor|].
  apply (@init_rejects_non_finite_bound Example.collaborators _ _ _ _ PInf);
    [by repeat constructor|reflexivity].
Defined.

Lemma fresh_engine_cannot_train_witness :
  fst <$> __init__ (Example.environment (Fin 1)) (Example.kwargs (Fin (1 / 2))) false 0%nat
  = Ok (Example.constructed (Fin 1) (Fin (1 / 2)) 0) /\
  train (Example.constructed (Fin 1) (Fin (1 / 2)) 0) 0%nat
  = Raise (AttributeError "record").
Proof.
  split; [apply init_constructed|].
  destruct (init_example (Fin 1) (Fin (1 / 2)) 0) as [g' Hi].
  exact (proj2 (@fresh_engine_cannot_train Example.collaborators _ _ _ _ _ _ 0%nat Hi)).
Defined.

Lemma Actor_forward_clamps_log_std_witness :
  exists mean log_std,
    Actor_forward (actor (Example.engine (Fin 1) (Fin (1 / 2)) 0)) [[Fin 1]]
    = Ok (mean, log_std) /\
    forall r row i v, log_std !! r = Some row -> row !! i = Some v ->
      nan_or_within LOG_STD_MIN LOG_STD_MAX v.
Proof.
  destruct (Actor_forward_ok 1 1 1 (actor (Example.engine (Fin 1) (Fin (1 / 2)) 0))
              [[Fin 1]]) as (mean & raw & E & _).
  - exact (ready_actor _ _ _ _ _ _ _ (engine_ready (Fin 1) (Fin (1 / 2)) 0)).
  - repeat constructor.
  - exists mean, (map2d (Num.clamp LOG_STD_MIN LOG_STD_MAX) raw). split; [exact E|].
    intros r row i v. exact (Actor_forward_clamps_log_std _ _ _ _ r row i v E).
Defined.

Lemma CriticEnsemble_forward_shapes_witness :
  exists qs,
    CriticEnsemble_forward (critic (Example.engine (Fin 1) (Fin (1 / 2)) 0))
      [[Fin 1]] [[Fin 0]] = Ok qs /\
    length qs = 2%nat /\ Forall (shaped 1 1) qs.
Proof.
  apply (CriticEnsemble_forward_shapes 1 1 1 1
           (critic (Example.engine (Fin 1) (Fin (1 / 2)) 0)) [[Fin 1]] [[Fin 0]]).
  - exact (ready_critic _ _ _ _ _ _ _ (engine_ready (Fin 1) (Fin (1 / 2)) 0)).
  - repeat constructor.
  - repeat constructor.
Defined.

Lemma train_ent_coef_never_negative_witness :
  exists ec s' g',
    train_ent_coef (Example.engine (Fin 1) (Fin (1 / 2)) 0) [[Fin 1]] 0%nat
    = Ok (ec, s', g') /\
    never_negative ec.
Proof.
  pose proof (engine_ready (Fin 1) (Fin (1 / 2)) 0) as Hr.
  destruct (@train_ent_coef_returns Example.collaborators 1 1 1
              (Example.engine (Fin 1) (Fin (1 / 2)) 0) [[Fin 1]] 0%nat
              (ready_logger _ _ _ _ _ _ _ Hr) (ready_ent_coef _ _ _ _ _ _ _ Hr)
              (ready_actor _ _ _ _ _ _ _ Hr) (ready_obs_finite _ _ _ _ _ _ _ Hr))
    as (ec & s' & g' & E).
  exists ec, s', g'. split; [exact E|].
  exact (train_ent_coef_never_negative (Example.engine (Fin 1) (Fin (1 / 2)) 0)
           _ _ _ _ _ eq_refl E).
Defined.

Lemma flatten_obs_dict_rows_witness :
  flatten_obs (ObsDict Example.goal_observation ∅) = Ok [[Fin 1; Fin 2; Fin 3]] /\
  exists o ag dg,
    Example.goal_observation !! "observation" = Some o /\
    Example.goal_observation !! "achieved_goal" = Some ag /\
    Example.goal_observation !! "desired_goal" = Some dg /\
    length [[Fin 1; Fin 2; Fin 3]] = length o.
Proof.
  assert (flatten_obs (ObsDict Example.goal_observation ∅)
          = Ok [[Fin 1; Fin 2; Fin 3]]) as E by reflexivity.
  split; [exact E|].
  destruct (flatten_obs_dict_rows _ _ _ E) as (o & ag & dg & Ho & Ha & Hd & Hl & _).
  by exists o, ag, dg.
Defined.

Lemma flatten_obs_missing_key_witness :
  exists k,
    flatten_obs (ObsDict {[ "observation" := [[Fin 1]] ]} ∅) = Raise (KeyError k) /\
    ({[ "observation" := [[Fin 1]] ]} : gmap string batch) !! k = None.
Proof.
  apply (flatten_obs_missing_key {[ "observation" := [[Fin 1]] ]} ∅).
  right. left. reflexivity.
Defined.

Lemma calc_reward_composition_witness :
  exists r s' _err eta,
    calc_reward (Example.engine (Fin 1) (Fin (1 / 2)) 0) [[Fin 1]] [[Fin 0]] [[Fin 3]]
      true = Ok (r, s') /\
    kl_error (mc_network (Example.engine (Fin 1) (Fin (1 / 2)) 0)) [[Fin 1]] [[Fin 0]]
    = Ok _err /\
    mc (Example.engine (Fin 1) (Fin (1 / 2)) 0) !! "reward_eta" = Some eta /\
    length (log_of s') = 4%nat.
Proof.
  destruct (calc_reward_returns 1 (Example.engine (Fin 1) (Fin (1 / 2)) 0) [[Fin 1]]
              [[Fin 0]] [[Fin 3]] true [[Fin (1 * 1 / 2)]])
    as (r & s' & E & _).
  - by eexists.
  - by eexists.
  - apply example_kl_error.
  - reflexivity.
  - repeat constructor.
  - destruct (calc_reward_composition _ _ _ _ _ _ _ E)
      as (er & eta & Hkl & Heta & _ & Hlen & _).
    exists r, s', er, eta. split; [exact E|]. split; [exact Hkl|].
    split; [exact Heta|exact Hlen].
Defined.

Lemma calc_reward_requires_eta_witness :
  mc (set_mc ∅ (Example.engine (Fin 1) (Fin (1 / 2)) 0)) !! "reward_eta" = None /\
  calc_reward (set_mc ∅ (Example.engine (Fin 1) (Fin (1 / 2)) 0)) [[Fin 1]] [[Fin 0]]
    [[Fin 3]] true = Raise (KeyError "reward_eta").
Proof.
  split; [reflexivity|].
  apply (@calc_reward_requires_eta Example.collaborators); [|reflexivity].
  eexists. apply example_kl_error.
Defined.

Lemma train_counts_one_update_witness :
  exists self' g',
    train (Example.engine (Fin 1) (Fin (1 / 2)) 0) 0%nat = Ok (self', g') /\
    _n_updates self' = 1%Z /\ num_timesteps self' = 0%Z.
Proof.
  destruct (@train_returns Example.collaborators _ _ _ _ _ _ _ 0%nat
              (engine_ready (Fin 1) (Fin (1 / 2)) 0)) as (self' & g' & E).
  destruct (train_counts_one_update _ _ _ _ E) as (Hn & Ht & _).
  exists self', g'. split; [exact E|]. split; [exact Hn|exact Ht].
Defined.

Lemma train_mc_effect_witness :
  exists s' fw_loss w_loss total,
    train_mc (Example.engine (Fin 1) (Fin (1 / 2)) 0) [[Fin 1]] [[Fin 2]] [[Fin 0]]
    = Ok s' /\
    bc2 Num.add fw_loss w_loss = Ok total /\
    actor s' = actor (Example.engine (Fin 1) (Fin (1 / 2)) 0) /\
    critic s' = critic (Example.engine (Fin 1) (Fin (1 / 2)) 0).
Proof.
  pose proof (engine_ready (Fin 1) (Fin (1 / 2)) 0) as Hr.
  destruct (train_mc_returns (Example.engine (Fin 1) (Fin (1 / 2)) 0)
              [[Fin 1]] [[Fin 2]] [[Fin 0]] (ready_logger _ _ _ _ _ _ _ Hr)
              (ready_mc_losses _ _ _ _ _ _ _ Hr)) as [s' E].
  destruct (train_mc_effect _ _ _ _ _ E)
    as (fw & w & total & _ & Ht & _ & Ha & Hc & _).
  exists s', fw, w, total. split; [exact E|]. split; [exact Ht|].
  split; [exact Ha|exact Hc].
Defined.

Lemma next_q_value_formula_witness :
  exists nq s' g' composed,
    next_q_value_of (Example.engine (Fin 1) (Fin (1 / 2)) 0) (Fin 1) [[Fin 1]] [[Fin 2]]
      (Example.transition (Fin 1)) 0%nat = Ok (nq, s', g') /\
    length nq = 1%nat /\
    (exists a, calc_reward (Example.engine (Fin 1) (Fin (1 / 2)) 0) [[Fin 1]] a
                 [[Fin 1]] false = Ok (composed, s')).
Proof.
  pose proof (engine_ready (Fin 1) (Fin (1 / 2)) 0) as Hr.
  destruct (@next_q_value_of_returns Example.collaborators 1 1 1 1
              (Example.engine (Fin 1) (Fin (1 / 2)) 0) (Fin 1) [[Fin 1]] [[Fin 2]]
              (Example.transition (Fin 1)) 0%nat
              (ready_logger _ _ _ _ _ _ _ Hr) (ready_eta _ _ _ _ _ _ _ Hr)
              (ready_actor _ _ _ _ _ _ _ Hr) (ready_next_obs_finite _ _ _ _ _ _ _ Hr)
              eq_refl (ready_target _ _ _ _ _ _ _ Hr)
              (fun a Ha => ready_kl _ _ _ _ _ _ _ Hr _ a Ha)
              (ready_rewards _ _ _ _ _ _ _ Hr) (ready_dones _ _ _ _ _ _ _ Hr))
    as (nq & s' & g' & E & L).
  destruct (next_q_value_formula _ _ _ _ _ _ _ _ _ E)
    as (nsa & nlp & qs & mt & soft & comp & _ & _ & _ & _ & Hc & _).
  exists nq, s', g', comp. split; [exact E|]. split; [exact L|]. by exists nsa.
Defined.


(** A warm-up step of the engine of the example returns: the action is
    drawn from the action space, the callback does not stop the loop and
    the step counter is 1. *)
Lemma rollout_example reward eta seed (cb g : nat) :
  exists s',
    collect_rollout (Example.engine reward eta seed) cb g = Ok (true, s', S cb, g) /\
    num_timesteps s' = 1%Z /\ learning_starts s' = 100%Z.
Proof.
  destruct (@collect_rollout_warmup_returns Example.collaborators Example.callbacks
              (Example.engine reward eta seed) cb g
              [Fin (-1)] (Example.environment reward) (ObsArray [[Fin 1]]) [reward]
              [false] [tt] (Example.environment reward) [[Fin 1]] [[Fin (1 * 1 / 2)]])
    as (s' & E & Hnt & Hls);
    [reflexivity|reflexivity|reflexivity|reflexivity|by eexists|by eexists
    |apply example_kl_error|reflexivity|reflexivity|by repeat constructor|].
  exists s'. split; [exact E|]. split; [exact Hnt|exact Hls].
Qed.

Lemma polyak_update_tau_one_witness :
  exists target' p t' y,
    polyak_update Num.one (critic (Example.engine (Fin 1) (Fin (1 / 2)) 5))
      (critic (Example.engine (Fin 1) (Fin (1 / 2)) 0)) = Ok target' /\
    CriticEnsemble_parameters (critic (Example.engine (Fin 1) (Fin (1 / 2)) 5)) !! 0%nat
    = Some p /\
    CriticEnsemble_parameters target' !! 0%nat = Some t' /\
    data p !! 0%nat = Some y /\ data t' !! 0%nat = Some y.
Proof.
  assert (same_sizes (critic (Example.engine (Fin 1) (Fin (1 / 2)) 5))
            (critic (Example.engine (Fin 1) (Fin (1 / 2)) 0))) as Hsz
    by repeat constructor.
  destruct (polyak_update_returns Num.one _ _ Hsz) as [target' E].
  destruct (polyak_update_tau_one _ _ _ 0%nat _ 0%nat _ E Hsz eq_refl eq_refl eq_refl)
    as (p & t' & y & H).
  by exists target', p, t', y.
Defined.

Lemma polyak_update_tau_zero_witness :
  exists target' t' x,
    polyak_update Num.zero (critic (Example.engine (Fin 1) (Fin (1 / 2)) 5))
      (critic (Example.engine (Fin 1) (Fin (1 / 2)) 0)) = Ok target' /\
    (t ← CriticEnsemble_parameters (critic (Example.engine (Fin 1) (Fin (1 / 2)) 0))
           !! 0%nat; data t !! 0%nat) = Some x /\
    CriticEnsemble_parameters target' !! 0%nat = Some t' /\ data t' !! 0%nat = Some x.
Proof.
  assert (same_sizes (critic (Example.engine (Fin 1) (Fin (1 / 2)) 5))
            (critic (Example.engine (Fin 1) (Fin (1 / 2)) 0))) as Hsz
    by repeat constructor.
  destruct (polyak_update_returns Num.zero _ _ Hsz) as [target' E].
  destruct (polyak_update_tau_zero _ _ _ 0%nat _ 0%nat _ E Hsz eq_refl eq_refl)
    as (t' & H1 & H2).
  - intros p y [= <-] [= <-]. reflexivity.
  - eexists target', t', _. split; [exact E|]. split; [reflexivity|]. by split.
Defined.

Lemma load_restores_actor_and_critic_witness :
  exists files' model g',
    save (Example.engine (Fin 1) (Fin (1 / 2)) 5) "checkpoint" ∅ = Ok files' /\
    load "checkpoint" (Example.environment (Fin 1)) (Example.kwargs (Fin (1 / 2)))
      false 0%nat files' = Ok (model, g') /\
    actor model = actor (Example.engine (Fin 1) (Fin (1 / 2)) 5) /\
    critic model = critic (Example.engine (Fin 1) (Fin (1 / 2)) 5).
Proof.
  destruct (save_returns (Example.engine (Fin 1) (Fin (1 / 2)) 5) "checkpoint" ∅)
    as [files' Es].
  destruct (load_example _ (Fin 1) (Fin (1 / 2)) _ _ _ eq_refl eq_refl Es)
    as [[model g'] El].
  exists files', model, g'. split; [exact Es|]. split; [exact El|].
  exact (load_restores_actor_and_critic _ _ _ _ _ _ _ _ _ _ Es El).
Defined.

Lemma saved_data_contents_witness :
  exists data,
    saved_data (Example.engine (Fin 1) (Fin (1 / 2)) 5) = Ok data /\
    data !! "env" = None /\ data !! "replay_buffer" = None /\
    data !! "tau" = Some (VFloat (Fin (5 / 1000))).
Proof.
  destruct (saved_data_returns (Example.engine (Fin 1) (Fin (1 / 2)) 5)) as [data E].
  destruct (saved_data_contents _ _ E) as (Hx & _ & _ & _ & Ht & _).
  exists data. split; [exact E|].
  split; [apply Hx; unfold excluded; by repeat constructor|].
  split; [apply Hx; unfold excluded; by repeat constructor|exact Ht].
Defined.

Lemma collect_rollout_effect_witness :
  exists self',
    collect_rollout (Example.engine (Fin 1) (Fin (1 / 2)) 0) 0%nat 0%nat
    = Ok (true, self', 1%nat, 0%nat) /\
    _last_obs self' = Some (ObsArray [[Fin 1]]) /\
    learned self' = learned (Example.engine (Fin 1) (Fin (1 / 2)) 0).
Proof.
  destruct (rollout_example (Fin 1) (Fin (1 / 2)) 0 0 0) as (s' & E & _).
  destruct (collect_rollout_effect _ _ _ _ _ _ _ E)
    as (a & lp & s1 & no & rw & dn & inf & _ & Hstep & Hlo & _ & Hl & _).
  exists s'. split; [exact E|]. split; [|exact Hl].
  cbn in Hstep. injection Hstep as <- _ _ _ _. exact Hlo.
Defined.

Lemma learn_loop_no_update_in_warmup_witness :
  exists self',
    learn_loop 1 1 (Example.engine (Fin 1) (Fin (1 / 2)) 0) 0%nat 0%nat
    = Ok (self', 1%nat, 0%nat) /\
    (num_timesteps self' <= learning_starts (Example.engine (Fin 1) (Fin (1 / 2)) 0))%Z /\
    critic self' = critic (Example.engine (Fin 1) (Fin (1 / 2)) 0) /\
    _n_updates self' = 0%Z.
Proof.
  destruct (rollout_example (Fin 1) (Fin (1 / 2)) 0 0 0) as (s' & E & Hnt & Hls).
  assert (learn_loop 1 1 (Example.engine (Fin 1) (Fin (1 / 2)) 0) 0%nat 0%nat
          = Ok (s', 1%nat, 0%nat)) as El.
  { cbn [learn_loop]. rewrite decide_True by (cbn; lia).
    rewrite E. cbn [mbind result_bind].
    rewrite decide_True by lia. rewrite decide_False by lia. reflexivity. }
  assert (num_timesteps s'
          <= learning_starts (Example.engine (Fin 1) (Fin (1 / 2)) 0))%Z as Hw.
  { rewrite Hnt. cbn. lia. }
  destruct (learn_loop_no_update_in_warmup _ _ _ _ _ _ _ _ El Hw) as (_ & Hc & _ & Hn).
  exists s'. split; [exact El|]. split; [exact Hw|]. split; [exact Hc|exact Hn].
Defined.

